(** * WVG web scrapers: the directory-to-record extraction pipeline

    A shallow embedding of the scraping scripts of the repository
    (ZZZWebScraperWVG.py, ZZZWebScraperWVGv2.py, ZZZWebScraperWVGv3.py and
    velocity_scraper.py) and the properties of the extraction pipeline
    that hold, or fail, on them.

    Conventions of the embedding.
    - A Python [str] is a [string] of 8-bit characters; [lower], [strip]
      and [isalpha] are the ASCII ones.
    - A Python [dict] with a fixed set of keys is a [Record]; the
      [contact_info] dict, whose keys vary, is a [gmap string string].
    - A page is what the HTTP client or the browser driver answers: a DOM
      tree for the BeautifulSoup scrapers, the answers of the driver to
      the queries of the code for the Selenium and Playwright ones.
    - A Python exception is an explicit error value; [print] and [logger]
      calls that a property speaks about are an explicit log.
    - [datetime.now()] is an input of the functions that read it. *)

From stdpp Require Import base option list strings gmap.
From Stdlib Require Import ZArith Lia Ascii String.

#[local] Open Scope string_scope.
#[local] Open Scope list_scope.

(** ** Python string operations *)

Module Str.

(** [str.isspace] on the ASCII range: TAB, LF, VT, FF, CR, the four
    separators FS, GS, RS, US, and the space. *)
Definition is_space (c : ascii) : bool :=
  let n := nat_of_ascii c in
  (((9 <=? n) && (n <=? 13)) || ((28 <=? n) && (n <=? 32)))%nat.

Definition is_upper (c : ascii) : bool :=
  let n := nat_of_ascii c in ((65 <=? n) && (n <=? 90))%nat.

Definition is_lower (c : ascii) : bool :=
  let n := nat_of_ascii c in ((97 <=? n) && (n <=? 122))%nat.

Definition is_digit (c : ascii) : bool :=
  let n := nat_of_ascii c in ((48 <=? n) && (n <=? 57))%nat.

(** [char.isalpha()] *)
Definition isalpha (c : ascii) : bool := is_upper c || is_lower c.

(** the word characters of [re]: [\w], used by [\b] *)
Definition is_word (c : ascii) : bool :=
  isalpha c || is_digit c || Ascii.eqb c "_".

Definition lower_char (c : ascii) : ascii :=
  if is_upper c then ascii_of_nat (nat_of_ascii c + 32) else c.

(** [s.lower()] *)
Fixpoint lower (s : string) : string :=
  match s with
  | EmptyString => EmptyString
  | String c r => String (lower_char c) (lower r)
  end.

(** [len(s)] *)
Definition len (s : string) : nat := String.length s.

(** [bool(s)]: a string is truthy when it is not empty *)
Definition truthy (s : string) : bool :=
  match s with EmptyString => false | String _ _ => true end.

Fixpoint lstrip (s : string) : string :=
  match s with
  | EmptyString => EmptyString
  | String c r => if is_space c then lstrip r else s
  end.

Fixpoint rstrip (s : string) : string :=
  match s with
  | EmptyString => EmptyString
  | String c r =>
      match rstrip r with
      | EmptyString => if is_space c then EmptyString else String c EmptyString
      | r' => String c r'
      end
  end.

(** [s.strip()] *)
Definition strip (s : string) : string := rstrip (lstrip s).

(** [s.startswith(p)] *)
Fixpoint startswith (s p : string) : bool :=
  match p, s with
  | EmptyString, _ => true
  | String _ _, EmptyString => false
  | String a p', String b s' => Ascii.eqb a b && startswith s' p'
  end.

(** [sub in s] *)
Fixpoint contains (sub s : string) : bool :=
  startswith s sub ||
  match s with
  | EmptyString => false
  | String _ r => contains sub r
  end.

(** [any(k in s for k in keys)] *)
Definition contains_any (keys : list string) (s : string) : bool :=
  existsb (fun k => contains k s) keys.

(** [s in keys], for a list of strings *)
Definition mem (s : string) (keys : list string) : bool :=
  existsb (String.eqb s) keys.

(** the head of a non-empty list of pieces gets one more character *)
Definition push (c : ascii) (pieces : list string) : list string :=
  match pieces with
  | [] => [String c EmptyString]
  | h :: t => String c h :: t
  end.

(** [s.split(c)] for a one-character separator *)
Fixpoint split_char (sep : ascii) (s : string) : list string :=
  match s with
  | EmptyString => [EmptyString]
  | String c r =>
      if Ascii.eqb c sep then EmptyString :: split_char sep r
      else push c (split_char sep r)
  end.

(** [s.split('\n')] *)
Definition split_lines (s : string) : list string :=
  split_char (ascii_of_nat 10) s.

(** [sep.join(l)] *)
Fixpoint join (sep : string) (l : list string) : string :=
  match l with
  | [] => EmptyString
  | [x] => x
  | x :: r => x +:+ sep +:+ join sep r
  end.

(** [s.replace(old, new)] for a non-empty [old]: the scan skips the
    characters of an occurrence it has just replaced. *)
Fixpoint replace_from (old new : string) (skip : nat) (s : string) : string :=
  match s with
  | EmptyString => EmptyString
  | String c r =>
      match skip with
      | S k => replace_from old new k r
      | O =>
          if startswith s old
          then new +:+ replace_from old new (String.length old - 1) r
          else String c (replace_from old new 0 r)
      end
  end.

Definition replace (old new s : string) : string := replace_from old new 0 s.

End Str.

(** ** Exceptions

    A call into a library (requests, Selenium, Playwright) either answers
    or raises; the message of the exception is what the [except] clauses
    print. *)

Inductive py (A : Type) : Type :=
| Ok (a : A)
| Exc (msg : string).
Arguments Ok {A} a.
Arguments Exc {A} msg.

(** ** The document tree of BeautifulSoup *)

Module Dom.

(** A node is a text node or a tag with its [class] tokens, its [href]
    attribute when it has one, and its children in document order. *)
#[warnings="-register-all"]
Inductive node : Type :=
| Text (s : string)
| Elem (tag : string) (classes : list string) (href : option string)
       (children : list node).

(** The nodes below [n], in document order ([Tag.descendants]). *)
Fixpoint descendants (n : node) : list node :=
  match n with
  | Text _ => []
  | Elem _ _ _ ch =>
      (fix below (l : list node) : list node :=
         match l with
         | [] => []
         | c :: r => c :: descendants c ++ below r
         end) ch
  end.

(** [Tag.get_text()]: the text nodes below, concatenated. *)
Fixpoint get_text (n : node) : string :=
  match n with
  | Text s => s
  | Elem _ _ _ ch =>
      (fix texts (l : list node) : string :=
         match l with
         | [] => EmptyString
         | c :: r => get_text c +:+ texts r
         end) ch
  end.

Definition tag_of (n : node) : option string :=
  match n with Text _ => None | Elem t _ _ _ => Some t end.

Definition classes_of (n : node) : list string :=
  match n with Text _ => [] | Elem _ c _ _ => c end.

Definition href_of (n : node) : option string :=
  match n with Text _ => None | Elem _ _ h _ => h end.

(** the tag name is one of [tags] *)
Definition has_tag (tags : list string) (n : node) : bool :=
  match tag_of n with Some t => Str.mem t tags | None => false end.

(** [class_=re.compile('a|b|c')]: the regular expression is searched in
    each token of the class attribute; for alternatives without a space
    that is the case when a token contains one of them. *)
Definition class_search (alts : list string) (n : node) : bool :=
  existsb (Str.contains_any alts) (classes_of n).

(** the CSS class selector [.name]: a class token equal to [name] *)
Definition has_class (names : list string) (n : node) : bool :=
  existsb (fun c => Str.mem c names) (classes_of n).

(** [href=re.compile('a|b')], and the CSS [[href*='a']]: the attribute is
    there and contains one of the alternatives *)
Definition href_search (alts : list string) (n : node) : bool :=
  match href_of n with
  | Some h => Str.contains_any alts h
  | None => false
  end.

(** [element.find_all(...)] with the test [p] *)
Definition find_all (p : node -> bool) (element : node) : list node :=
  List.filter p (descendants element).

(** [element.find(...)]: the first match in document order, or [None] *)
Definition find (p : node -> bool) (element : node) : option node :=
  List.find p (descendants element).

(** [Tag.get_text().strip()], and the [text] of a Selenium element,
    stripped *)
Definition text (n : node) : string := Str.strip (get_text n).

End Dom.

(** ** ZZZWebScraperWVG.py: [StartupFounderScraper] *)

Module WVG.
Import Dom.

(** The dict that [extract_founder_info] returns. *)
Record founder_info : Type := {
  founder_name : string;
  company_name : string;
  source : string;
  contact_info : gmap string string;
  scraped_date : string
}.

Definition headings : list string := ["h1"; "h2"; "h3"; "h4"; "h5"; "h6"].
Definition socials : list string := ["linkedin.com"; "twitter.com"; "x.com"].

(** [element.find(['h1', ..., 'h6']) or
     element.find('div', class_=re.compile(r'company|startup|name'))];
    a [Tag] is always truthy, so [or] takes the second only when the
    first is [None]. *)
Definition company_elem (element : node) : option node :=
  match find (has_tag headings) element with
  | Some e => Some e
  | None =>
      find (fun n => has_tag ["div"] n && class_search ["company"; "startup"; "name"] n)
           element
  end.

Definition founder_elem (element : node) : option node :=
  find (fun n => has_tag ["div"] n && class_search ["founder"; "ceo"; "director"] n)
       element.

(** [element.find('a', href=re.compile(pattern))] *)
Definition find_link (alts : list string) (element : node) : option string :=
  match find (fun n => has_tag ["a"] n && href_search alts n) element with
  | Some e => href_of e
  | None => None
  end.

(** [contact_info[key] = value] when [value] was found *)
Definition set_if (key : string) (value : option string)
    (contact : gmap string string) : gmap string string :=
  match value with
  | Some v => <[key := v]> contact
  | None => contact
  end.

(** the [website] entry: the first link with [http] in it, unless it
    names a social network *)
Definition website_of (element : node) : option string :=
  match find_link ["http"] element with
  | Some h => if Str.contains_any socials h then None else Some h
  | None => None
  end.

Definition contact_of (element : node) : gmap string string :=
  set_if "website" (website_of element)
    (set_if "twitter" (find_link ["twitter.com"; "x.com"] element)
      (set_if "linkedin" (find_link ["linkedin.com"] element)
        (set_if "email"
           (Str.replace "mailto:" EmptyString <$> find_link ["mailto:"] element)
           ∅))).

(** [extract_founder_info(element, source)]; [now] is
    [datetime.now().isoformat()].  No operation of the body raises on a
    document tree, so the [except] branch is not taken. *)
Definition extract_founder_info (now : string) (element : node) (src : string)
    : option founder_info :=
  let company := match company_elem element with
                 | Some e => text e
                 | None => EmptyString
                 end in
  let founder := match founder_elem element with
                 | Some e => text e
                 | None => EmptyString
                 end in
  let contact := contact_of element in
  if Str.truthy company || Str.truthy founder then
    Some {| founder_name := founder; company_name := company; source := src;
            contact_info := contact; scraped_date := now |}
  else None.

(** The state of the scraper object: the records found so far and the
    error reports printed by the [except] clauses. *)
Record scraper : Type := {
  founders_data : list founder_info;
  errors : list string
}.

Definition init : scraper := {| founders_data := []; errors := [] |}.

(** [requests.get(url)] followed by [raise_for_status()] and the parse:
    the document, or the exception of the HTTP client. *)
Definition web : Type := string -> py node.

(** the [for] loop of a source: the records of the candidates, in order *)
Definition extract_all (now : string) (src : string) (candidates : list node)
    : list founder_info :=
  omap (fun c => extract_founder_info now c src) candidates.

(** The common shape of the three directory scrapers. *)
Definition scrape_directory (now : string) (w : web) (url : string)
    (alts : list string) (src : string) (st : scraper) : scraper :=
  match w url with
  | Ok soup =>
      let candidates :=
        find_all (fun n => has_tag ["div"] n && class_search alts n) soup in
      {| founders_data := founders_data st ++ extract_all now src candidates;
         errors := errors st |}
  | Exc e =>
      {| founders_data := founders_data st;
         errors := errors st ++ ["Error scraping " +:+ src +:+ ": " +:+ e] |}
  end.

Definition scrape_velocity_incubator (now : string) (w : web) (st : scraper) : scraper :=
  scrape_directory now w "https://velocityincubator.com/companies/"
    ["company"; "startup"; "card"] "Velocity Incubator" st.

Definition scrape_communitech (now : string) (w : web) (st : scraper) : scraper :=
  scrape_directory now w "https://communitech.ca/startups/"
    ["startup"; "company"; "card"] "Communitech" st.

Definition regions : list string := ["waterloo"; "kitchener"; "cambridge"; "guelph"].

(** BetaKit: the articles that mention the region *)
Definition scrape_betakit (now : string) (w : web) (st : scraper) : scraper :=
  match w "https://betakit.com/" with
  | Ok soup =>
      let articles := find_all (has_tag ["article"]) soup in
      let local := List.filter
                     (fun a => Str.contains_any regions (Str.lower (get_text a)))
                     articles in
      {| founders_data := founders_data st ++ extract_all now "BetaKit" local;
         errors := errors st |}
  | Exc e =>
      {| founders_data := founders_data st;
         errors := errors st ++ ["Error scraping BetaKit: " +:+ e] |}
  end.

Definition scrape_innovation_guelph (now : string) (w : web) (st : scraper) : scraper :=
  scrape_directory now w "https://innovationguelph.ca/startups/"
    ["startup"; "company"; "card"] "Innovation Guelph" st.

Definition waterloo_keywords : list string :=
  ["waterloo"; "kitchener"; "cambridge"; "guelph"; "kw"; "kw region"].

Definition filter_waterloo_region (st : scraper) : scraper :=
  {| founders_data :=
       List.filter
         (fun f => Str.contains_any waterloo_keywords
                     (Str.lower (company_name f +:+ " " +:+ source f)))
         (founders_data st);
     errors := errors st |}.

(** the four sources of [run_scraping], before the region filter *)
Definition scrape_all (now : string) (w : web) (st : scraper) : scraper :=
  scrape_innovation_guelph now w
    (scrape_betakit now w
      (scrape_communitech now w
        (scrape_velocity_incubator now w st))).

(** [run_scraping()], up to the hand-over to [save_to_text] *)
Definition run_scraping (now : string) (w : web) : scraper :=
  filter_waterloo_region (scrape_all now w init).

End WVG.

(** ** ZZZWebScraperWVGv2.py: [AdvancedStartupScraper] *)

Module WVGv2.
Import Dom.

(** The dicts of this version; only [extract_dmz_info] sets the
    ['location'] key. *)
Record founder_info : Type := {
  founder_name : string;
  company_name : string;
  location : option string;
  source : string;
  contact_info : gmap string string;
  scraped_date : string
}.

(** [element.find_element(By.CSS_SELECTOR, ...)]: the first match below
    the element, [NoSuchElementException] when there is none. *)
Definition find_element (p : node -> bool) (element : node) : py node :=
  match find p element with
  | Some e => Ok e
  | None => Exc "no such element"
  end.

(** [element.find_elements(By.CSS_SELECTOR, ...)] *)
Definition find_elements (p : node -> bool) (element : node) : list node :=
  find_all p element.

(** ["h1, h2, h3, .company-name, .startup-name"] *)
Definition angel_name_selector (n : node) : bool :=
  has_tag ["h1"; "h2"; "h3"] n || has_class ["company-name"; "startup-name"] n.

(** [".founder, .ceo, .team-member"] *)
Definition angel_founder_selector (n : node) : bool :=
  has_class ["founder"; "ceo"; "team-member"] n.

(** ["a[href*='http']"] *)
Definition http_link_selector (n : node) : bool :=
  has_tag ["a"] n && href_search ["http"] n.

(** [extract_angel_list_info(company_element)]: a missing sub-element
    raises, the [except] clause returns [None]; a Selenium element is
    always truthy. *)
Definition extract_angel_list_info (now : string) (company_element : node)
    : option founder_info :=
  match find_element angel_name_selector company_element with
  | Exc _ => None
  | Ok name_elem =>
      let company := text name_elem in
      match find_element angel_founder_selector company_element with
      | Exc _ => None
      | Ok felem =>
          let founder := text felem in
          match find_element http_link_selector company_element with
          | Exc _ => None
          | Ok website_elem =>
              let contact : gmap string string :=
                match href_of website_elem with
                | Some h => <["website" := h]> ∅
                | None => ∅
                end in
              Some {| founder_name := founder; company_name := company;
                      location := None; source := "AngelList";
                      contact_info := contact; scraped_date := now |}
          end
      end
  end.

(** [extract_velocity_fund_info(element)]: BeautifulSoup again, with the
    website as the only contact channel. *)
Definition extract_velocity_fund_info (now : string) (element : node)
    : option founder_info :=
  let company := match WVG.company_elem element with
                 | Some e => text e
                 | None => EmptyString
                 end in
  let founder := match WVG.founder_elem element with
                 | Some e => text e
                 | None => EmptyString
                 end in
  let contact : gmap string string :=
    WVG.set_if "website" (WVG.find_link ["http"] element) ∅ in
  if Str.truthy company || Str.truthy founder then
    Some {| founder_name := founder; company_name := company;
            location := None; source := "Velocity Fund";
            contact_info := contact; scraped_date := now |}
  else None.

(** The name loop of [extract_dmz_info]: the selectors in turn; the first
    one without a match raises and ends the search. *)
Fixpoint dmz_company_name (selectors : list (node -> bool)) (element : node) : string :=
  match selectors with
  | [] => EmptyString
  | sel :: rest =>
      match find_element sel element with
      | Exc _ => EmptyString
      | Ok name_elem =>
          if Str.truthy (text name_elem) then text name_elem
          else dmz_company_name rest element
      end
  end.

Definition dmz_name_selectors : list (node -> bool) :=
  [has_tag ["h1"]; has_tag ["h2"]; has_tag ["h3"]; has_tag ["h4"];
   has_tag ["h5"]; has_tag ["h6"];
   class_search ["company-name"]; class_search ["startup-name"]].

(** ["[class*='team']", "[class*='founder']", "[class*='member']", "p"] *)
Definition dmz_team_selectors : list (node -> bool) :=
  [class_search ["team"]; class_search ["founder"]; class_search ["member"];
   has_tag ["p"]].

Definition dmz_role_keywords : list string :=
  ["founder"; "ceo"; "co-founder"; "founder"].

(** [text and any(keyword in text.lower() for keyword in [...])] *)
Definition dmz_is_role (t : string) : bool :=
  Str.truthy t && Str.contains_any dmz_role_keywords (Str.lower t).

(** The founder loop of [extract_dmz_info]: every selector, every element
    of it, every text with a role keyword is appended. *)
Definition dmz_founder_names (element : node) : list string :=
  flat_map
    (fun sel => List.filter dmz_is_role (map text (find_elements sel element)))
    dmz_team_selectors.

Definition dmz_location (element : node) : string :=
  match find_element (class_search ["location"; "city"; "address"]) element with
  | Ok e => text e
  | Exc _ => EmptyString
  end.

Definition dmz_socials : list string :=
  ["linkedin.com"; "twitter.com"; "x.com"; "facebook.com"].

Definition dmz_contact (element : node) : gmap string string :=
  let website :=
    match find_element http_link_selector element with
    | Ok e =>
        match href_of e with
        | Some h =>
            if Str.truthy h && negb (Str.contains_any dmz_socials h)
            then Some h else None
        | None => None
        end
    | Exc _ => None
    end in
  let linkedin :=
    match find_element (fun n => has_tag ["a"] n && href_search ["linkedin.com"] n)
                       element with
    | Ok e => href_of e
    | Exc _ => None
    end in
  WVG.set_if "linkedin" linkedin (WVG.set_if "website" website ∅).

(** [extract_dmz_info(element)] *)
Definition extract_dmz_info (now : string) (element : node) : option founder_info :=
  let company := dmz_company_name dmz_name_selectors element in
  let founder_names := dmz_founder_names element in
  let founder := Str.join " | " founder_names in
  if Str.truthy company || Str.truthy founder then
    Some {| founder_name := founder; company_name := company;
            location := Some (dmz_location element);
            source := "DMZ Startup Directory";
            contact_info := dmz_contact element; scraped_date := now |}
  else None.

End WVGv2.

(** ** ZZZWebScraperWVGv3.py: [ImprovedStartupScraper] *)

Module WVGv3.

(** The dicts of this version: no contact channels; the Velocity records
    have no ['location'] key. *)
Record company : Type := {
  founder_name : string;
  company_name : string;
  location : option string;
  source : string;
  scraped_date : string
}.

(** What Selenium answers.  Of an element the code reads only [text],
    which may raise (a stale element). *)
Definition elements : Type := list (py string).

Record container : Type := {
  ctext : string;                          (* container.text *)
  find_css : string -> py elements         (* container.find_elements(By.CSS_SELECTOR, _) *)
}.

Record page : Type := {
  body : container;                        (* driver.find_element(By.TAG_NAME, "body") *)
  find_container : string -> py container; (* driver.find_element(By.CSS_SELECTOR, _) *)
  find_xpath : string -> py elements       (* driver.find_elements(By.XPATH, _) *)
}.

Definition potential_containers : list string :=
  ["main"; "[role='main']"; ".startup-directory"; ".company-directory";
   ".companies"; ".startups"; "div[class*='directory']"; "div[class*='grid']";
   "div[class*='list']"].

(** the first container with more than 1000 characters of text *)
Fixpoint pick_container (p : page) (selectors : list string) : option container :=
  match selectors with
  | [] => None
  | sel :: rest =>
      match find_container p sel with
      | Ok c => if (1000 <? Str.len (ctext c))%nat then Some c
                else pick_container p rest
      | Exc _ => pick_container p rest
      end
  end.

Definition main_container (p : page) : container :=
  match pick_container p potential_containers with
  | Some c => c
  | None => body p
  end.

Definition company_selectors : list string :=
  ["div:contains('Visit Company')"; "div:contains('Our Team')"; "article";
   "section"; "[class*='card']"; "[class*='item']"; "[class*='company']";
   "[class*='startup']"].

Definition xpath_visit : string :=
  "//*[contains(text(), 'Visit Company')]/ancestor::div[1]".
Definition xpath_team : string :=
  "//*[contains(text(), 'Our Team')]/ancestor::div[1]".

(** the elements of one locator strategy *)
Definition elements_for (p : page) (main : container) (selector : string) : py elements :=
  if Str.contains "contains" selector then
    if Str.contains "Visit Company" selector then find_xpath p xpath_visit
    else if Str.contains "Our Team" selector then find_xpath p xpath_team
    else Ok []
  else find_css main selector.

Definition stop_words : list string :=
  ["current"; "alumni"; "acquired"; "visit company"; "our team"].
Definition categories : list string :=
  ["b2b"; "b2c"; "saas"; "ai"; "fintech"; "healthtech"; "edtech"].
Definition cities : list string :=
  ["toronto"; "kitchener"; "waterloo"; "cambridge"; "guelph"; "ontario"; "on";
   "markham"; "etobicoke"; "ottawa"; "montreal"; "vancouver"; "calgary"].
Definition titles : list string := ["ceo"; "founder"; "co-founder"; "president"].
Definition target_regions : list string :=
  ["waterloo"; "kitchener"; "cambridge"; "guelph"; "hamilton"].

(** The three variables of the line scan. *)
Record fields : Type := {
  f_company : string;
  f_location : string;
  f_founders : list string
}.

Definition no_fields : fields :=
  {| f_company := EmptyString; f_location := EmptyString; f_founders := [] |}.

(** the stop-word test of the scan *)
Definition is_stop (line : string) : bool := Str.mem (Str.lower line) stop_words.

(** the outer test of the company-name rule *)
Definition name_rule (company line : string) : bool :=
  negb (Str.truthy company) && (2 <? Str.len line)%nat && (Str.len line <? 100)%nat.

Definition is_city (line : string) : bool := Str.contains_any cities (Str.lower line).
Definition is_title (line : string) : bool := Str.contains_any titles (Str.lower line).

(** One line of the scan: the body of [for i, line in enumerate(lines)]. *)
Definition classify_line (f : fields) (line : string) : fields :=
  if is_stop line then f
  else if name_rule (f_company f) line then
    if negb (Str.contains_any categories (Str.lower line))
    then {| f_company := line; f_location := f_location f;
            f_founders := f_founders f |}
    else f
  else if is_city line then
    {| f_company := f_company f; f_location := line; f_founders := f_founders f |}
  else if is_title line then
    {| f_company := f_company f; f_location := f_location f;
       f_founders := f_founders f ++ [line] |}
  else f.

Definition classify_from (f : fields) (lines : list string) : fields :=
  fold_left classify_line lines f.

(** [[line.strip() for line in element_text.split('\n') if line.strip()]] *)
Definition lines_of (element_text : string) : list string :=
  List.filter Str.truthy (map Str.strip (Str.split_lines element_text)).

Definition classify (element_text : string) : fields :=
  classify_from no_fields (lines_of element_text).

(** [len(element_text) < 20]: the element is skipped *)
Definition too_short (element_text : string) : bool :=
  (Str.len element_text <? 20)%nat.

(** The state of the DOM pass: the local [found_companies] and
    [self.founders_data]. *)
Record dmz : Type := {
  found_companies : list company;
  founders_data : list company
}.

Definition known (name : string) (l : list company) : bool :=
  existsb (fun existing => String.eqb (company_name existing) name) l.

Definition dmz_record (now : string) (f : fields) : company :=
  {| founder_name := Str.join " | " (f_founders f);
     company_name := f_company f;
     location := Some (f_location f);
     source := "DMZ Startup Directory";
     scraped_date := now |}.

(** the candidate passes the three tests before the append *)
Definition qualifies (f : fields) : bool :=
  Str.truthy (f_company f) && Str.truthy (f_location f) &&
  Str.contains_any target_regions (Str.lower (f_location f)).

(** The end of the body of [for element in elements[:50]], behind the
    line scan: the record is appended when the candidate qualifies and its
    company name is new; the flag is [true] when the body executes
    [return], the cap being reached. *)
Definition record_candidate (now : string) (max_companies : Z) (f : fields)
    (st : dmz) : dmz * bool :=
  if qualifies f && negb (known (f_company f) (found_companies st)) then
    let company_data := dmz_record now f in
    let st' := {| found_companies := found_companies st ++ [company_data];
                  founders_data := founders_data st ++ [company_data] |} in
    (st', (max_companies <=? Z.of_nat (List.length (founders_data st')))%Z)
  else (st, false).

(** The body of [for element in elements[:50]]. *)
Definition process_element (now : string) (max_companies : Z) (element : py string)
    (st : dmz) : dmz * bool :=
  match element with
  | Exc _ => (st, false)
  | Ok raw =>
      let element_text := Str.strip raw in
      if too_short element_text then (st, false)
      else record_candidate now max_companies (classify element_text) st
  end.

Fixpoint process_elements (now : string) (max_companies : Z) (els : elements)
    (st : dmz) : dmz * bool :=
  match els with
  | [] => (st, false)
  | element :: rest =>
      let '(st', stop) := process_element now max_companies element st in
      if stop then (st', true)
      else process_elements now max_companies rest st'
  end.

(** [for selector in company_selectors]: every strategy in turn; an error
    of the query is printed and the loop goes on. *)
Fixpoint dom_pass (now : string) (max_companies : Z) (p : page) (main : container)
    (selectors : list string) (st : dmz) : dmz * bool :=
  match selectors with
  | [] => (st, false)
  | selector :: rest =>
      match elements_for p main selector with
      | Exc _ => dom_pass now max_companies p main rest st
      | Ok els =>
          let '(st', stop) :=
            process_elements now max_companies (firstn 50 els) st in
          if stop then (st', true)
          else dom_pass now max_companies p main rest st'
      end
  end.

Definition text_stop_words : list string :=
  ["current"; "alumni"; "acquired"; "visit company"; "our team"; "ai"; "b2b";
   "b2c"; "saas"].
Definition text_cities : list string :=
  ["toronto"; "kitchener"; "waterloo"; "cambridge"; "guelph"; "ontario";
   "markham"; "etobicoke"; "ottawa"].

(** a line of the page that may be a company name *)
Definition name_like (line : string) : bool :=
  (3 <? Str.len line)%nat && (Str.len line <? 100)%nat &&
  negb (Str.mem (Str.lower line) text_stop_words) &&
  negb (Str.startswith line "#") &&
  existsb Str.isalpha (list_ascii_of_string line).

(** [for j in range(i+1, min(i+10, len(text_lines)))]: the first of the
    next nine lines that names a city *)
Definition next_location (rest : list string) : string :=
  match List.find (fun l => Str.contains_any text_cities (Str.lower l))
                  (map Str.strip (firstn 9 rest)) with
  | Some l => l
  | None => EmptyString
  end.

(** one iteration of the [while] loop of the text fallback *)
Definition text_step (now : string) (raw : string) (rest : list string)
    (data : list company) : list company :=
  let line := Str.strip raw in
  if name_like line then
    let loc := next_location rest in
    if Str.truthy loc && Str.contains_any target_regions (Str.lower loc)
       && negb (known line data)
    then data ++ [{| founder_name := EmptyString; company_name := line;
                     location := Some loc; source := "DMZ Startup Directory";
                     scraped_date := now |}]
    else data
  else data.

(** [while i < len(text_lines) and len(self.founders_data) < self.max_companies] *)
Fixpoint text_parse (now : string) (max_companies : Z) (text_lines : list string)
    (data : list company) : list company :=
  match text_lines with
  | [] => data
  | raw :: rest =>
      if (Z.of_nat (List.length data) <? max_companies)%Z
      then text_parse now max_companies rest (text_step now raw rest data)
      else data
  end.

(** The body of [scrape_dmz_improved] on a loaded page. *)
Definition scrape_page (now : string) (max_companies : Z) (p : page)
    (data : list company) : list company :=
  let page_text := ctext (body p) in
  let '(st, stop) :=
    dom_pass now max_companies p (main_container p) company_selectors
      {| found_companies := []; founders_data := data |} in
  if stop then founders_data st
  else
    match found_companies st with
    | [] => text_parse now max_companies (Str.split_lines page_text)
              (founders_data st)
    | _ :: _ => founders_data st
    end.

(** [scrape_dmz_improved()]: no driver, a navigation that raises, or a
    page. *)
Definition scrape_dmz_improved (now : string) (max_companies : Z)
    (session : option (py page)) (data : list company) : list company :=
  match session with
  | None => data
  | Some (Exc _) => data
  | Some (Ok p) => scrape_page now max_companies p data
  end.

(** [run_improved_scraping()]: the DMZ directory is the only source that
    is not commented out; [self.founders_data] starts empty. *)
Definition run_improved_scraping (now : string) (max_companies : Z)
    (session : option (py page)) : list company :=
  scrape_dmz_improved now max_companies session [].

Definition velocity_keywords : list string :=
  ["founder"; "ceo"; "co-founder"; "founder &"; "co-founder &"].

(** The founder loop of [scrape_velocity_improved]: the first text with a
    role keyword, then [break]; an element whose [text] raises ends the
    search with what was found, that is nothing. *)
Fixpoint velocity_founder_name (founder_elements : elements) : string :=
  match founder_elements with
  | [] => EmptyString
  | Exc _ :: _ => EmptyString
  | Ok raw :: rest =>
      let t := Str.strip raw in
      if Str.truthy t && Str.contains_any velocity_keywords (Str.lower t)
      then t
      else velocity_founder_name rest
  end.

End WVGv3.

(** ** The regular expressions of velocity_scraper.py

    The patterns of [extract_velocity_join_year] are sequences of a
    literal, a repeated character class and a group of four digits.  In
    each of them a repeated class is followed by a character outside the
    class, so the leftmost greedy match below is the match of [re]. *)

Module Re.

Inductive atom : Type :=
| Lit (s : string)            (* a literal, under re.IGNORECASE *)
| Spaces1                     (* \s+ *)
| Seps1                       (* [:\s]+ *)
| Seps0                       (* [:\s]* *)
| Digits4                     (* (\d{4}), the group that findall returns *)
| Words (alts : list string). (* (?:a|b|c), under re.IGNORECASE *)

Definition is_sep (c : ascii) : bool := Ascii.eqb c ":" || Str.is_space c.

(** the rest of [s] after the literal [lit], compared without case *)
Fixpoint eat_lit (lit s : string) : option string :=
  match lit, s with
  | EmptyString, _ => Some s
  | String _ _, EmptyString => None
  | String a lit', String b s' =>
      if Ascii.eqb (Str.lower_char a) (Str.lower_char b) then eat_lit lit' s'
      else None
  end.

(** the rest of [s] after the longest run of characters of the class *)
Fixpoint eat_class (cls : ascii -> bool) (s : string) : string :=
  match s with
  | EmptyString => EmptyString
  | String c r => if cls c then eat_class cls r else s
  end.

(** one or more characters of the class *)
Definition eat_class1 (cls : ascii -> bool) (s : string) : option string :=
  match s with
  | EmptyString => None
  | String c r => if cls c then Some (eat_class cls r) else None
  end.

(** four digits: the group and the rest *)
Definition eat_digits4 (s : string) : option (string * string) :=
  match s with
  | String a (String b (String c (String d r))) =>
      if Str.is_digit a && Str.is_digit b && Str.is_digit c && Str.is_digit d
      then Some (String a (String b (String c (String d EmptyString))), r)
      else None
  | _ => None
  end.

(** the first alternative that matches *)
Fixpoint eat_words (alts : list string) (s : string) : option string :=
  match alts with
  | [] => None
  | w :: rest =>
      match eat_lit w s with
      | Some r => Some r
      | None => eat_words rest s
      end
  end.

(** [match_at p group s]: the pattern at the start of [s]; the result is
    the group and what is left of [s]. *)
Fixpoint match_at (p : list atom) (group : string) (s : string)
    : option (string * string) :=
  match p with
  | [] => Some (group, s)
  | a :: p' =>
      match a with
      | Lit l =>
          match eat_lit l s with
          | Some r => match_at p' group r
          | None => None
          end
      | Spaces1 =>
          match eat_class1 Str.is_space s with
          | Some r => match_at p' group r
          | None => None
          end
      | Seps1 =>
          match eat_class1 is_sep s with
          | Some r => match_at p' group r
          | None => None
          end
      | Seps0 => match_at p' group (eat_class is_sep s)
      | Digits4 =>
          match eat_digits4 s with
          | Some (g, r) => match_at p' g r
          | None => None
          end
      | Words alts =>
          match eat_words alts s with
          | Some r => match_at p' group r
          | None => None
          end
      end
  end.

(** [re.findall(p, s, re.IGNORECASE)]: the groups of the matches, from
    left to right; the scan goes on behind each match. *)
Fixpoint findall_from (p : list atom) (skip : nat) (s : string) : list string :=
  match s with
  | EmptyString => []
  | String _ r =>
      match skip with
      | S k => findall_from p k r
      | O =>
          match match_at p EmptyString s with
          | Some (g, rest) =>
              g :: findall_from p (String.length s - String.length rest - 1) r
          | None => findall_from p 0 r
          end
      end
  end.

Definition findall (p : list atom) (s : string) : list string :=
  findall_from p 0 s.

(** [202[3-5]] followed by a word boundary, at the start of [s] *)
Definition year_here (s : string) : option string :=
  match s with
  | String a (String b (String c (String d r))) =>
      if Ascii.eqb a "2" && Ascii.eqb b "0" && Ascii.eqb c "2" &&
         (Ascii.eqb d "3" || Ascii.eqb d "4" || Ascii.eqb d "5") &&
         match r with
         | EmptyString => true
         | String e _ => negb (Str.is_word e)
         end
      then Some (String a (String b (String c (String d EmptyString))))
      else None
  | _ => None
  end.

(** [re.findall(r'\b(202[3-5])\b', s)].  [after_word] tells whether the
    character before [s] is a word character; a match starts at a word
    boundary, and no match starts inside another one, its characters
    being word characters. *)
Fixpoint recent_years_from (after_word : bool) (s : string) : list string :=
  match s with
  | EmptyString => []
  | String c r =>
      let here := if after_word then None else year_here s in
      match here with
      | Some y => y :: recent_years_from (Str.is_word c) r
      | None => recent_years_from (Str.is_word c) r
      end
  end.

Definition recent_years (s : string) : list string := recent_years_from false s.

Definition digit_value (c : ascii) : Z := Z.of_nat (nat_of_ascii c) - 48.

(** [int(s)] for a string of digits *)
Definition int (s : string) : Z :=
  fold_left (fun acc c => 10 * acc + digit_value c)%Z (list_ascii_of_string s) 0%Z.

End Re.

(** ** velocity_scraper.py: [VelocityLinkedInScraper] *)

Module Velocity.

(** the double quote of the selectors that are written with it *)
Definition dq : string := String (ascii_of_nat 34) EmptyString.

(** The dict of a company. *)
Record company_data : Type := {
  Company : string;
  Founders : list string;
  Linkedins : list string
}.

(** What Playwright answers on a company page: for a selector, the
    [text_content()] or the [href] of each element of
    [page.locator(selector).all()], of [page.locator(selector).first],
    the HTML of [page.content()] and [page.title()].  Every call may
    raise; [text_content()] and [get_attribute()] may answer [None]. *)
Record company_page : Type := {
  all_texts : string -> py (list (py (option string)));
  first_text : string -> py (option string);
  content : py string;
  title : py string
}.

Definition join_year_selectors : list string :=
  ["text=/year joined/i"; "text=/joined.*202[3-5]/i"; "text=/velocity.*202[3-5]/i";
   "[class*=" +:+ dq +:+ "year" +:+ dq +:+ "]";
   "[class*=" +:+ dq +:+ "joined" +:+ dq +:+ "]"].

(** the body of [for element in elements] of the first loop: [Some y]
    when it returns [y]; [None] when the elements are exhausted or one of
    them raises, and the next selector is tried *)
Fixpoint year_of_elements (els : list (py (option string))) : option Z :=
  match els with
  | [] => None
  | Exc _ :: _ => None
  | Ok None :: rest => year_of_elements rest
  | Ok (Some t) :: rest =>
      if Str.truthy t &&
         (Str.contains "joined" (Str.lower t) || Str.contains "velocity" (Str.lower t))
      then match Re.recent_years t with
           | y :: _ => Some (Re.int y)
           | [] => year_of_elements rest
           end
      else year_of_elements rest
  end.

Fixpoint year_of_selectors (p : company_page) (selectors : list string) : option Z :=
  match selectors with
  | [] => None
  | sel :: rest =>
      match all_texts p sel with
      | Exc _ => year_of_selectors p rest
      | Ok els =>
          match year_of_elements els with
          | Some y => Some y
          | None => year_of_selectors p rest
          end
      end
  end.

Definition join_patterns : list (list Re.atom) :=
  [ [Re.Lit "year"; Re.Spaces1; Re.Lit "joined"; Re.Seps1; Re.Digits4];
    [Re.Lit "joined"; Re.Seps1; Re.Digits4];
    [Re.Lit "velocity"; Re.Seps1; Re.Digits4];
    [Re.Lit "since"; Re.Seps1; Re.Digits4];
    [Re.Digits4; Re.Seps0; Re.Words ["joined"; "velocity"; "program"]] ].

(** [for match in matches]: the first year between 2023 and 2025 *)
Definition year_in_range (matches : list string) : option Z :=
  List.find (fun year => (2023 <=? year)%Z && (year <=? 2025)%Z) (map Re.int matches).

Fixpoint year_of_patterns (patterns : list (list Re.atom)) (html : string) : option Z :=
  match patterns with
  | [] => None
  | pat :: rest =>
      match year_in_range (Re.findall pat html) with
      | Some y => Some y
      | None => year_of_patterns rest html
      end
  end.

(** [min(int(year) for year in recent_years)] of a non-empty list *)
Definition min_year (years : list string) : option Z :=
  match map Re.int years with
  | [] => None
  | y :: ys => Some (fold_left Z.min ys y)
  end.

(** [extract_velocity_join_year(page)] *)
Definition extract_velocity_join_year (p : company_page) : option Z :=
  match year_of_selectors p join_year_selectors with
  | Some y => Some y
  | None =>
      match content p with
      | Exc _ => None
      | Ok html =>
          match year_of_patterns join_patterns html with
          | Some y => Some y
          | None => min_year (Re.recent_years html)
          end
      end
  end.

Definition name_selectors : list string :=
  ["h1"; ".company-name";
   "[class*=" +:+ dq +:+ "company" +:+ dq +:+ "][class*=" +:+ dq +:+ "name" +:+ dq +:+ "]";
   "[class*=" +:+ dq +:+ "title" +:+ dq +:+ "]"; "title"].

Fixpoint name_of_selectors (p : company_page) (selectors : list string) : option string :=
  match selectors with
  | [] => None
  | sel :: rest =>
      match first_text p sel with
      | Ok (Some t) =>
          if (0 <? Str.len (Str.strip t))%nat then Some (Str.strip t)
          else name_of_selectors p rest
      | Ok None => name_of_selectors p rest
      | Exc _ => name_of_selectors p rest
      end
  end.

(** [title.split('|')[0]] *)
Definition before_bar (t : string) : string :=
  match Str.split_char "|" t with
  | h :: _ => h
  | [] => EmptyString
  end.

(** [extract_company_name(page)] *)
Definition extract_company_name (p : company_page) : string :=
  match name_of_selectors p name_selectors with
  | Some n => n
  | None =>
      match title p with
      | Ok t =>
          if Str.truthy t && Str.contains "|" t then Str.strip (before_bar t)
          else if Str.truthy t then Str.strip t
          else "Unknown Company"
      | Exc _ => "Unknown Company"
      end
  end.

(** What Playwright answers on the directory page: the links of a
    selector, each with its [href] and its text. *)
Record link : Type := {
  href : py (option string);
  link_text : py (option string)
}.

Record directory_page : Type := {
  links_of : string -> py (list link)
}.

Definition company_selectors : list string :=
  ["a[href*=" +:+ dq +:+ "/company/" +:+ dq +:+ "]";
   "a[href*=" +:+ dq +:+ "/companies/" +:+ dq +:+ "]";
   ".company-card a";
   "[class*=" +:+ dq +:+ "company" +:+ dq +:+ "] a";
   "a:has-text(" +:+ dq +:+ "View" +:+ dq +:+ ")";
   "a:has-text(" +:+ dq +:+ "Company" +:+ dq +:+ ")"].

Definition absolute (h : string) : string :=
  if Str.startswith h "/" then "https://www.velocityincubator.com" +:+ h else h.

Definition mentions_company (s : string) : bool :=
  Str.contains "company" (Str.lower s) || Str.contains "view" (Str.lower s).

(** [for link in links] of a strategy; the flag is [true] when a link
    raises, with the links appended so far *)
Fixpoint scan_links (links : list link) (company_links : list string)
    : list string * bool :=
  match links with
  | [] => (company_links, false)
  | l :: rest =>
      match href l with
      | Exc _ => (company_links, true)
      | Ok None => scan_links rest company_links
      | Ok (Some h) =>
          if Str.truthy h && mentions_company h
          then scan_links rest (company_links ++ [absolute h])
          else scan_links rest company_links
      end
  end.

(** [for selector in company_selectors]: [break] after the first strategy
    that ends with a non-empty [company_links]; [continue] on an error *)
Fixpoint try_selectors (p : directory_page) (selectors : list string)
    (company_links : list string) : list string :=
  match selectors with
  | [] => company_links
  | sel :: rest =>
      match links_of p sel with
      | Exc _ => try_selectors p rest company_links
      | Ok links =>
          let '(found, raised) := scan_links links company_links in
          if raised then try_selectors p rest found
          else match found with
               | _ :: _ => found
               | [] => try_selectors p rest found
               end
      end
  end.

(** the fallback over all the links of the page; an error here leaves
    the [try] block of [scrape_velocity_companies] *)
Fixpoint scan_all_links (links : list link) (company_links : list string)
    : py (list string) :=
  match links with
  | [] => Ok company_links
  | l :: rest =>
      match href l with
      | Exc e => Exc e
      | Ok h =>
          match link_text l with
          | Exc e => Exc e
          | Ok t =>
              match h, t with
              | Some h', Some t' =>
                  if Str.truthy h' && Str.truthy t' && mentions_company t'
                  then scan_all_links rest (company_links ++ [absolute h'])
                  else scan_all_links rest company_links
              | _, _ => scan_all_links rest company_links
              end
          end
      end
  end.

(** the links of the directory page, before [list(set(company_links))] *)
Definition collect_links (p : directory_page) : py (list string) :=
  match try_selectors p company_selectors [] with
  | [] =>
      match links_of p "a" with
      | Exc e => Exc e
      | Ok links => scan_all_links links []
      end
  | found => Ok found
  end.

(** The browser: the directory page and the company pages, each after
    [goto] and [wait_for_page_load]. *)
Record browser : Type := {
  directory : py directory_page;
  company_at : string -> py company_page
}.

Section Scraper.

(** [list(set(l))]: the order of a Python set of strings is not fixed. *)
Variable list_set : list string -> list string.

(** [extract_founders], [extract_company_linkedin] and
    [extract_founder_linkedins], which no property below depends on. *)
Variable extract_founders : company_page -> list string.
Variable extract_company_linkedin : company_page -> option string.
Variable extract_founder_linkedins : string -> list string -> list string.

(** the extraction of [process_company] behind the join-year test *)
Definition extract_company (p : company_page) : option company_data :=
  let company_name := extract_company_name p in
  let founders := extract_founders p in
  let linkedin_url := extract_company_linkedin p in
  if negb (Str.truthy company_name) then None
  else
    Some {| Company := company_name;
            Founders := founders;
            Linkedins :=
              match linkedin_url, founders with
              | Some url, _ :: _ =>
                  if Str.truthy url then extract_founder_linkedins url founders
                  else []
              | _, _ => []
              end |}.

(** The body of [process_company] once [join_year] is known. *)
Definition process_company_from (join_year : option Z) (p : company_page)
    : option company_data :=
  match join_year with
  | Some y => if (y <? 2023)%Z then None else extract_company p
  | None => extract_company p
  end.

(** [process_company(company_url)]; a navigation that raises is caught
    and gives [None]. *)
Definition process_company (b : browser) (company_url : string)
    : option company_data :=
  match company_at b company_url with
  | Exc _ => None
  | Ok p => process_company_from (extract_velocity_join_year p) p
  end.

(** [for i, company_url in enumerate(company_links, 1)] with the counter
    [successful_companies] *)
Fixpoint process_links (b : browser) (max_companies : Z) (company_links : list string)
    (successful_companies : Z) (companies_data : list company_data)
    : list company_data :=
  match company_links with
  | [] => companies_data
  | company_url :: rest =>
      if (max_companies <=? successful_companies)%Z then companies_data
      else
        match process_company b company_url with
        | Some data =>
            process_links b max_companies rest (successful_companies + 1)
              (companies_data ++ [data])
        | None =>
            process_links b max_companies rest successful_companies companies_data
        end
  end.

(** [scrape_velocity_companies(max_companies)] *)
Definition scrape_velocity_companies (b : browser) (max_companies : Z)
    (companies_data : list company_data) : list company_data :=
  match directory b with
  | Exc _ => companies_data
  | Ok p =>
      match collect_links p with
      | Exc _ => companies_data
      | Ok company_links =>
          process_links b max_companies (list_set company_links) 0 companies_data
      end
  end.

End Scraper.

(** A row of the sheet of [export_to_excel]. *)
Record row : Type := {
  row_company : string;
  row_founders : string;
  row_linkedins : string
}.

(** ['; '.join(values) if values else ''] *)
Definition cell (values : list string) : string := Str.join "; " values.

Definition export_row (c : company_data) : row :=
  {| row_company := Company c;
     row_founders := cell (Founders c);
     row_linkedins := cell (Linkedins c) |}.

(** the rows of [export_to_excel]; nothing is written for no data *)
Definition export_to_excel (companies_data : list company_data) : option (list row) :=
  match companies_data with
  | [] => None
  | _ :: _ => Some (map export_row companies_data)
  end.

(** Modelled from the spec: the re-parse of a multi-valued cell, which
    the repository does not have (it only writes the sheet).  The spec
    names it "split on '; '": [cell.split('; ')] of Python, the pieces
    between the occurrences of the separator from left to right. *)
Fixpoint reparse (cell : string) : list string :=
  match cell with
  | EmptyString => [EmptyString]
  | String c r =>
      if Ascii.eqb c ";" then
        match r with
        | String d r' =>
            if Ascii.eqb d " " then EmptyString :: reparse r'
            else Str.push c (reparse r)
        | EmptyString => Str.push c (reparse r)
        end
      else Str.push c (reparse r)
  end.

End Velocity.

(** ** The dedup key of the specification *)

Module Spec.

(** runs of white space become one space *)
Fixpoint collapse (s : string) : string :=
  match s with
  | EmptyString => EmptyString
  | String c r =>
      if Str.is_space c then
        match r with
        | EmptyString => String " " EmptyString
        | String d _ =>
            if Str.is_space d then collapse r else String " " (collapse r)
        end
      else String c (collapse r)
  end.

(** The dedup key in the words of the specification, section 4.4:
    "normalized organization_name (lowercase, trimmed, internal whitespace
    collapsed)".  The code has no such function; it is here to state what
    the specification asks of the code. *)
Definition dedup_key (organization_name : string) : string :=
  collapse (Str.strip (Str.lower organization_name)).

(** [h] is the address of the first link below [element] whose [href]
    contains one of [alts]: the links before it in document order do not
    match. *)
Definition first_link (alts : list string) (element : Dom.node) (h : string) : Prop :=
  exists before e after,
    Dom.descendants element = before ++ e :: after
    /\ Dom.has_tag ["a"] e = true
    /\ Dom.href_of e = Some h
    /\ Str.contains_any alts h = true
    /\ Forall (fun n => (Dom.has_tag ["a"] n && Dom.href_search alts n) = false) before.

(** A source of [run_scraping]: its address, its label, and the
    candidates it takes from the document. *)
Record source : Type := {
  url : string;
  label : string;
  locate : Dom.node -> list Dom.node
}.

Definition cards (alts : list string) (soup : Dom.node) : list Dom.node :=
  Dom.find_all (fun n => Dom.has_tag ["div"] n && Dom.class_search alts n) soup.

Definition regional_articles (soup : Dom.node) : list Dom.node :=
  List.filter
    (fun a => Str.contains_any WVG.regions (Str.lower (Dom.get_text a)))
    (Dom.find_all (Dom.has_tag ["article"]) soup).

(** the four sources, in the order of [run_scraping] *)
Definition sources : list source :=
  [ {| url := "https://velocityincubator.com/companies/";
       label := "Velocity Incubator";
       locate := cards ["company"; "startup"; "card"] |};
    {| url := "https://communitech.ca/startups/";
       label := "Communitech";
       locate := cards ["startup"; "company"; "card"] |};
    {| url := "https://betakit.com/";
       label := "BetaKit";
       locate := regional_articles |};
    {| url := "https://innovationguelph.ca/startups/";
       label := "Innovation Guelph";
       locate := cards ["startup"; "company"; "card"] |} ].

(** the records of a source: those of its candidates when the fetch
    answers, none when it raises *)
Definition records_of (now : string) (w : WVG.web) (s : source)
    : list WVG.founder_info :=
  match w (url s) with
  | Ok soup => WVG.extract_all now (label s) (locate s soup)
  | Exc _ => []
  end.

(** the report of a source: one line when the fetch raises *)
Definition report_of (w : WVG.web) (s : source) : list string :=
  match w (url s) with
  | Ok _ => []
  | Exc e => ["Error scraping " +:+ label s +:+ ": " +:+ e]
  end.

Definition in_region (f : WVG.founder_info) : bool :=
  Str.contains_any WVG.waterloo_keywords
    (Str.lower (WVG.company_name f +:+ " " +:+ WVG.source f)).

(** The invariant of the DOM pass of [scrape_dmz_improved]:
    [self.founders_data] is what it was at the start followed by
    [found_companies], and no two records of [found_companies] have the
    same company name. *)
Definition dom_inv (data : list WVGv3.company) (st : WVGv3.dmz) : Prop :=
  WVGv3.founders_data st = data ++ WVGv3.found_companies st
  /\ NoDup (map WVGv3.company_name (WVGv3.found_companies st)).

End Spec.

(** ** Pages and elements of the examples *)

Module Examples.
Import Dom.

Definition nl : string := String (ascii_of_nat 10) EmptyString.

(** text lines, one below the other *)
Definition text_of_lines (lines : list string) : string := Str.join nl lines.

(** An AngelList card whose heading and founder element are there but
    hold no text, with a link. *)
Definition angel_blank_card : node :=
  Elem "div" ["company-card"] None
    [Elem "h2" [] None [Text " "];
     Elem "span" ["founder"] None [];
     Elem "a" [] (Some "https://example.com/") [Text "Visit"]].

(** A directory card with a heading, a founder, and links of each kind. *)
Definition full_card : node :=
  Elem "div" ["company-card"] None
    [Elem "h3" [] None [Text " Acme Robotics "];
     Elem "div" ["founder"] None [Text "Jane Doe"];
     Elem "a" [] (Some "https://acme.example/") [Text "Site"];
     Elem "a" [] (Some "mailto:jane@acme.example") [Text "Mail"];
     Elem "a" [] (Some "https://www.linkedin.com/in/janedoe") [Text "in"];
     Elem "a" [] (Some "https://x.com/acme") [Text "X"];
     Elem "a" [] (Some "https://acme.example/blog") [Text "Blog"]].

(** the record of [full_card] *)
Definition full_record : WVG.founder_info :=
  {| WVG.founder_name := "Jane Doe";
     WVG.company_name := "Acme Robotics";
     WVG.source := "Communitech";
     WVG.contact_info := WVG.contact_of full_card;
     WVG.scraped_date := "now" |}.

(** A portfolio card whose first link is the site of the company. *)
Definition site_first_card : node :=
  Elem "div" ["portfolio-item"] None
    [Elem "h3" [] None [Text "Acme Robotics"];
     Elem "a" [] (Some "https://acme.example/") [Text "Site"];
     Elem "a" [] (Some "mailto:jane@acme.example") [Text "Mail"]].

(** the record of [site_first_card] *)
Definition site_first_record : WVGv2.founder_info :=
  {| WVGv2.founder_name := EmptyString;
     WVGv2.company_name := "Acme Robotics";
     WVGv2.location := None;
     WVGv2.source := "Velocity Fund";
     WVGv2.contact_info :=
       WVG.set_if "website" (WVG.find_link ["http"] site_first_card) ∅;
     WVGv2.scraped_date := "now" |}.

(** A portfolio card whose first link goes to LinkedIn. *)
Definition linkedin_first_card : node :=
  Elem "div" ["portfolio-item"] None
    [Elem "h3" [] None [Text "Acme Robotics"];
     Elem "a" [] (Some "https://www.linkedin.com/company/acme") [Text "LinkedIn"];
     Elem "a" [] (Some "https://acme.example/") [Text "Site"]].

(** A DMZ page that answers [find_css] for the strategies and has no
    container of its own: the body is the main container. *)
Definition dmz_page (css : string -> py WVGv3.elements) (page_text : string)
    : WVGv3.page :=
  {| WVGv3.body := {| WVGv3.ctext := page_text; WVGv3.find_css := css |};
     WVGv3.find_container := fun _ => Exc "no such element";
     WVGv3.find_xpath := fun _ => Ok [] |}.

(** the elements of the strategy [selector] are [els], the other
    strategies find nothing *)
Definition only (selector : string) (els : WVGv3.elements) (sel : string)
    : py WVGv3.elements :=
  if String.eqb sel selector then Ok els else Ok [].

(** twenty characters: a name and a city *)
Definition twenty : string := text_of_lines ["Acme Robotics"; "Guelph"].

Definition acme_jane : string :=
  text_of_lines ["Acme Robotics"; "Waterloo, ON"; "Jane Doe, Founder"].
Definition acme_john : string :=
  text_of_lines ["Acme Robotics"; "Waterloo, ON"; "John Roe, CEO"].
Definition acme_lower_john : string :=
  text_of_lines ["acme robotics "; "Waterloo, ON"; "John Roe, CEO"].
Definition beta_labs : string :=
  text_of_lines ["Beta Labs"; "Guelph, Ontario"; "Ada Poe, President"].

(** two cards whose names differ in case and in a trailing space *)
Definition case_page : WVGv3.page :=
  dmz_page (only "article" [Ok acme_jane; Ok acme_lower_john]) EmptyString.

(** two cards of the same name with different founders *)
Definition same_name_page : WVGv3.page :=
  dmz_page (only "article" [Ok acme_jane; Ok acme_john]) EmptyString.

(** one card *)
Definition one_card_page : WVGv3.page :=
  dmz_page (only "article" [Ok acme_jane]) EmptyString.

(** a card under the strategy [article], another under [section] *)
Definition two_strategy_page : WVGv3.page :=
  dmz_page
    (fun sel =>
       if String.eqb sel "article" then Ok [Ok acme_jane]
       else if String.eqb sel "section" then Ok [Ok beta_labs]
       else Ok [])
    EmptyString.

(** the state at the end of the DOM pass over the page of two
    strategies *)
Definition after_two_strategies : WVGv3.dmz :=
  fst (WVGv3.dom_pass "now" 50 two_strategy_page
         (WVGv3.main_container two_strategy_page) WVGv3.company_selectors
         {| WVGv3.found_companies := []; WVGv3.founders_data := [] |}).

Definition no_data : WVGv3.dmz :=
  {| WVGv3.found_companies := []; WVGv3.founders_data := [] |}.

(** the state after the card of Jane Doe *)
Definition after_acme_jane : WVGv3.dmz :=
  fst (WVGv3.process_element "now" 50 (Ok acme_jane) no_data).

(** the lines of a card whose second line names a person with "on" in
    the name *)
Definition jon_lines : list string :=
  ["Acme Robotics"; "Jon Smith, CEO"; "Jane Doe, Founder"].

(** a line scan that has its company name *)
Definition named_acme : WVGv3.fields :=
  {| WVGv3.f_company := "Acme Robotics"; WVGv3.f_location := EmptyString;
     WVGv3.f_founders := [] |}.

(** a DMZ card of the second version with two team members *)
Definition team_card : Dom.node :=
  Elem "div" ["startup-card"] None
    [Elem "h3" [] None [Text "Acme Robotics"];
     Elem "div" ["team"] None
       [Elem "p" [] None [Text "Jane Doe, Founder"];
        Elem "p" [] None [Text "John Roe, CEO"];
        Elem "p" [] None [Text "Waterloo"]]].

End Examples.

(** ** Role lines *)

Module Roles.

(** a line that the scan of [scrape_dmz_improved] hands to its role rule
    once the company name is assigned: not a stop word, no place name in
    it *)
Definition reaches_role_rule (line : string) : bool :=
  negb (WVGv3.is_stop line) && negb (WVGv3.is_city line).

(** the role test of [scrape_velocity_improved] *)
Definition velocity_is_role (t : string) : bool :=
  Str.truthy t && Str.contains_any WVGv3.velocity_keywords (Str.lower t).

End Roles.

(** ** Locator strategies *)

Module Locator.

(** the links that the strategy [sel] of [scrape_velocity_companies]
    accepts on the page *)
Definition accepted_links (p : Velocity.directory_page) (sel : string) : list string :=
  match Velocity.links_of p sel with
  | Ok links => fst (Velocity.scan_links links [])
  | Exc _ => []
  end.

Definition answers (l : Velocity.link) : bool :=
  match Velocity.href l with Ok _ => true | Exc _ => false end.

(** the strategy raises no error on the page: neither the query nor the
    [href] of one of its links *)
Definition quiet (p : Velocity.directory_page) (sel : string) : bool :=
  match Velocity.links_of p sel with
  | Ok links => forallb answers links
  | Exc _ => false
  end.

Definition yields (p : Velocity.directory_page) (sel : string) : bool :=
  match accepted_links p sel with [] => false | _ :: _ => true end.

(** the links of the first strategy that accepts one *)
Definition first_yield (p : Velocity.directory_page) (selectors : list string)
    : list string :=
  match List.find (yields p) selectors with
  | Some sel => accepted_links p sel
  | None => []
  end.

Definition view_link (h : string) : Velocity.link :=
  {| Velocity.href := Ok (Some h); Velocity.link_text := Ok (Some "View") |}.

(** a directory page: the third strategy finds three links, two of them
    of companies; the fifth finds another *)
Definition directory_example : Velocity.directory_page :=
  {| Velocity.links_of := fun sel =>
       if String.eqb sel ".company-card a"
       then Ok [view_link "/company/acme"; view_link "/about";
                view_link "/company/beta"]
       else if String.eqb sel (nth 4 Velocity.company_selectors EmptyString)
       then Ok [view_link "/company/zeta"]
       else Ok [] |}.

(** a directory page whose first strategy finds a company and then a
    link that raises, and whose second strategy finds another company *)
Definition directory_raising : Velocity.directory_page :=
  {| Velocity.links_of := fun sel =>
       if String.eqb sel (nth 0 Velocity.company_selectors EmptyString)
       then Ok [view_link "/company/acme";
                {| Velocity.href := Exc "Element is not attached to the DOM";
                   Velocity.link_text := Ok None |}]
       else if String.eqb sel (nth 1 Velocity.company_selectors EmptyString)
       then Ok [view_link "/companies/view/beta"]
       else Ok [] |}.

End Locator.

(** ** The sheet *)

Module Sheet.

(** a value that the separator of the cells does not occur in *)
Definition plain (v : string) : bool := negb (Str.contains "; " v).

Definition acme : Velocity.company_data :=
  {| Velocity.Company := "Acme Robotics";
     Velocity.Founders := ["Jane Doe"; "John Roe"];
     Velocity.Linkedins := ["https://www.linkedin.com/in/janedoe"] |}.

(** a company without founders *)
Definition lonely : Velocity.company_data :=
  {| Velocity.Company := "Beta Labs";
     Velocity.Founders := [];
     Velocity.Linkedins := ["https://www.linkedin.com/in/a; b"] |}.

End Sheet.

(** ** Company pages *)

Module Pages.






End Pages.

(** * The rest of the scrapers *)

(** ** The line scan of scrape_dmz_improved, line by line *)

Module Scan.

(** a line that the scan takes as the company name while it has none:
    not a stop word, more than 2 and fewer than 100 characters, none of
    the category words in it *)
Definition name_line (line : string) : bool :=
  negb (WVGv3.is_stop line) &&
  (2 <? Str.len line)%nat && (Str.len line <? 100)%nat &&
  negb (Str.contains_any WVGv3.categories (Str.lower line)).

(** a line that the scan takes as the location once the company name is
    assigned: not a stop word, a place name in it *)
Definition place_line (line : string) : bool :=
  negb (WVGv3.is_stop line) && WVGv3.is_city line.

(** what every record of [scrape_dmz_improved] looks like *)
Definition regional (c : WVGv3.company) : Prop :=
  WVGv3.source c = "DMZ Startup Directory"
  /\ WVGv3.company_name c <> EmptyString
  /\ exists loc, WVGv3.location c = Some loc
       /\ Str.contains_any WVGv3.target_regions (Str.lower loc) = true.

(** a card with two places *)
Definition two_places : list string :=
  ["Toronto, ON"; "Jane Doe, Founder"; "Waterloo, ON"].

End Scan.

(** ** The region filter *)

Module Region.

(** the keywords of [filter_waterloo_region] without "kw region", which
    contains "kw" *)
Definition short_keywords : list string :=
  ["waterloo"; "kitchener"; "cambridge"; "guelph"; "kw"].

(** a string without a space *)
Fixpoint spaceless (k : string) : bool :=
  match k with
  | EmptyString => true
  | String c r => negb (Ascii.eqb c " ") && spaceless r
  end.

(** a keyword occurs in the text, in any case *)
Definition names_region (text : string) : bool :=
  Str.contains_any short_keywords (Str.lower text).

End Region.

(** ** ZZZWebScraperWVGv2.py: the scrapers and the run *)

Module Advanced.
Import Dom.

(** [".founder, .team-member, .ceo"] *)
Definition f6s_founder_selector (n : node) : bool :=
  has_class ["founder"; "team-member"; "ceo"] n.

(** ["h1, h2, h3, .startup-name, .company-name"] *)
Definition f6s_name_selector (n : node) : bool :=
  has_tag ["h1"; "h2"; "h3"] n || has_class ["startup-name"; "company-name"] n.

(** [extract_f6s_info(startup_element)] *)
Definition extract_f6s_info (now : string) (startup_element : node)
    : option WVGv2.founder_info :=
  match WVGv2.find_element f6s_name_selector startup_element with
  | Exc _ => None
  | Ok name_elem =>
      match WVGv2.find_element f6s_founder_selector startup_element with
      | Exc _ => None
      | Ok felem =>
          match WVGv2.find_element WVGv2.http_link_selector startup_element with
          | Exc _ => None
          | Ok website_elem =>
              let contact : gmap string string :=
                match href_of website_elem with
                | Some h => <["website" := h]> ∅
                | None => ∅
                end in
              Some {| WVGv2.founder_name := text felem;
                      WVGv2.company_name := text name_elem;
                      WVGv2.location := None; WVGv2.source := "F6S";
                      WVGv2.contact_info := contact;
                      WVGv2.scraped_date := now |}
          end
      end
  end.

(** the [website] entry of [extract_ecosystem_info], as in the first
    version *)
Definition ecosystem_contact (element : node) : gmap string string :=
  WVG.set_if "website" (WVG.website_of element)
    (WVG.set_if "linkedin" (WVG.find_link ["linkedin.com"] element)
      (WVG.set_if "email"
         (Str.replace "mailto:" EmptyString <$> WVG.find_link ["mailto:"] element)
         ∅)).

(** [extract_ecosystem_info(element)] *)
Definition extract_ecosystem_info (now : string) (element : node)
    : option WVGv2.founder_info :=
  let company := match WVG.company_elem element with
                 | Some e => text e
                 | None => EmptyString
                 end in
  let founder := match WVG.founder_elem element with
                 | Some e => text e
                 | None => EmptyString
                 end in
  if Str.truthy company || Str.truthy founder then
    Some {| WVGv2.founder_name := founder; WVGv2.company_name := company;
            WVGv2.location := None; WVGv2.source := "Startup Ecosystem Canada";
            WVGv2.contact_info := ecosystem_contact element;
            WVGv2.scraped_date := now |}
  else None.

(** The state of the scraper object: the records and the error reports
    of the [except] clauses. *)
Record scraper : Type := {
  founders_data : list WVGv2.founder_info;
  errors : list string
}.

Definition init : scraper := {| founders_data := []; errors := [] |}.

(** What the Selenium driver answers: the navigation to AngelList, the
    company elements of a search term (the search box, the keys and the
    query, any of which may raise), and the elements of the F6S and DMZ
    pages (the navigation and the query). *)
Record driver : Type := {
  angel_home : py unit;
  angel_search : string -> py (list node);
  f6s_startups : py (list node);
  dmz_elements : py (list node)
}.

Definition add_records (st : scraper) (records : list WVGv2.founder_info) : scraper :=
  {| founders_data := founders_data st ++ records; errors := errors st |}.

Definition add_error (st : scraper) (report : string) : scraper :=
  {| founders_data := founders_data st; errors := errors st ++ [report] |}.

Definition search_terms : list string :=
  ["Waterloo"; "Kitchener"; "Cambridge"; "Guelph"].

(** one search of [scrape_angel_list] *)
Definition angel_term (now : string) (d : driver) (st : scraper) (term : string)
    : scraper :=
  match angel_search d term with
  | Ok companies =>
      add_records st (omap (WVGv2.extract_angel_list_info now) companies)
  | Exc e => add_error st ("Error searching for " +:+ term +:+ ": " +:+ e)
  end.

(** [scrape_angel_list()]; [self.driver] is [None] when the set-up of
    Selenium failed *)
Definition scrape_angel_list (now : string) (dr : option driver) (st : scraper)
    : scraper :=
  match dr with
  | None => st
  | Some d =>
      match angel_home d with
      | Exc e => add_error st ("Error scraping AngelList: " +:+ e)
      | Ok _ => fold_left (angel_term now d) search_terms st
      end
  end.

Definition scrape_f6s (now : string) (dr : option driver) (st : scraper) : scraper :=
  match dr with
  | None => st
  | Some d =>
      match f6s_startups d with
      | Exc e => add_error st ("Error scraping F6S: " +:+ e)
      | Ok startups => add_records st (omap (extract_f6s_info now) startups)
      end
  end.

(** [soup.find_all(['div', 'article'], class_=re.compile(...))] *)
Definition blocks (alts : list string) (soup : node) : list node :=
  find_all (fun n => has_tag ["div"; "article"] n && class_search alts n) soup.

Definition scrape_startup_ecosystem (now : string) (w : WVG.web) (st : scraper)
    : scraper :=
  match w "https://www.startupecosystem.ca/" with
  | Ok soup =>
      add_records st
        (omap (extract_ecosystem_info now) (blocks ["startup"; "company"; "card"] soup))
  | Exc e => add_error st ("Error scraping Startup Ecosystem: " +:+ e)
  end.

Definition scrape_velocity_fund (now : string) (w : WVG.web) (st : scraper)
    : scraper :=
  match w "https://velocityfund.ca/portfolio/" with
  | Ok soup =>
      add_records st
        (omap (WVGv2.extract_velocity_fund_info now)
              (blocks ["portfolio"; "company"; "startup"] soup))
  | Exc e => add_error st ("Error scraping Velocity Fund: " +:+ e)
  end.

Definition scrape_dmz (now : string) (dr : option driver) (st : scraper) : scraper :=
  match dr with
  | None => st
  | Some d =>
      match dmz_elements d with
      | Exc e => add_error st ("Error scraping DMZ: " +:+ e)
      | Ok els => add_records st (omap (WVGv2.extract_dmz_info now) els)
      end
  end.

(** the test of [filter_waterloo_region] *)
Definition in_region (f : WVGv2.founder_info) : bool :=
  Str.contains_any WVG.waterloo_keywords
    (Str.lower (WVGv2.company_name f +:+ " " +:+ WVGv2.source f)).

Definition filter_waterloo_region (st : scraper) : scraper :=
  {| founders_data := List.filter in_region (founders_data st);
     errors := errors st |}.

(** the five sources of [run_advanced_scraping], before the filter *)
Definition scrape_all (now : string) (dr : option driver) (w : WVG.web) : scraper :=
  scrape_dmz now dr
    (scrape_velocity_fund now w
      (scrape_startup_ecosystem now w
        (scrape_f6s now dr
          (scrape_angel_list now dr init)))).

(** [run_advanced_scraping()], up to the hand-over to [save_to_text] *)
Definition run_advanced_scraping (now : string) (dr : option driver) (w : WVG.web)
    : scraper :=
  filter_waterloo_region (scrape_all now dr w).

(** the labels that the extractors of this version write *)
Definition labels : list string :=
  ["AngelList"; "F6S"; "Startup Ecosystem Canada"; "Velocity Fund";
   "DMZ Startup Directory"].

(** a DMZ card of Waterloo whose name does not say so *)
Definition waterloo_card : node :=
  Elem "div" ["startup-card"] None
    [Elem "h1" [] None [Text "Acme Robotics"];
     Elem "span" ["location"] None [Text "Waterloo, ON"]].

(** a DMZ card with the region in its name *)
Definition kw_card : node :=
  Elem "div" ["startup-card"] None
    [Elem "h1" [] None [Text "KW Robotics"];
     Elem "span" ["location"] None [Text "Toronto, ON"]].

Definition dmz_driver : driver :=
  {| angel_home := Exc "net::ERR_NAME_NOT_RESOLVED";
     angel_search := fun _ => Ok [];
     f6s_startups := Ok [];
     dmz_elements := Ok [waterloo_card; kw_card] |}.

Definition offline : WVG.web := fun _ => Exc "connection refused".

End Advanced.

(** ** The sources of the first version, one by one *)

Module First.

(** the three sources whose label names no region *)
Definition plain_sources : list Spec.source := firstn 3 Spec.sources.

(** Innovation Guelph, whose label names a region *)
Definition guelph : Spec.source :=
  {| Spec.url := "https://innovationguelph.ca/startups/";
     Spec.label := "Innovation Guelph";
     Spec.locate := Spec.cards ["startup"; "company"; "card"] |}.

(** the test that is left of the filter for a source whose label names
    no region *)
Definition named_in_region (f : WVG.founder_info) : bool :=
  Region.names_region (WVG.company_name f).

End First.

(** ** The records of the second version *)

Module Second.

(** the source of the record is one of the labels of the extractors *)
Definition labelled (f : WVGv2.founder_info) : Prop :=
  In (WVGv2.source f) Advanced.labels.

(** the test that is left of the filter: the company name names a
    region *)
Definition named_in_region (f : WVGv2.founder_info) : bool :=
  Region.names_region (WVGv2.company_name f).

End Second.

(** ** Cards of the browser sources *)

Module Cards.
Import Dom.

(** a DMZ card whose [h1] is there without text and whose [h2] has the
    name *)
Definition empty_h1_card : node :=
  Elem "div" ["startup-card"] None
    [Elem "h1" [] None [Text " "];
     Elem "h2" [] None [Text "Acme Robotics"]].

(** a DMZ card with the name in an [h2] and no [h1] *)
Definition h2_card : node :=
  Elem "div" ["startup-card"] None
    [Elem "h2" [] None [Text "Acme Robotics"];
     Elem "p" [] None [Text "Jane Doe, Founder"]].

(** an AngelList card with a name and a link and no founder element *)
Definition no_founder_card : node :=
  Elem "div" ["company-card"] None
    [Elem "h2" [] None [Text "Acme Robotics"];
     Elem "a" [] (Some "https://acme.example/") [Text "Visit"]].

(** the selector has a match below the element, without text *)
Definition matches_blank (element : node) (sel : node -> bool) : Prop :=
  exists e, find sel element = Some e /\ text e = EmptyString.

(** a link that is there and is no path of the site *)
Definition absolute_link (l : string) : Prop :=
  l <> EmptyString /\ Str.startswith l "/" = false.

End Cards.

(** ** velocity_scraper.py: founders and LinkedIn profiles *)

Module People.

(** the longest prefix of characters of the class, and the rest *)
Fixpoint span (cls : ascii -> bool) (s : string) : string * string :=
  match s with
  | EmptyString => (EmptyString, EmptyString)
  | String c r =>
      if cls c then let '(a, b) := span cls r in (String c a, b)
      else (EmptyString, s)
  end.

(** [[A-Z][a-z]+]: the word and the rest *)
Definition eat_word (s : string) : option (string * string) :=
  match s with
  | EmptyString => None
  | String c r =>
      if Str.is_upper c then
        let '(w, rest) := span Str.is_lower r in
        match w with
        | EmptyString => None
        | String _ _ => Some (String c w, rest)
        end
      else None
  end.

(** [[A-Z]\. ]: the initial and the rest *)
Definition eat_initial (s : string) : option (string * string) :=
  match s with
  | String c (String d (String e r)) =>
      if Str.is_upper c && Ascii.eqb d "." && Ascii.eqb e " "
      then Some (String c (String d (String e EmptyString)), r)
      else None
  | _ => None
  end.

(** [\b] behind a word: the end, or a character that is no word
    character *)
Definition boundary (rest : string) : bool :=
  match rest with
  | EmptyString => true
  | String c _ => negb (Str.is_word c)
  end.

(** [[A-Z][a-z]+\b]; a shorter run of small letters ends before a small
    letter, where there is no boundary, so the longest run is the only
    one to try *)
Definition eat_last (s : string) : option (string * string) :=
  match eat_word s with
  | Some (w, rest) => if boundary rest then Some (w, rest) else None
  | None => None
  end.

(** [([A-Z][a-z]+ (?:[A-Z]\. )?[A-Z][a-z]+)\b] at the start of [s]: the
    name and the rest.  The optional initial is tried first, and the
    pattern without it when that fails. *)
Definition match_name (s : string) : option (string * string) :=
  match eat_word s with
  | Some (first, String sp r) =>
      if Ascii.eqb sp " " then
        let direct :=
          match eat_last r with
          | Some (l, rest) => Some (first +:+ " " +:+ l, rest)
          | None => None
          end in
        match eat_initial r with
        | Some (ini, r') =>
            match eat_last r' with
            | Some (l, rest) => Some (first +:+ " " +:+ ini +:+ l, rest)
            | None => direct
            end
        | None => direct
        end
      else None
  | _ => None
  end.

(** [re.findall(name_pattern, text)]: a match starts at a word boundary,
    and the scan goes on behind a match *)
Fixpoint names_from (after_word : bool) (skip : nat) (s : string) : list string :=
  match s with
  | EmptyString => []
  | String c r =>
      match skip with
      | S k => names_from (Str.is_word c) k r
      | O =>
          if after_word then names_from (Str.is_word c) 0 r
          else
            match match_name s with
            | Some (name, _) =>
                name :: names_from (Str.is_word c) (String.length name - 1) r
            | None => names_from (Str.is_word c) 0 r
            end
      end
  end.

Definition false_positives : list string := ["company"; "inc"; "llc"; "corp"; "ltd"].

(** [extract_names_from_text(text)] *)
Definition extract_names_from_text (text : string) : list string :=
  List.filter
    (fun m => negb (Str.contains_any false_positives (Str.lower m)))
    (names_from false 0 text).

Definition founder_selectors : list string :=
  ["text=/founder/i"; "text=/co-founder/i"; "text=/ceo/i";
   "[class*=" +:+ Velocity.dq +:+ "founder" +:+ Velocity.dq +:+ "]";
   "[class*=" +:+ Velocity.dq +:+ "team" +:+ Velocity.dq +:+ "]";
   "[class*=" +:+ Velocity.dq +:+ "leadership" +:+ Velocity.dq +:+ "]"].

(** [for element in elements] of [extract_founders]: the names of the
    texts are appended; an element that raises ends the selector with the
    names appended so far *)
Fixpoint names_of_elements (els : list (py (option string))) (founders : list string)
    : list string :=
  match els with
  | [] => founders
  | Exc _ :: _ => founders
  | Ok None :: rest => names_of_elements rest founders
  | Ok (Some t) :: rest =>
      if Str.truthy t
      then names_of_elements rest (founders ++ extract_names_from_text t)
      else names_of_elements rest founders
  end.

Fixpoint names_of_selectors (p : Velocity.company_page) (selectors : list string)
    (founders : list string) : list string :=
  match selectors with
  | [] => founders
  | sel :: rest =>
      match Velocity.all_texts p sel with
      | Exc _ => names_of_selectors p rest founders
      | Ok els => names_of_selectors p rest (names_of_elements els founders)
      end
  end.

(** the answers of [get_attribute('href')] for the elements of a
    selector *)
Definition hrefs : Type := string -> py (list (py (option string))).

Definition linkedin_selectors : list string :=
  ["a[href*=" +:+ Velocity.dq +:+ "linkedin.com/company" +:+ Velocity.dq +:+ "]";
   "a[href*=" +:+ Velocity.dq +:+ "linkedin.com/in" +:+ Velocity.dq +:+ "]";
   "[href*=" +:+ Velocity.dq +:+ "linkedin" +:+ Velocity.dq +:+ "]"].

(** [for element in elements] of [extract_company_linkedin]: [Some h]
    when it returns [h] *)
Fixpoint company_link_of (els : list (py (option string))) : option string :=
  match els with
  | [] => None
  | Exc _ :: _ => None
  | Ok None :: rest => company_link_of rest
  | Ok (Some h) :: rest =>
      if Str.truthy h && Str.contains "linkedin.com/company" h then Some h
      else company_link_of rest
  end.

Fixpoint company_link_of_selectors (answers : hrefs) (selectors : list string)
    : option string :=
  match selectors with
  | [] => None
  | sel :: rest =>
      match answers sel with
      | Exc _ => company_link_of_selectors answers rest
      | Ok els =>
          match company_link_of els with
          | Some h => Some h
          | None => company_link_of_selectors answers rest
          end
      end
  end.

(** The three queries for a founder on the people page: the link with
    the name as text, the element with the name in its title, and the
    text that matches the escaped name. *)
Inductive founder_query : Type :=
| HasText (founder : string)
| TitleHas (founder : string)
| TextMatches (founder : string).

Definition founder_queries (founder : string) : list founder_query :=
  [HasText founder; TitleHas founder; TextMatches founder].

(** the people page: the [href] of the elements of a query *)
Definition people_view : Type := founder_query -> py (list (py (option string))).

(** The LinkedIn page of a company: for a selector of the people tab,
    the page behind the click, [None] for a tab that is falsy, or the
    exception of the locator, of the click or of the wait. *)
Record linkedin_page : Type := {
  people_tab : string -> py (option people_view)
}.

Definition people_selectors : list string :=
  ["a:has-text(" +:+ Velocity.dq +:+ "People" +:+ Velocity.dq +:+ ")";
   "button:has-text(" +:+ Velocity.dq +:+ "People" +:+ Velocity.dq +:+ ")";
   "[data-control-name*=" +:+ Velocity.dq +:+ "people" +:+ Velocity.dq +:+ "]";
   "text=/people/i"].

(** the first selector of the people tab that can be clicked *)
Fixpoint click_people (lp : linkedin_page) (selectors : list string)
    : option people_view :=
  match selectors with
  | [] => None
  | sel :: rest =>
      match people_tab lp sel with
      | Ok (Some view) => Some view
      | Ok None => click_people lp rest
      | Exc _ => click_people lp rest
      end
  end.

(** [for element in elements] of a query: the first [href] of a profile
    is appended, then [break]; an element that raises ends the query *)
Fixpoint profile_of_elements (els : list (py (option string)))
    (founder_linkedins : list string) : list string :=
  match els with
  | [] => founder_linkedins
  | Exc _ :: _ => founder_linkedins
  | Ok None :: rest => profile_of_elements rest founder_linkedins
  | Ok (Some h) :: rest =>
      if Str.truthy h && Str.contains "linkedin.com/in/" h
      then founder_linkedins ++ [h]
      else profile_of_elements rest founder_linkedins
  end.

Definition profiles_of_query (view : people_view) (founder_linkedins : list string)
    (q : founder_query) : list string :=
  match view q with
  | Ok els => profile_of_elements els founder_linkedins
  | Exc _ => founder_linkedins
  end.

Definition profiles_of_founder (view : people_view) (founder_linkedins : list string)
    (founder : string) : list string :=
  fold_left (profiles_of_query view) (founder_queries founder) founder_linkedins.

(** What the browser answers beside the pages of [Velocity.browser]: the
    [href]s of a company page and the LinkedIn pages. *)
Record site : Type := {
  hrefs_on : Velocity.company_page -> hrefs;
  linkedin_at : string -> py linkedin_page
}.

Section Scraper.

(** [list(set(l))]: the order of a Python set of strings is not fixed. *)
Variable list_set : list string -> list string.

(** [extract_founders(page)] *)
Definition extract_founders (p : Velocity.company_page) : list string :=
  list_set
    (List.filter Str.truthy
       (map Str.strip (names_of_selectors p founder_selectors []))).

Variable s : site.

(** [extract_company_linkedin(page)] *)
Definition extract_company_linkedin (p : Velocity.company_page) : option string :=
  company_link_of_selectors (hrefs_on s p) linkedin_selectors.

(** [extract_founder_linkedins(company_linkedin_url, founders)] *)
Definition extract_founder_linkedins (company_linkedin_url : string)
    (founders : list string) : list string :=
  if negb (Str.truthy company_linkedin_url) then []
  else
    match founders with
    | [] => []
    | _ :: _ =>
        match linkedin_at s company_linkedin_url with
        | Exc _ => list_set []
        | Ok lp =>
            match click_people lp people_selectors with
            | None => []
            | Some view => list_set (fold_left (profiles_of_founder view) founders [])
            end
        end
    end.

(** [process_company] and [scrape_velocity_companies] with the three
    extractors *)
Definition process_company (b : Velocity.browser) (company_url : string)
    : option Velocity.company_data :=
  Velocity.process_company extract_founders extract_company_linkedin
    extract_founder_linkedins b company_url.

Definition scrape_velocity_companies (b : Velocity.browser) (max_companies : Z)
    (companies_data : list Velocity.company_data) : list Velocity.company_data :=
  Velocity.scrape_velocity_companies list_set extract_founders
    extract_company_linkedin extract_founder_linkedins b max_companies
    companies_data.

End Scraper.

(** a character of a name: a letter, the space, the period *)
Definition name_char (c : ascii) : bool :=
  Str.isalpha c || Ascii.eqb c " " || Ascii.eqb c ".".

Definition starts_with (cls : ascii -> bool) (s : string) : bool :=
  match s with
  | EmptyString => false
  | String c _ => cls c
  end.

Fixpoint ends_with (cls : ascii -> bool) (s : string) : bool :=
  match s with
  | EmptyString => false
  | String c EmptyString => cls c
  | String _ r => ends_with cls r
  end.

(** the shape of a match of the pattern: a capital first, a small letter
    last, letters, spaces and periods between *)
Definition shaped (name : string) : Prop :=
  starts_with Str.is_upper name = true
  /\ ends_with Str.is_lower name = true
  /\ forallb name_char (list_ascii_of_string name) = true.

(** what a name looks like: the shape of a match, and none of the words
    of a company *)
Definition well_formed (name : string) : Prop :=
  shaped name
  /\ Str.contains_any false_positives (Str.lower name) = false.

(** the address of a profile *)
Definition profile (h : string) : Prop :=
  Str.contains "linkedin.com/in/" h = true.

(** what every record of the scraper looks like *)
Definition sound (d : Velocity.company_data) : Prop :=
  Velocity.Company d <> EmptyString
  /\ Forall well_formed (Velocity.Founders d)
  /\ Forall profile (Velocity.Linkedins d)
  /\ (List.length (Velocity.Linkedins d) <= 3 * List.length (Velocity.Founders d))%nat.

(** [list(set(l))] has the elements of [l], each once, and no other *)
Definition is_set_of (list_set : list string -> list string) : Prop :=
  forall l, NoDup (list_set l) /\ forall x, In x (list_set l) <-> In x l.

(** one possible order of [list(set(l))]: the first occurrences *)
Fixpoint first_occurrences (l : list string) : list string :=
  match l with
  | [] => []
  | x :: r => x :: List.filter (fun y => negb (String.eqb x y)) (first_occurrences r)
  end.

(** A company page whose elements name two founders and the company. *)
Definition team_page : Velocity.company_page :=
  {| Velocity.all_texts := fun _ =>
       Ok [Ok None; Ok (Some "Founded by Jane Doe and John A. Roe of Acme Inc")];
     Velocity.first_text := fun _ => Exc "object Locator can't be used in 'await' expression";
     Velocity.content := Ok "<html><title>Acme | Velocity</title></html>";
     Velocity.title := Ok "Acme | Velocity" |}.

(** a people page: the link with the text of Jane Doe, and two elements
    with a title *)
Definition team_view : people_view := fun q =>
  match q with
  | HasText founder =>
      if String.eqb founder "Jane Doe"
      then Ok [Ok (Some "https://www.linkedin.com/in/janedoe")]
      else Ok []
  | TitleHas _ =>
      Ok [Ok (Some "https://www.linkedin.com/company/acme");
          Ok (Some "https://www.linkedin.com/in/janedoe");
          Ok (Some "https://www.linkedin.com/in/other")]
  | TextMatches _ => Exc "Timeout 30000ms exceeded"
  end.

Definition team_site : site :=
  {| hrefs_on := fun _ _ =>
       Ok [Ok (Some "https://www.linkedin.com/in/janedoe");
           Ok (Some "https://www.linkedin.com/company/acme")];
     linkedin_at := fun _ =>
       Ok {| people_tab := fun sel =>
               if String.eqb sel "text=/people/i" then Ok (Some team_view)
               else Exc "object Locator can't be used in 'await' expression" |} |}.

Definition team_browser : Velocity.browser :=
  {| Velocity.directory := Ok Locator.directory_example;
     Velocity.company_at := fun _ => Ok team_page |}.

Definition acme_team : Velocity.company_data :=
  {| Velocity.Company := "Acme";
     Velocity.Founders := ["Jane Doe"; "John A. Roe"];
     Velocity.Linkedins := ["https://www.linkedin.com/in/janedoe"] |}.

End People.

(** ** ZZZWebScraperWVGv3.py: the Velocity and the Boundless directories *)

Module Directories.

(** A card of a directory, as Selenium answers: the text of the first
    element of a selector, read the same at each of its two reads, and,
    for each of the two queries of the paragraphs, spans and divisions,
    the texts of its elements; each may raise. *)
Record card : Type := {
  name_text : string -> py string;
  location_elements : py WVGv3.elements;
  founder_elements : py WVGv3.elements
}.

(** [len(text) > 2 and len(text) < 100] *)
Definition name_length_ok (text : string) : bool :=
  ((2 <? Str.len text) && (Str.len text <? 100))%nat.

(** [for selector in name_selectors]: the first stripped text of 3 to 99
    characters *)
Fixpoint card_name (c : card) (selectors : list string) : string :=
  match selectors with
  | [] => EmptyString
  | sel :: rest =>
      match name_text c sel with
      | Exc _ => card_name c rest
      | Ok raw =>
          if Str.truthy (Str.strip raw) then
            let text := Str.strip raw in
            if name_length_ok text then text else card_name c rest
          else card_name c rest
      end
  end.

Definition target_years : list string :=
  ["2025"; "2024"; "2023"; "2022"; "2021"; "2020"; "2019"].

Definition velocity_name_selectors : list string :=
  ["h1"; "h2"; "h3"; "h4"; "h5"; "h6"; "[class*='company-name']";
   "[class*='startup-name']"; "strong"; "b"].

Definition velocity_source (year : string) : string :=
  "Velocity Incubator (" +:+ year +:+ ")".

(** The body of [for element in company_elements] of
    [scrape_velocity_improved], up to the append: the record, when the
    card has a company name. *)
Definition velocity_record (now year : string) (c : card) : option WVGv3.company :=
  let company_name := card_name c velocity_name_selectors in
  let founder_name :=
    match founder_elements c with
    | Ok els => WVGv3.velocity_founder_name els
    | Exc _ => EmptyString
    end in
  if Str.truthy company_name then
    Some {| WVGv3.founder_name := founder_name;
            WVGv3.company_name := company_name;
            WVGv3.location := None;
            WVGv3.source := velocity_source year;
            WVGv3.scraped_date := now |}
  else None.

(** [for element in company_elements]; the flag is [true] when the body
    executes [return], the cap being reached *)
Fixpoint velocity_cards (now : string) (max_companies : Z) (year : string)
    (cards : list card) (founders_data : list WVGv3.company)
    : list WVGv3.company * bool :=
  match cards with
  | [] => (founders_data, false)
  | c :: rest =>
      match velocity_record now year c with
      | Some r =>
          let founders_data' := founders_data ++ [r] in
          if (max_companies <=? Z.of_nat (List.length founders_data'))%Z
          then (founders_data', true)
          else velocity_cards now max_companies year rest founders_data'
      | None => velocity_cards now max_companies year rest founders_data
      end
  end.

(** The directory of Velocity: for a year, the cards that the page shows
    once the filters of the year and of the status have been looked for
    and clicked, or the exception of one of these steps. *)
Definition velocity_site : Type := string -> py (list card).

(** [for year in target_years] *)
Fixpoint velocity_years (now : string) (max_companies : Z) (site : velocity_site)
    (years : list string) (founders_data : list WVGv3.company)
    : list WVGv3.company :=
  match years with
  | [] => founders_data
  | year :: rest =>
      match site year with
      | Exc _ => velocity_years now max_companies site rest founders_data
      | Ok cards =>
          let '(founders_data', stopped) :=
            velocity_cards now max_companies year cards founders_data in
          if stopped then founders_data'
          else velocity_years now max_companies site rest founders_data'
      end
  end.

(** [scrape_velocity_improved()]: [None] is no driver, [Some (Exc _)] a
    [get] that raises. *)
Definition scrape_velocity_improved (now : string) (max_companies : Z)
    (session : option (py velocity_site)) (founders_data : list WVGv3.company)
    : list WVGv3.company :=
  match session with
  | None => founders_data
  | Some (Exc _) => founders_data
  | Some (Ok site) => velocity_years now max_companies site target_years founders_data
  end.

Definition boundless_name_selectors : list string :=
  ["h1"; "h2"; "h3"; "h4"; "h5"; "h6"; "[class*='company-name']";
   "[class*='business-name']"; "[class*='startup-name']"; "strong"; "b"].

Definition boundless_cities : list string :=
  ["toronto"; "kitchener"; "waterloo"; "cambridge"; "guelph"; "ontario"; "on"].

Definition boundless_roles : list string :=
  ["founder"; "ceo"; "co-founder"; "founder &"; "co-founder &"; "owner"; "president"].

Definition boundless_regions : list string :=
  ["waterloo"; "kitchener"; "cambridge"; "guelph"].

(** the location loop: the first text with a place name, then [break];
    an element whose [text] raises ends the search with nothing *)
Fixpoint boundless_location (location_elements : WVGv3.elements) : string :=
  match location_elements with
  | [] => EmptyString
  | Exc _ :: _ => EmptyString
  | Ok raw :: rest =>
      let text := Str.strip raw in
      if Str.truthy text && Str.contains_any boundless_cities (Str.lower text)
      then text
      else boundless_location rest
  end.

(** the founder loop: every text with a role keyword; an element whose
    [text] raises ends the loop with the names appended so far *)
Fixpoint boundless_founders (founder_elements : WVGv3.elements)
    (founder_names : list string) : list string :=
  match founder_elements with
  | [] => founder_names
  | Exc _ :: _ => founder_names
  | Ok raw :: rest =>
      let text := Str.strip raw in
      if Str.truthy text && Str.contains_any boundless_roles (Str.lower text)
      then boundless_founders rest (founder_names ++ [text])
      else boundless_founders rest founder_names
  end.

(** The body of [for element in company_elements] of
    [scrape_boundless_accelerator], up to the append. *)
Definition boundless_record (now : string) (c : card) : option WVGv3.company :=
  let company_name := card_name c boundless_name_selectors in
  let location :=
    match location_elements c with
    | Ok els => boundless_location els
    | Exc _ => EmptyString
    end in
  let founder_names :=
    match founder_elements c with
    | Ok els => boundless_founders els []
    | Exc _ => []
    end in
  if Str.truthy company_name then
    let founder_name :=
      match founder_names with
      | [] => EmptyString
      | _ :: _ => Str.join " | " founder_names
      end in
    let text_to_check := Str.lower (company_name +:+ " " +:+ location) in
    if Str.contains_any boundless_regions text_to_check then
      Some {| WVGv3.founder_name := founder_name;
              WVGv3.company_name := company_name;
              WVGv3.location := Some location;
              WVGv3.source := "Boundless Accelerator";
              WVGv3.scraped_date := now |}
    else None
  else None.

(** [for element in company_elements]; [return] at the cap ends the
    function *)
Fixpoint boundless_cards (now : string) (max_companies : Z) (cards : list card)
    (founders_data : list WVGv3.company) : list WVGv3.company :=
  match cards with
  | [] => founders_data
  | c :: rest =>
      match boundless_record now c with
      | Some r =>
          let founders_data' := founders_data ++ [r] in
          if (max_companies <=? Z.of_nat (List.length founders_data'))%Z
          then founders_data'
          else boundless_cards now max_companies rest founders_data'
      | None => boundless_cards now max_companies rest founders_data
      end
  end.

(** [scrape_boundless_accelerator()]: [None] is no driver, [Some (Exc _)]
    a [get] or a query of the cards that raises. *)
Definition scrape_boundless_accelerator (now : string) (max_companies : Z)
    (session : option (py (list card))) (founders_data : list WVGv3.company)
    : list WVGv3.company :=
  match session with
  | None => founders_data
  | Some (Exc _) => founders_data
  | Some (Ok cards) => boundless_cards now max_companies cards founders_data
  end.

(** a company name of a card: stripped, of 3 to 99 characters *)
Definition named (r : WVGv3.company) : Prop :=
  Str.strip (WVGv3.company_name r) = WVGv3.company_name r
  /\ (3 <= Str.len (WVGv3.company_name r) <= 99)%nat.

(** what a record of [scrape_velocity_improved] looks like *)
Definition velocity_sound (r : WVGv3.company) : Prop :=
  named r
  /\ WVGv3.location r = None
  /\ (exists year, In year target_years /\ WVGv3.source r = velocity_source year)
  /\ (WVGv3.founder_name r = EmptyString
      \/ Roles.velocity_is_role (WVGv3.founder_name r) = true).

(** what a record of [scrape_boundless_accelerator] looks like *)
Definition boundless_sound (r : WVGv3.company) : Prop :=
  named r
  /\ WVGv3.source r = "Boundless Accelerator"
  /\ exists location,
       WVGv3.location r = Some location
       /\ Str.contains_any boundless_regions
            (Str.lower (WVGv3.company_name r +:+ " " +:+ location)) = true
       /\ (location = EmptyString
           \/ Str.contains_any boundless_cities (Str.lower location) = true).

(** the records of the years, when no cap stops the run *)
Definition velocity_records (now : string) (site : velocity_site) : list WVGv3.company :=
  flat_map
    (fun year =>
       match site year with
       | Ok cards => omap (velocity_record now year) cards
       | Exc _ => []
       end)
    target_years.

(** a card with a heading and a paragraph *)
Definition simple_card (heading paragraph : string) : card :=
  {| name_text := fun sel =>
       if String.eqb sel "h3" then Ok heading
       else Exc "no such element: Unable to locate element";
     location_elements := Ok [Ok paragraph];
     founder_elements := Ok [Ok paragraph] |}.

(** a directory whose filters change nothing: the same two cards for
    every year *)
Definition unfiltered_site : velocity_site := fun _ =>
  Ok [simple_card "Acme Robotics" "Jane Doe, Founder";
      simple_card "ab" "too short a name";
      simple_card " Beta Labs " "Toronto"].

Definition boundless_cards_example : list card :=
  [simple_card "Acme Robotics" "Kitchener, ON";
   simple_card "Beta Labs" "Toronto, ON";
   simple_card "Guelph Gears" "Owner: Jon Smith"].

End Directories.

(** * Properties *)

(** ** Strings *)

Lemma truthy_true (s : string) : Str.truthy s = true <-> s <> EmptyString.
Proof. destruct s; simpl; split; intros H; try congruence; easy. Qed.

Lemma truthy_false (s : string) : Str.truthy s = false <-> s = EmptyString.
Proof. destruct s; simpl; split; intros H; congruence. Qed.

(** ** C1: a record needs a name *)

(** The guard of [extract_founder_info]: a record has a company name or
    a founder name. *)
Lemma extract_founder_info_named (now : string) (element : Dom.node)
    (src : string) (r : WVG.founder_info) :
  WVG.extract_founder_info now element src = Some r ->
  WVG.company_name r <> EmptyString \/ WVG.founder_name r <> EmptyString.
Proof.
  unfold WVG.extract_founder_info.
  destruct (Str.truthy _ || Str.truthy _) eqn:E; [|discriminate].
  intros [= <-]; simpl.
  apply orb_true_iff in E as [E|E]; [left|right]; now apply truthy_true.
Qed.

(** A candidate without a company name and without a founder name gives
    no record. *)
Lemma extract_founder_info_unnamed (now : string) (element : Dom.node)
    (src : string) :
  WVG.extract_founder_info now element src = None <->
  (match WVG.company_elem element with
   | Some e => Dom.text e | None => EmptyString end) = EmptyString
  /\ (match WVG.founder_elem element with
      | Some e => Dom.text e | None => EmptyString end) = EmptyString.
Proof.
  unfold WVG.extract_founder_info.
  destruct (Str.truthy _ || Str.truthy _) eqn:E.
  - split; [discriminate|]. intros [H1 H2]. rewrite H1, H2 in E. discriminate.
  - apply orb_false_iff in E as [E1 E2].
    split; [|reflexivity]. intros _. split; now apply truthy_false.
Qed.

(** The same guard in [extract_velocity_fund_info] and
    [extract_dmz_info]. *)
Lemma extract_velocity_fund_info_named (now : string) (element : Dom.node)
    (r : WVGv2.founder_info) :
  WVGv2.extract_velocity_fund_info now element = Some r ->
  WVGv2.company_name r <> EmptyString \/ WVGv2.founder_name r <> EmptyString.
Proof.
  unfold WVGv2.extract_velocity_fund_info.
  destruct (Str.truthy _ || Str.truthy _) eqn:E; [|discriminate].
  intros [= <-]; simpl.
  apply orb_true_iff in E as [E|E]; [left|right]; now apply truthy_true.
Qed.

Lemma extract_dmz_info_named (now : string) (element : Dom.node)
    (r : WVGv2.founder_info) :
  WVGv2.extract_dmz_info now element = Some r ->
  WVGv2.company_name r <> EmptyString \/ WVGv2.founder_name r <> EmptyString.
Proof.
  unfold WVGv2.extract_dmz_info.
  destruct (Str.truthy _ || Str.truthy _) eqn:E; [|discriminate].
  intros [= <-]; simpl.
  apply orb_true_iff in E as [E|E]; [left|right]; now apply truthy_true.
Qed.

(** The records of [scrape_dmz_improved] have a company name. *)
Lemma record_candidate_named (now : string) (max_companies : Z)
    (f : WVGv3.fields) (st : WVGv3.dmz) :
  Forall (fun c => WVGv3.company_name c <> EmptyString) (WVGv3.founders_data st) ->
  Forall (fun c => WVGv3.company_name c <> EmptyString)
    (WVGv3.founders_data (fst (WVGv3.record_candidate now max_companies f st))).
Proof.
  intros H. unfold WVGv3.record_candidate.
  destruct (WVGv3.qualifies f && _) eqn:E; simpl; [|exact H].
  apply Forall_app. split; [exact H|]. constructor; [|constructor]. simpl.
  apply andb_true_iff in E as [E _]. unfold WVGv3.qualifies in E.
  apply andb_true_iff in E as [E _]. apply andb_true_iff in E as [E _].
  now apply truthy_true.
Qed.

Lemma process_elements_named (now : string) (max_companies : Z)
    (els : WVGv3.elements) (st : WVGv3.dmz) :
  Forall (fun c => WVGv3.company_name c <> EmptyString) (WVGv3.founders_data st) ->
  Forall (fun c => WVGv3.company_name c <> EmptyString)
    (WVGv3.founders_data (fst (WVGv3.process_elements now max_companies els st))).
Proof.
  revert st. induction els as [|el els IH]; intros st H; simpl; [exact H|].
  assert (H1 : Forall (fun c => WVGv3.company_name c <> EmptyString)
                 (WVGv3.founders_data
                    (fst (WVGv3.process_element now max_companies el st)))).
  { unfold WVGv3.process_element. destruct el as [raw|e]; [|exact H].
    destruct (WVGv3.too_short _); [exact H|]. now apply record_candidate_named. }
  destruct (WVGv3.process_element now max_companies el st) as [st1 stop].
  destruct stop; simpl in *; [exact H1|]. now apply IH.
Qed.

Lemma dom_pass_named (now : string) (max_companies : Z) (p : WVGv3.page)
    (main : WVGv3.container) (selectors : list string) (st : WVGv3.dmz) :
  Forall (fun c => WVGv3.company_name c <> EmptyString) (WVGv3.founders_data st) ->
  Forall (fun c => WVGv3.company_name c <> EmptyString)
    (WVGv3.founders_data
       (fst (WVGv3.dom_pass now max_companies p main selectors st))).
Proof.
  revert st. induction selectors as [|sel rest IH]; intros st H; simpl; [exact H|].
  destruct (WVGv3.elements_for p main sel) as [els|e]; [|now apply IH].
  pose proof (process_elements_named now max_companies (firstn 50 els) st H) as H1.
  destruct (WVGv3.process_elements now max_companies (firstn 50 els) st)
    as [st1 stop].
  destruct stop; simpl in *; [exact H1|]. now apply IH.
Qed.

Lemma text_parse_named (now : string) (max_companies : Z)
    (text_lines : list string) (data : list WVGv3.company) :
  Forall (fun c => WVGv3.company_name c <> EmptyString) data ->
  Forall (fun c => WVGv3.company_name c <> EmptyString)
    (WVGv3.text_parse now max_companies text_lines data).
Proof.
  revert data. induction text_lines as [|raw rest IH]; intros data H; simpl;
    [exact H|].
  destruct (_ <? _)%Z; [|exact H]. apply IH.
  unfold WVGv3.text_step.
  destruct (WVGv3.name_like (Str.strip raw)) eqn:E; [|exact H].
  destruct (_ && negb _); [|exact H].
  apply Forall_app. split; [exact H|]. constructor; [|constructor]. simpl.
  intros E0. rewrite E0 in E. discriminate.
Qed.

Lemma run_improved_scraping_named (now : string) (max_companies : Z)
    (session : option (py WVGv3.page)) :
  Forall (fun c => WVGv3.company_name c <> EmptyString)
    (WVGv3.run_improved_scraping now max_companies session).
Proof.
  unfold WVGv3.run_improved_scraping, WVGv3.scrape_dmz_improved.
  destruct session as [[p|e]|]; try constructor.
  unfold WVGv3.scrape_page.
  pose proof (dom_pass_named now max_companies p (WVGv3.main_container p)
                WVGv3.company_selectors
                {| WVGv3.found_companies := []; WVGv3.founders_data := [] |}
                (Forall_nil_2 _)) as H.
  destruct (WVGv3.dom_pass _ _ _ _ _ _) as [st stop]. cbn [fst] in H.
  destruct stop; [exact H|].
  destruct (WVGv3.found_companies st); [|exact H].
  now apply text_parse_named.
Qed.

(** C1, at the failing input.  [extract_angel_list_info] has no such
    guard: on a card whose name element and founder element are present
    but without text, it returns a record with the empty company name and
    the empty founder name, where the specification asks for no record. *)
Theorem angel_list_record_without_name :
  exists r : WVGv2.founder_info,
    WVGv2.extract_angel_list_info "2025-01-01T00:00:00" Examples.angel_blank_card
      = Some r
    /\ WVGv2.company_name r = EmptyString
    /\ WVGv2.founder_name r = EmptyString
    /\ WVGv2.source r = "AngelList".
Proof.
  eexists. split; [vm_compute; reflexivity|]. repeat split.
Qed.

(** ** C4: contact channels *)

Lemma find_first {A : Type} (p : A -> bool) (l : list A) (x : A) :
  List.find p l = Some x <->
  exists l1 l2, l = l1 ++ x :: l2 /\ p x = true /\ Forall (fun y => p y = false) l1.
Proof.
  induction l as [|a l IH]; simpl.
  - split; [discriminate|]. intros ([|? ?] & ? & ? & _); discriminate.
  - destruct (p a) eqn:Ea.
    + split.
      * intros [= ->]. exists [], l. repeat split; auto.
      * intros ([|b l1] & l2 & Hl & Hx & Hall); simpl in Hl.
        -- now injection Hl as -> _.
        -- injection Hl as -> _. inversion Hall; congruence.
    + rewrite IH. split.
      * intros (l1 & l2 & -> & Hx & Hall). exists (a :: l1), l2.
        repeat split; auto.
      * intros ([|b l1] & l2 & Hl & Hx & Hall); simpl in Hl.
        -- injection Hl as -> _. congruence.
        -- injection Hl as -> ->. exists l1, l2. repeat split; auto.
           now inversion Hall.
Qed.

(** [find_link] answers the first matching link of the document. *)
Lemma find_link_first (alts : list string) (element : Dom.node) (h : string) :
  WVG.find_link alts element = Some h <-> Spec.first_link alts element h.
Proof.
  unfold WVG.find_link, Spec.first_link, Dom.find.
  split.
  - destruct (List.find _ _) as [e|] eqn:E; [|discriminate].
    intros Hh. apply find_first in E as (l1 & l2 & Hl & He & Hall).
    apply andb_true_iff in He as [Ht Hs].
    exists l1, e, l2. repeat split; auto.
    unfold Dom.href_search in Hs. now rewrite Hh in Hs.
  - intros (l1 & e & l2 & Hl & Ht & Hh & Hc & Hall).
    assert (E : List.find (fun n => Dom.has_tag ["a"] n && Dom.href_search alts n)
                  (Dom.descendants element) = Some e).
    { apply find_first. exists l1, l2. repeat split; auto.
      unfold Dom.href_search. now rewrite Ht, Hh, Hc. }
    now rewrite E.
Qed.

Lemma lookup_set_if (key : string) (value : option string)
    (m : gmap string string) (k : string) :
  WVG.set_if key value m !! k =
  if decide (k = key) then match value with Some v => Some v | None => m !! k end
  else m !! k.
Proof.
  unfold WVG.set_if. destruct value as [v|].
  - destruct (decide (k = key)) as [->|Hne].
    + apply lookup_insert_eq.
    + now apply lookup_insert_ne.
  - now destruct (decide (k = key)).
Qed.

Lemma website_of_first (element : Dom.node) (u : string) :
  WVG.website_of element = Some u <->
  Spec.first_link ["http"] element u /\ Str.contains_any WVG.socials u = false.
Proof.
  unfold WVG.website_of. rewrite <- find_link_first.
  destruct (WVG.find_link ["http"] element) as [h|].
  - destruct (Str.contains_any WVG.socials h) eqn:E; split.
    + discriminate.
    + intros [[= ->] ?]. congruence.
    + intros [= ->]. auto.
    + now intros [[= ->] _].
  - split; [discriminate|]. now intros [? _].
Qed.

(** The channels of the dict that [extract_founder_info] builds. *)
Lemma contact_of_channels (element : Dom.node) (kind u : string) :
  WVG.contact_of element !! kind = Some u <->
    (kind = "email" /\
       exists h, Spec.first_link ["mailto:"] element h /\
                 u = Str.replace "mailto:" EmptyString h)
    \/ (kind = "linkedin" /\ Spec.first_link ["linkedin.com"] element u)
    \/ (kind = "twitter" /\ Spec.first_link ["twitter.com"; "x.com"] element u)
    \/ (kind = "website" /\ Spec.first_link ["http"] element u
        /\ Str.contains_any WVG.socials u = false).
Proof.
  unfold WVG.contact_of. rewrite !lookup_set_if, lookup_empty.
  rewrite <- (website_of_first element u), <- !find_link_first.
  destruct (decide (kind = "website")) as [->|Hw].
  { destruct (WVG.website_of element) as [w|]; simpl.
    - split; [intros [= ->]; auto 6|].
      intros [[? _]|[[? _]|[[? _]|[_ H]]]]; try discriminate. exact H.
    - split; [discriminate|].
      intros [[? _]|[[? _]|[[? _]|[_ H]]]]; discriminate. }
  destruct (decide (kind = "twitter")) as [->|Ht].
  { destruct (WVG.find_link ["twitter.com"; "x.com"] element) as [w|]; simpl.
    - split; [intros [= ->]; auto 6|].
      intros [[? _]|[[? _]|[[_ H]|[? _]]]]; try discriminate. exact H.
    - split; [discriminate|].
      intros [[? _]|[[? _]|[[_ H]|[? _]]]]; discriminate. }
  destruct (decide (kind = "linkedin")) as [->|Hl].
  { destruct (WVG.find_link ["linkedin.com"] element) as [w|]; simpl.
    - split; [intros [= ->]; auto 6|].
      intros [[? _]|[[_ H]|[[? _]|[? _]]]]; try discriminate. exact H.
    - split; [discriminate|].
      intros [[? _]|[[_ H]|[[? _]|[? _]]]]; discriminate. }
  destruct (decide (kind = "email")) as [->|He].
  { destruct (WVG.find_link ["mailto:"] element) as [w|] eqn:Ew; simpl.
    - split.
      + intros [= <-]. left. split; [reflexivity|]. exists w.
        split; [now apply find_link_first|reflexivity].
      + intros [[_ (h & Hh & ->)]|[[? _]|[[? _]|[? _]]]]; try discriminate.
        apply find_link_first in Hh. congruence.
    - split; [discriminate|].
      intros [[_ (h & Hh & _)]|[[? _]|[[? _]|[? _]]]]; try discriminate.
      apply find_link_first in Hh. congruence. }
  split; [discriminate|].
  intros [[? _]|[[? _]|[[? _]|[? _]]]]; congruence.
Qed.

(** C4, as the code has it.  In [extract_founder_info] a channel of the
    record holds the first link of its kind in document order: the
    address behind [mailto:] under [email], a link with [linkedin.com]
    under [linkedin], one with [twitter.com] or [x.com] under [twitter],
    and under [website] the first link with [http] provided it names none
    of the three hosts; there is no other key, and a key holds one value.
    [extract_velocity_fund_info] has one channel only: what it stores is
    under [website] and is the first link with [http]. *)
Theorem contact_channels_by_kind :
  (forall now element src r,
     WVG.extract_founder_info now element src = Some r ->
     forall kind u,
       WVG.contact_info r !! kind = Some u <->
         (kind = "email" /\
            exists h, Spec.first_link ["mailto:"] element h /\
                      u = Str.replace "mailto:" EmptyString h)
         \/ (kind = "linkedin" /\ Spec.first_link ["linkedin.com"] element u)
         \/ (kind = "twitter" /\ Spec.first_link ["twitter.com"; "x.com"] element u)
         \/ (kind = "website" /\ Spec.first_link ["http"] element u
             /\ Str.contains_any WVG.socials u = false))
  /\
  (forall now element r kind u,
     WVGv2.extract_velocity_fund_info now element = Some r ->
     WVGv2.contact_info r !! kind = Some u ->
     kind = "website" /\ Spec.first_link ["http"] element u).
Proof.
  split.
  - intros now element src r H kind u.
    unfold WVG.extract_founder_info in H.
    destruct (Str.truthy _ || Str.truthy _); [|discriminate].
    injection H as <-. simpl. apply contact_of_channels.
  - intros now element r kind u H.
    unfold WVGv2.extract_velocity_fund_info in H.
    destruct (Str.truthy _ || Str.truthy _); [|discriminate].
    injection H as <-. simpl.
    rewrite lookup_set_if, lookup_empty, <- find_link_first.
    destruct (decide (kind = "website")) as [->|Hne]; [|discriminate].
    destruct (WVG.find_link ["http"] element) as [h|]; [|discriminate].
    intros [= ->]. auto.
Qed.

(** The channels of a card with links of every kind, and the channel of a
    portfolio card. *)
Lemma contact_channels_by_kind_witness :
  (WVG.extract_founder_info "now" Examples.full_card "Communitech"
     = Some Examples.full_record
   /\ (WVG.contact_info Examples.full_record !! "twitter" = Some "https://x.com/acme"
       <-> Spec.first_link ["twitter.com"; "x.com"] Examples.full_card
             "https://x.com/acme"))
  /\ (WVGv2.extract_velocity_fund_info "now" Examples.site_first_card
       = Some Examples.site_first_record
     /\ WVGv2.contact_info Examples.site_first_record !! "website"
        = Some "https://acme.example/"
     /\ Spec.first_link ["http"] Examples.site_first_card "https://acme.example/").
Proof.
  split; split.
  - reflexivity.
  - pose proof (proj1 contact_channels_by_kind "now" Examples.full_card
                  "Communitech" Examples.full_record eq_refl
                  "twitter" "https://x.com/acme") as H.
    split.
    + intros Hl. apply H in Hl.
      destruct Hl as [[E _]|[[E _]|[[_ Hl]|[E _]]]];
        [discriminate E|discriminate E|exact Hl|discriminate E].
    + intros Hl. apply H. right. right. left. split; [reflexivity|exact Hl].
  - reflexivity.
  - split; [vm_compute; reflexivity|].
    apply (proj2 contact_channels_by_kind "now" Examples.site_first_card
             Examples.site_first_record "website" "https://acme.example/");
      [reflexivity|vm_compute; reflexivity].
Defined.

(** C4 as it is stated fails on [extract_velocity_fund_info]: the first
    link of the card goes to LinkedIn, and it is stored under [website];
    no [linkedin] channel is set.  And the [mailto:] link of a card gives
    no [email] channel. *)
Lemma website_of_velocity_fund_is_social :
  (exists r : WVGv2.founder_info,
     WVGv2.extract_velocity_fund_info "now" Examples.linkedin_first_card = Some r
     /\ WVGv2.contact_info r !! "website"
          = Some "https://www.linkedin.com/company/acme"
     /\ Str.contains "linkedin.com" "https://www.linkedin.com/company/acme" = true
     /\ WVGv2.contact_info r !! "linkedin" = None)
  /\
  (WVGv2.extract_velocity_fund_info "now" Examples.site_first_card
     = Some Examples.site_first_record
   /\ WVG.find_link ["mailto:"] Examples.site_first_card
      = Some "mailto:jane@acme.example"
   /\ WVGv2.contact_info Examples.site_first_record !! "email" = None).
Proof.
  split.
  - eexists. split; [vm_compute; reflexivity|].
    repeat split; vm_compute; reflexivity.
  - repeat split; vm_compute; reflexivity.
Qed.

(** ** C8: a fetch failure stays with its source *)

Lemma scrape_directory_split (now : string) (w : WVG.web) (url : string)
    (alts : list string) (src : string) (st : WVG.scraper) :
  WVG.founders_data (WVG.scrape_directory now w url alts src st)
    = WVG.founders_data st ++
      Spec.records_of now w
        {| Spec.url := url; Spec.label := src; Spec.locate := Spec.cards alts |}
  /\ WVG.errors (WVG.scrape_directory now w url alts src st)
    = WVG.errors st ++
      Spec.report_of w
        {| Spec.url := url; Spec.label := src; Spec.locate := Spec.cards alts |}.
Proof.
  unfold WVG.scrape_directory, Spec.records_of, Spec.report_of; simpl.
  destruct (w url); simpl; rewrite ?app_nil_r; auto.
Qed.

Lemma scrape_betakit_split (now : string) (w : WVG.web) (st : WVG.scraper) :
  WVG.founders_data (WVG.scrape_betakit now w st)
    = WVG.founders_data st ++
      Spec.records_of now w
        {| Spec.url := "https://betakit.com/"; Spec.label := "BetaKit";
           Spec.locate := Spec.regional_articles |}
  /\ WVG.errors (WVG.scrape_betakit now w st)
    = WVG.errors st ++
      Spec.report_of w
        {| Spec.url := "https://betakit.com/"; Spec.label := "BetaKit";
           Spec.locate := Spec.regional_articles |}.
Proof.
  unfold WVG.scrape_betakit, Spec.records_of, Spec.report_of; simpl.
  destruct (w "https://betakit.com/"); simpl; rewrite ?app_nil_r; auto.
Qed.

(** C8.  Whatever the fetches of the four sources answer, [run_scraping]
    ends with a result: the records are those of every source whose fetch
    answered, in the order of the sources and passed through the region
    filter, and the reports are one line for every source whose fetch
    raised.  A failing source takes nothing from the others. *)
Theorem fetch_failure_stays_with_its_source (now : string) (w : WVG.web) :
  WVG.founders_data (WVG.run_scraping now w)
    = List.filter Spec.in_region (flat_map (Spec.records_of now w) Spec.sources)
  /\ WVG.errors (WVG.run_scraping now w)
    = flat_map (Spec.report_of w) Spec.sources.
Proof.
  unfold WVG.run_scraping, WVG.filter_waterloo_region, WVG.scrape_all.
  unfold WVG.scrape_innovation_guelph, WVG.scrape_communitech,
    WVG.scrape_velocity_incubator.
  cbn [WVG.founders_data WVG.errors].
  split.
  - rewrite (proj1 (scrape_directory_split _ _ _ _ _ _)).
    rewrite (proj1 (scrape_betakit_split _ _ _)).
    rewrite (proj1 (scrape_directory_split _ _ _ _ _ _)).
    rewrite (proj1 (scrape_directory_split _ _ _ _ _ _)).
    cbn [WVG.init WVG.founders_data flat_map Spec.sources app].
    rewrite app_nil_r, <- !app_assoc. reflexivity.
  - rewrite (proj2 (scrape_directory_split _ _ _ _ _ _)).
    rewrite (proj2 (scrape_betakit_split _ _ _)).
    rewrite (proj2 (scrape_directory_split _ _ _ _ _ _)).
    rewrite (proj2 (scrape_directory_split _ _ _ _ _ _)).
    cbn [WVG.init WVG.errors flat_map Spec.sources app].
    rewrite app_nil_r, <- !app_assoc. reflexivity.
Qed.

(** ** C6: the length test of a candidate *)

Lemma too_short_lt (t : string) :
  WVGv3.too_short t = true <-> (Str.len t < 20)%nat.
Proof. unfold WVGv3.too_short. apply Nat.ltb_lt. Qed.

(** C6, as the code has it.  An element whose stripped text has fewer
    than 20 characters is skipped: the state is unchanged.  An element
    with 20 characters or more is a candidate: its lines are scanned and
    the outcome is that of the scan. *)
Theorem candidate_needs_twenty_characters (now : string) (max_companies : Z)
    (raw : string) (st : WVGv3.dmz) :
  ((Str.len (Str.strip raw) < 20)%nat ->
     WVGv3.process_element now max_companies (Ok raw) st = (st, false))
  /\ ((20 <= Str.len (Str.strip raw))%nat ->
     WVGv3.process_element now max_companies (Ok raw) st
       = WVGv3.record_candidate now max_companies
           (WVGv3.classify (Str.strip raw)) st).
Proof.
  unfold WVGv3.process_element. split; intros H.
  - apply too_short_lt in H. now rewrite H.
  - destruct (WVGv3.too_short (Str.strip raw)) eqn:E; [|reflexivity].
    apply too_short_lt in E. lia.
Qed.

(** A text of four characters is skipped, a text of twenty is scanned. *)
Lemma candidate_needs_twenty_characters_witness :
  ((Str.len (Str.strip "SaaS") < 20)%nat
   /\ WVGv3.process_element "now" 50 (Ok "SaaS") Examples.no_data
      = (Examples.no_data, false))
  /\ ((20 <= Str.len (Str.strip Examples.twenty))%nat
   /\ WVGv3.process_element "now" 50 (Ok Examples.twenty) Examples.no_data
      = WVGv3.record_candidate "now" 50
          (WVGv3.classify (Str.strip Examples.twenty)) Examples.no_data).
Proof.
  split; split.
  - vm_compute; lia.
  - apply (proj1 (candidate_needs_twenty_characters "now" 50 "SaaS" Examples.no_data)).
    vm_compute; lia.
  - vm_compute; lia.
  - apply (proj2 (candidate_needs_twenty_characters "now" 50 Examples.twenty
                    Examples.no_data)).
    vm_compute; lia.
Defined.

(** C6 as it is stated fails at the threshold: a text of exactly 20
    characters is not skipped, it gives a record. *)
Lemma twenty_characters_are_kept :
  Str.len (Str.strip Examples.twenty) = 20%nat
  /\ WVGv3.too_short (Str.strip Examples.twenty) = false
  /\ map WVGv3.company_name
       (WVGv3.founders_data
          (fst (WVGv3.process_element "now" 50 (Ok Examples.twenty) Examples.no_data)))
     = ["Acme Robotics"].
Proof. repeat split; vm_compute; reflexivity. Qed.

(** ** C2: deduplication by company name *)

Lemma known_elem (name : string) (l : list WVGv3.company) :
  WVGv3.known name l = true <-> name ∈ map WVGv3.company_name l.
Proof.
  unfold WVGv3.known. rewrite list_elem_of_In, in_map_iff.
  split.
  - intros (x & Hx & E)%existsb_exists. apply String.eqb_eq in E. eauto.
  - intros (x & E & Hx). apply existsb_exists. exists x. split; [exact Hx|].
    now apply String.eqb_eq.
Qed.

Lemma names_snoc (l : list WVGv3.company) (c : WVGv3.company) :
  WVGv3.known (WVGv3.company_name c) l = false ->
  NoDup (map WVGv3.company_name l) ->
  NoDup (map WVGv3.company_name (l ++ [c])).
Proof.
  intros Hk Hnd. rewrite map_app. apply NoDup_app. split; [exact Hnd|].
  split; [|apply NoDup_singleton].
  intros x Hx [->|[]%elem_of_nil]%elem_of_cons.
  apply known_elem in Hx. congruence.
Qed.

Lemma record_candidate_inv (now : string) (max_companies : Z) (f : WVGv3.fields)
    (data : list WVGv3.company) (st : WVGv3.dmz) :
  Spec.dom_inv data st ->
  Spec.dom_inv data (fst (WVGv3.record_candidate now max_companies f st)).
Proof.
  intros [Hd Hn]. unfold WVGv3.record_candidate.
  destruct (WVGv3.qualifies f && _) eqn:E; simpl; [|now split].
  apply andb_true_iff in E as [_ Hk]. apply negb_true_iff in Hk.
  split; simpl.
  - now rewrite Hd, app_assoc.
  - now apply names_snoc.
Qed.

Lemma process_element_inv (now : string) (max_companies : Z) (el : py string)
    (data : list WVGv3.company) (st : WVGv3.dmz) :
  Spec.dom_inv data st ->
  Spec.dom_inv data (fst (WVGv3.process_element now max_companies el st)).
Proof.
  intros H. unfold WVGv3.process_element.
  destruct el as [raw|e]; [|exact H].
  destruct (WVGv3.too_short _); [exact H|].
  now apply record_candidate_inv.
Qed.

Lemma process_elements_inv (now : string) (max_companies : Z) (els : WVGv3.elements)
    (data : list WVGv3.company) (st : WVGv3.dmz) :
  Spec.dom_inv data st ->
  Spec.dom_inv data (fst (WVGv3.process_elements now max_companies els st)).
Proof.
  revert st. induction els as [|el els IH]; intros st H; simpl; [exact H|].
  pose proof (process_element_inv now max_companies el data st H) as H1.
  destruct (WVGv3.process_element now max_companies el st) as [st1 stop].
  destruct stop; simpl in *; [exact H1|]. now apply IH.
Qed.

Lemma dom_pass_inv (now : string) (max_companies : Z) (p : WVGv3.page)
    (main : WVGv3.container) (selectors : list string)
    (data : list WVGv3.company) (st : WVGv3.dmz) :
  Spec.dom_inv data st ->
  Spec.dom_inv data (fst (WVGv3.dom_pass now max_companies p main selectors st)).
Proof.
  revert st. induction selectors as [|sel rest IH]; intros st H; simpl; [exact H|].
  destruct (WVGv3.elements_for p main sel) as [els|e]; [|now apply IH].
  pose proof (process_elements_inv now max_companies (firstn 50 els) data st H) as H1.
  destruct (WVGv3.process_elements now max_companies (firstn 50 els) st)
    as [st1 stop].
  destruct stop; simpl in *; [exact H1|]. now apply IH.
Qed.

Lemma text_step_names (now raw : string) (rest : list string)
    (data : list WVGv3.company) :
  NoDup (map WVGv3.company_name data) ->
  NoDup (map WVGv3.company_name (WVGv3.text_step now raw rest data)).
Proof.
  intros H. unfold WVGv3.text_step.
  destruct (WVGv3.name_like _); [|exact H].
  destruct (_ && negb (WVGv3.known _ data)) eqn:E; [|exact H].
  apply andb_true_iff in E as [_ Hk]. apply negb_true_iff in Hk.
  now apply names_snoc.
Qed.

Lemma text_parse_names (now : string) (max_companies : Z) (text_lines : list string)
    (data : list WVGv3.company) :
  NoDup (map WVGv3.company_name data) ->
  NoDup (map WVGv3.company_name (WVGv3.text_parse now max_companies text_lines data)).
Proof.
  revert data. induction text_lines as [|raw rest IH]; intros data H; simpl;
    [exact H|].
  destruct (_ <? _)%Z; [|exact H]. apply IH. now apply text_step_names.
Qed.

(** A run has no two records of the same company name. *)
Lemma run_improved_scraping_names (now : string) (max_companies : Z)
    (session : option (py WVGv3.page)) :
  NoDup (map WVGv3.company_name
           (WVGv3.run_improved_scraping now max_companies session)).
Proof.
  unfold WVGv3.run_improved_scraping, WVGv3.scrape_dmz_improved.
  destruct session as [[p|e]|]; try apply NoDup_nil_2.
  unfold WVGv3.scrape_page.
  assert (H0 : Spec.dom_inv []
                 {| WVGv3.found_companies := []; WVGv3.founders_data := [] |})
    by (split; [reflexivity|apply NoDup_nil_2]).
  pose proof (dom_pass_inv now max_companies p (WVGv3.main_container p)
                WVGv3.company_selectors [] _ H0) as [Hd Hn].
  destruct (WVGv3.dom_pass _ _ _ _ _ _) as [st stop]. simpl in Hd, Hn.
  rewrite Hd. simpl.
  destruct stop; [exact Hn|].
  destruct (WVGv3.found_companies st) eqn:E; [|exact Hn].
  now apply text_parse_names.
Qed.

(** C2, as the code has it.  The records of a run are distinct by their
    company name, compared as it is written — the lines are stripped, but
    nothing is lowercased or collapsed.  A candidate whose company name is
    there already is dropped: the state is unchanged, the first record
    stays as it is, and the person names of the candidate are not added to
    it. *)
Theorem dedup_is_by_exact_name :
  (forall now max_companies session,
     NoDup (map WVGv3.company_name
              (WVGv3.run_improved_scraping now max_companies session)))
  /\
  (forall now max_companies raw st,
     WVGv3.known (WVGv3.f_company (WVGv3.classify (Str.strip raw)))
                 (WVGv3.found_companies st) = true ->
     WVGv3.process_element now max_companies (Ok raw) st = (st, false)).
Proof.
  split; [exact run_improved_scraping_names|].
  intros now max_companies raw st H. unfold WVGv3.process_element.
  destruct (WVGv3.too_short _); [reflexivity|].
  unfold WVGv3.record_candidate. rewrite H.
  now rewrite andb_false_r.
Qed.

(** The second card of the same name leaves the state as it is. *)
Lemma dedup_is_by_exact_name_witness :
  WVGv3.known (WVGv3.f_company (WVGv3.classify (Str.strip Examples.acme_john)))
              (WVGv3.found_companies Examples.after_acme_jane) = true
  /\ WVGv3.process_element "now" 50 (Ok Examples.acme_john) Examples.after_acme_jane
     = (Examples.after_acme_jane, false).
Proof.
  split.
  - vm_compute; reflexivity.
  - apply (proj2 dedup_is_by_exact_name). vm_compute; reflexivity.
Defined.

(** C2 as it is stated fails.  "Acme Robotics" and "acme robotics " have
    the same key in the words of the specification, and the run keeps a
    record for each; and of two cards of the same name, the record kept
    has the founder of the first card only. *)
Lemma dedup_does_not_normalize :
  Spec.dedup_key "Acme Robotics" = Spec.dedup_key "acme robotics "
  /\ map WVGv3.company_name
       (WVGv3.run_improved_scraping "now" 50 (Some (Ok Examples.case_page)))
     = ["Acme Robotics"; "acme robotics"]
  /\ map (fun c => (WVGv3.company_name c, WVGv3.founder_name c))
       (WVGv3.run_improved_scraping "now" 50 (Some (Ok Examples.same_name_page)))
     = [("Acme Robotics", "Jane Doe, Founder")].
Proof. repeat split; vm_compute; reflexivity. Qed.

(** ** C3: lines with a role keyword *)

Lemma name_rule_named (company line : string) :
  Str.truthy company = true -> WVGv3.name_rule company line = false.
Proof. intros H. unfold WVGv3.name_rule. now rewrite H. Qed.

Lemma classify_from_named (f : WVGv3.fields) (lines : list string) :
  Str.truthy (WVGv3.f_company f) = true ->
  WVGv3.f_company (WVGv3.classify_from f lines) = WVGv3.f_company f
  /\ WVGv3.f_founders (WVGv3.classify_from f lines)
     = WVGv3.f_founders f ++
       List.filter (fun l => Roles.reaches_role_rule l && WVGv3.is_title l) lines.
Proof.
  revert f. induction lines as [|line lines IH]; intros f H.
  - simpl. now rewrite app_nil_r.
  - unfold WVGv3.classify_from in *. cbn [fold_left List.filter].
    unfold WVGv3.classify_line at 2 4. unfold Roles.reaches_role_rule.
    rewrite (name_rule_named _ line H).
    destruct (WVGv3.is_stop line); simpl; [now apply IH|].
    destruct (WVGv3.is_city line); simpl.
    { destruct (IH {| WVGv3.f_company := WVGv3.f_company f;
                      WVGv3.f_location := line;
                      WVGv3.f_founders := WVGv3.f_founders f |} H) as [-> ->].
      now simpl. }
    destruct (WVGv3.is_title line); simpl; [|now apply IH].
    destruct (IH {| WVGv3.f_company := WVGv3.f_company f;
                    WVGv3.f_location := WVGv3.f_location f;
                    WVGv3.f_founders := WVGv3.f_founders f ++ [line] |} H)
      as [-> ->].
    simpl. now rewrite <- app_assoc.
Qed.

Lemma velocity_founder_name_first (texts : list string) :
  WVGv3.velocity_founder_name (map Ok texts)
  = hd EmptyString (List.filter Roles.velocity_is_role (map Str.strip texts)).
Proof.
  induction texts as [|t texts IH]; simpl; [reflexivity|].
  unfold Roles.velocity_is_role at 1.
  destruct (Str.truthy (Str.strip t) && _); simpl; [reflexivity|exact IH].
Qed.

(** C3, as the code has it.  In the line scan of [scrape_dmz_improved],
    once the company name is assigned, the founder names grow by exactly
    the lines that reach the role rule (no stop word, no place name) and
    contain "ceo", "founder", "co-founder" or "president": all of them, in
    order.  In [extract_dmz_info] every text of a team element with a role
    keyword is among the founder names.  In [scrape_velocity_improved] the
    founder name is the first text with a role keyword, and [break] ends
    the search. *)
Theorem role_lines_collected :
  (forall f lines,
     Str.truthy (WVGv3.f_company f) = true ->
     WVGv3.f_founders (WVGv3.classify_from f lines)
     = WVGv3.f_founders f ++
       List.filter (fun l => Roles.reaches_role_rule l && WVGv3.is_title l) lines)
  /\
  (forall element sel e,
     In sel WVGv2.dmz_team_selectors ->
     In e (WVGv2.find_elements sel element) ->
     WVGv2.dmz_is_role (Dom.text e) = true ->
     In (Dom.text e) (WVGv2.dmz_founder_names element))
  /\
  (forall texts,
     WVGv3.velocity_founder_name (map Ok texts)
     = hd EmptyString (List.filter Roles.velocity_is_role (map Str.strip texts))).
Proof.
  split; [|split].
  - intros f lines H. now apply classify_from_named.
  - intros element sel e Hsel He Hrole.
    unfold WVGv2.dmz_founder_names. apply in_flat_map.
    exists sel. split; [exact Hsel|].
    apply filter_In. split; [|exact Hrole].
    apply in_map_iff. now exists e.
  - exact velocity_founder_name_first.
Qed.

(** Two role lines behind the company name are both collected; the two
    team members of a card are both among the founder names. *)
Lemma role_lines_collected_witness :
  (Str.truthy (WVGv3.f_company Examples.named_acme) = true
   /\ WVGv3.f_founders
        (WVGv3.classify_from Examples.named_acme
           ["Jane Doe, Founder"; "B2B"; "John Roe, CEO"])
      = ["Jane Doe, Founder"; "John Roe, CEO"])
  /\ In "John Roe, CEO" (WVGv2.dmz_founder_names Examples.team_card).
Proof.
  split; [split|].
  - reflexivity.
  - rewrite (proj1 role_lines_collected Examples.named_acme
               ["Jane Doe, Founder"; "B2B"; "John Roe, CEO"]); reflexivity.
  - apply (proj1 (proj2 role_lines_collected) Examples.team_card
             (Dom.has_tag ["p"])
             (Dom.Elem "p" [] None [Dom.Text "John Roe, CEO"])).
    + vm_compute. auto 6.
    + vm_compute. auto 10.
    + vm_compute; reflexivity.
Defined.

(** C3 as it is stated fails.  Of the two lines with a role keyword the
    scan collects one: "Jon Smith, CEO" contains the place name "on" and
    becomes the location.  And [scrape_velocity_improved] keeps the first
    of two texts with a role keyword. *)
Lemma role_line_not_collected :
  List.filter WVGv3.is_title Examples.jon_lines
    = ["Jon Smith, CEO"; "Jane Doe, Founder"]
  /\ WVGv3.f_founders (WVGv3.classify_from WVGv3.no_fields Examples.jon_lines)
    = ["Jane Doe, Founder"]
  /\ WVGv3.velocity_founder_name [Ok "Jane Doe, Founder"; Ok "John Roe, CEO"]
    = "Jane Doe, Founder".
Proof. repeat split; vm_compute; reflexivity. Qed.

(** ** C5: locator strategies *)

Lemma scan_links_quiet (links : list Velocity.link) (acc : list string) :
  forallb Locator.answers links = true ->
  snd (Velocity.scan_links links acc) = false.
Proof.
  revert acc. induction links as [|l links IH]; intros acc H; simpl in *;
    [reflexivity|].
  apply andb_true_iff in H as [Hl H]. unfold Locator.answers in Hl.
  destruct (Velocity.href l) as [[h|]|]; try discriminate; auto.
  destruct (Str.truthy h && _); auto.
Qed.

(** When no strategy raises, the links are those of the first strategy
    that accepts one. *)
Lemma try_selectors_first_yield (p : Velocity.directory_page)
    (selectors : list string) :
  forallb (Locator.quiet p) selectors = true ->
  Velocity.try_selectors p selectors [] = Locator.first_yield p selectors.
Proof.
  unfold Locator.first_yield.
  induction selectors as [|sel rest IH]; intros H; simpl in *; [reflexivity|].
  apply andb_true_iff in H as [Hq H].
  unfold Locator.yields at 1. unfold Locator.quiet in Hq.
  destruct (Velocity.links_of p sel) as [links|e] eqn:El; [|discriminate].
  pose proof (scan_links_quiet links [] Hq) as Hs.
  assert (Ea : Locator.accepted_links p sel = fst (Velocity.scan_links links []))
    by (unfold Locator.accepted_links; now rewrite El).
  rewrite Ea.
  destruct (Velocity.scan_links links []) as [found raised]. simpl in *.
  subst raised. destruct found; [now apply IH|]. now rewrite Ea.
Qed.

Lemma record_candidate_known (now : string) (max_companies : Z)
    (f : WVGv3.fields) (st : WVGv3.dmz) :
  WVGv3.qualifies f = true ->
  WVGv3.known (WVGv3.f_company f)
    (WVGv3.found_companies (fst (WVGv3.record_candidate now max_companies f st)))
  = true.
Proof.
  intros Hq. unfold WVGv3.record_candidate. rewrite Hq. simpl.
  destruct (WVGv3.known _ (WVGv3.found_companies st)) eqn:E; simpl; [exact E|].
  unfold WVGv3.known. rewrite existsb_app. simpl.
  now rewrite String.eqb_refl, orb_true_r.
Qed.

Lemma record_candidate_mono (now : string) (max_companies : Z)
    (f : WVGv3.fields) (st : WVGv3.dmz) (name : string) :
  WVGv3.known name (WVGv3.found_companies st) = true ->
  WVGv3.known name
    (WVGv3.found_companies (fst (WVGv3.record_candidate now max_companies f st)))
  = true.
Proof.
  intros H. unfold WVGv3.record_candidate.
  destruct (_ && _); simpl; [|exact H].
  unfold WVGv3.known in *. rewrite existsb_app, H. reflexivity.
Qed.

Lemma process_element_mono (now : string) (max_companies : Z) (el : py string)
    (st : WVGv3.dmz) (name : string) :
  WVGv3.known name (WVGv3.found_companies st) = true ->
  WVGv3.known name
    (WVGv3.found_companies (fst (WVGv3.process_element now max_companies el st)))
  = true.
Proof.
  intros H. unfold WVGv3.process_element. destruct el as [raw|e]; [|exact H].
  destruct (WVGv3.too_short _); [exact H|]. now apply record_candidate_mono.
Qed.

Lemma process_elements_mono (now : string) (max_companies : Z)
    (els : WVGv3.elements) (st : WVGv3.dmz) (name : string) :
  WVGv3.known name (WVGv3.found_companies st) = true ->
  WVGv3.known name
    (WVGv3.found_companies (fst (WVGv3.process_elements now max_companies els st)))
  = true.
Proof.
  revert st. induction els as [|el els IH]; intros st H; simpl; [exact H|].
  pose proof (process_element_mono now max_companies el st name H) as H1.
  destruct (WVGv3.process_element now max_companies el st) as [st1 stop].
  destruct stop; simpl in *; [exact H1|]. now apply IH.
Qed.

Lemma dom_pass_mono (now : string) (max_companies : Z) (p : WVGv3.page)
    (main : WVGv3.container) (selectors : list string) (st : WVGv3.dmz)
    (name : string) :
  WVGv3.known name (WVGv3.found_companies st) = true ->
  WVGv3.known name
    (WVGv3.found_companies
       (fst (WVGv3.dom_pass now max_companies p main selectors st)))
  = true.
Proof.
  revert st. induction selectors as [|sel rest IH]; intros st H; simpl; [exact H|].
  destruct (WVGv3.elements_for p main sel) as [els|e]; [|now apply IH].
  pose proof (process_elements_mono now max_companies (firstn 50 els) st name H)
    as H1.
  destruct (WVGv3.process_elements now max_companies (firstn 50 els) st)
    as [st1 stop].
  destruct stop; simpl in *; [exact H1|]. now apply IH.
Qed.

(** A candidate that qualifies has its name in [found_companies] at the
    end of its strategy, when the cap did not stop the strategy. *)
Lemma process_elements_complete (now : string) (max_companies : Z)
    (els : WVGv3.elements) (st st' : WVGv3.dmz) (raw : string) :
  WVGv3.process_elements now max_companies els st = (st', false) ->
  In (Ok raw) els ->
  WVGv3.too_short (Str.strip raw) = false ->
  WVGv3.qualifies (WVGv3.classify (Str.strip raw)) = true ->
  WVGv3.known (WVGv3.f_company (WVGv3.classify (Str.strip raw)))
    (WVGv3.found_companies st') = true.
Proof.
  revert st. induction els as [|el els IH]; intros st Hrun Hin Hlen Hq;
    [destruct Hin|].
  simpl in Hrun.
  destruct (WVGv3.process_element now max_companies el st) as [st1 stop] eqn:E1.
  destruct stop; [discriminate|].
  destruct Hin as [->|Hin]; [|now apply (IH st1)].
  assert (K : WVGv3.known (WVGv3.f_company (WVGv3.classify (Str.strip raw)))
                (WVGv3.found_companies st1) = true).
  { replace st1 with (fst (WVGv3.process_element now max_companies (Ok raw) st))
      by now rewrite E1.
    unfold WVGv3.process_element. rewrite Hlen.
    now apply record_candidate_known. }
  pose proof (process_elements_mono now max_companies els st1 _ K) as K'.
  now rewrite Hrun in K'.
Qed.

Lemma dom_pass_complete (now : string) (max_companies : Z) (p : WVGv3.page)
    (main : WVGv3.container) (selectors : list string) (st st' : WVGv3.dmz)
    (sel : string) (els : WVGv3.elements) (raw : string) :
  WVGv3.dom_pass now max_companies p main selectors st = (st', false) ->
  In sel selectors ->
  WVGv3.elements_for p main sel = Ok els ->
  In (Ok raw) (firstn 50 els) ->
  WVGv3.too_short (Str.strip raw) = false ->
  WVGv3.qualifies (WVGv3.classify (Str.strip raw)) = true ->
  WVGv3.known (WVGv3.f_company (WVGv3.classify (Str.strip raw)))
    (WVGv3.found_companies st') = true.
Proof.
  revert st. induction selectors as [|s rest IH];
    intros st Hrun Hsel Hels Hin Hlen Hq; [destruct Hsel|].
  simpl in Hrun.
  destruct Hsel as [->|Hsel].
  - rewrite Hels in Hrun.
    destruct (WVGv3.process_elements now max_companies (firstn 50 els) st)
      as [st1 stop] eqn:E1.
    destruct stop; [discriminate|].
    pose proof (process_elements_complete _ _ _ _ _ _ E1 Hin Hlen Hq) as K.
    pose proof (dom_pass_mono now max_companies p main rest st1 _ K) as K'.
    now rewrite Hrun in K'.
  - destruct (WVGv3.elements_for p main s) as [els0|e]; [|now apply (IH st)].
    destruct (WVGv3.process_elements now max_companies (firstn 50 els0) st)
      as [st1 stop].
    destruct stop; [discriminate|]. now apply (IH st1).
Qed.

(** C5, as the code has it.  In [scrape_velocity_companies] the
    strategies are tried in their order and, when none of them raises, the
    links are those of the first strategy that accepts one: nothing of a
    later strategy is added.  In [scrape_dmz_improved] there is no such
    rule: every strategy is processed, and when the cap does not stop the
    pass, a candidate of any strategy that passes the length test and
    qualifies has its company name among the records found. *)
Theorem locator_strategies :
  (forall p selectors,
     forallb (Locator.quiet p) selectors = true ->
     Velocity.try_selectors p selectors [] = Locator.first_yield p selectors)
  /\
  (forall now max_companies p main selectors st st' sel els raw,
     WVGv3.dom_pass now max_companies p main selectors st = (st', false) ->
     In sel selectors ->
     WVGv3.elements_for p main sel = Ok els ->
     In (Ok raw) (firstn 50 els) ->
     WVGv3.too_short (Str.strip raw) = false ->
     WVGv3.qualifies (WVGv3.classify (Str.strip raw)) = true ->
     WVGv3.known (WVGv3.f_company (WVGv3.classify (Str.strip raw)))
       (WVGv3.found_companies st') = true).
Proof.
  split.
  - exact try_selectors_first_yield.
  - intros. eapply dom_pass_complete; eassumption.
Qed.

(** The links of the example are those of its third strategy; the card
    under [section] of the DMZ page is found although [article] comes
    first. *)
Lemma locator_strategies_witness :
  (forallb (Locator.quiet Locator.directory_example) Velocity.company_selectors = true
   /\ Velocity.try_selectors Locator.directory_example Velocity.company_selectors []
      = ["https://www.velocityincubator.com/company/acme";
         "https://www.velocityincubator.com/company/beta"])
  /\ WVGv3.known "Beta Labs" (WVGv3.found_companies Examples.after_two_strategies)
     = true.
Proof.
  split; [split|].
  - vm_compute; reflexivity.
  - rewrite (proj1 locator_strategies Locator.directory_example
               Velocity.company_selectors); vm_compute; reflexivity.
  - apply (proj2 locator_strategies "now" 50%Z Examples.two_strategy_page
             (WVGv3.main_container Examples.two_strategy_page)
             WVGv3.company_selectors
             {| WVGv3.found_companies := []; WVGv3.founders_data := [] |}
             Examples.after_two_strategies "section" [Ok Examples.beta_labs]
             Examples.beta_labs).
    + vm_compute; reflexivity.
    + vm_compute; auto 10.
    + vm_compute; reflexivity.
    + vm_compute; auto.
    + vm_compute; reflexivity.
    + vm_compute; reflexivity.
Defined.

(** A strategy that raises keeps the links it has appended, and the next
    strategy adds its own: the rule of the first strategy needs strategies
    that do not raise. *)
Lemma raising_strategy_keeps_its_links :
  Velocity.try_selectors Locator.directory_raising Velocity.company_selectors []
  = ["https://www.velocityincubator.com/company/acme";
     "https://www.velocityincubator.com/companies/view/beta"].
Proof. vm_compute; reflexivity. Qed.

(** C5 as it is stated fails on [scrape_dmz_improved].  The strategy
    [article] is the first that yields a candidate, of more than 20
    characters and with a record; the record of "Beta Labs", a candidate
    of the later strategy [section] only, is in the result all the
    same. *)
Lemma lower_strategy_contributes :
  WVGv3.elements_for Examples.two_strategy_page
    (WVGv3.main_container Examples.two_strategy_page)
    "div:contains('Visit Company')" = Ok []
  /\ WVGv3.elements_for Examples.two_strategy_page
       (WVGv3.main_container Examples.two_strategy_page)
       "div:contains('Our Team')" = Ok []
  /\ WVGv3.elements_for Examples.two_strategy_page
       (WVGv3.main_container Examples.two_strategy_page)
       "article" = Ok [Ok Examples.acme_jane]
  /\ WVGv3.too_short (Str.strip Examples.acme_jane) = false
  /\ WVGv3.elements_for Examples.two_strategy_page
       (WVGv3.main_container Examples.two_strategy_page)
       "section" = Ok [Ok Examples.beta_labs]
  /\ map WVGv3.company_name
       (WVGv3.run_improved_scraping "now" 50
          (Some (Ok Examples.two_strategy_page)))
     = ["Acme Robotics"; "Beta Labs"].
Proof. repeat split; vm_compute; reflexivity. Qed.

(** ** C7: the cap on the number of records *)

(** Below the cap before a candidate, the DOM pass is at most at the cap
    behind it, and below the cap when it goes on. *)
Lemma record_candidate_cap (now : string) (max_companies : Z)
    (f : WVGv3.fields) (st : WVGv3.dmz) :
  (Z.of_nat (List.length (WVGv3.founders_data st)) < max_companies)%Z ->
  let out := WVGv3.record_candidate now max_companies f st in
  (Z.of_nat (List.length (WVGv3.founders_data (fst out))) <= max_companies)%Z
  /\ (snd out = false ->
      (Z.of_nat (List.length (WVGv3.founders_data (fst out))) < max_companies)%Z).
Proof.
  intros H. unfold WVGv3.record_candidate.
  destruct (_ && _); simpl; [|split; [lia|intros _; exact H]].
  rewrite length_app. simpl. split; [lia|].
  intros E. apply Z.leb_gt in E. lia.
Qed.

Lemma process_element_cap (now : string) (max_companies : Z) (el : py string)
    (st : WVGv3.dmz) :
  (Z.of_nat (List.length (WVGv3.founders_data st)) < max_companies)%Z ->
  let out := WVGv3.process_element now max_companies el st in
  (Z.of_nat (List.length (WVGv3.founders_data (fst out))) <= max_companies)%Z
  /\ (snd out = false ->
      (Z.of_nat (List.length (WVGv3.founders_data (fst out))) < max_companies)%Z).
Proof.
  intros H. unfold WVGv3.process_element.
  destruct el as [raw|e]; [|simpl; split; [lia|auto]].
  destruct (WVGv3.too_short _); [simpl; split; [lia|auto]|].
  now apply record_candidate_cap.
Qed.

Lemma process_elements_cap (now : string) (max_companies : Z)
    (els : WVGv3.elements) (st : WVGv3.dmz) :
  (Z.of_nat (List.length (WVGv3.founders_data st)) < max_companies)%Z ->
  let out := WVGv3.process_elements now max_companies els st in
  (Z.of_nat (List.length (WVGv3.founders_data (fst out))) <= max_companies)%Z
  /\ (snd out = false ->
      (Z.of_nat (List.length (WVGv3.founders_data (fst out))) < max_companies)%Z).
Proof.
  revert st. induction els as [|el els IH]; intros st H; simpl.
  - split; [lia|auto].
  - pose proof (process_element_cap now max_companies el st H) as [H1 H2].
    destruct (WVGv3.process_element now max_companies el st) as [st1 stop].
    simpl in *. destruct stop; simpl.
    + split; [exact H1|discriminate].
    + apply IH. now apply H2.
Qed.

Lemma dom_pass_cap (now : string) (max_companies : Z) (p : WVGv3.page)
    (main : WVGv3.container) (selectors : list string) (st : WVGv3.dmz) :
  (Z.of_nat (List.length (WVGv3.founders_data st)) < max_companies)%Z ->
  let out := WVGv3.dom_pass now max_companies p main selectors st in
  (Z.of_nat (List.length (WVGv3.founders_data (fst out))) <= max_companies)%Z
  /\ (snd out = false ->
      (Z.of_nat (List.length (WVGv3.founders_data (fst out))) < max_companies)%Z).
Proof.
  revert st. induction selectors as [|sel rest IH]; intros st H; simpl.
  - split; [lia|auto].
  - destruct (WVGv3.elements_for p main sel) as [els|e]; [|now apply IH].
    pose proof (process_elements_cap now max_companies (firstn 50 els) st H)
      as [H1 H2].
    destruct (WVGv3.process_elements now max_companies (firstn 50 els) st)
      as [st1 stop].
    simpl in *. destruct stop; simpl.
    + split; [exact H1|discriminate].
    + apply IH. now apply H2.
Qed.

Lemma text_step_length (now raw : string) (rest : list string)
    (data : list WVGv3.company) :
  (List.length (WVGv3.text_step now raw rest data) <= S (List.length data))%nat.
Proof.
  unfold WVGv3.text_step.
  destruct (WVGv3.name_like _); [|lia].
  destruct (_ && negb _); [|lia]. rewrite length_app. simpl. lia.
Qed.

Lemma text_parse_cap (now : string) (max_companies : Z) (text_lines : list string)
    (data : list WVGv3.company) :
  (Z.of_nat (List.length data) <= max_companies)%Z ->
  (Z.of_nat (List.length (WVGv3.text_parse now max_companies text_lines data))
   <= max_companies)%Z.
Proof.
  revert data. induction text_lines as [|raw rest IH]; intros data H; simpl;
    [exact H|].
  destruct (_ <? _)%Z eqn:E; [|exact H].
  apply Z.ltb_lt in E. apply IH.
  pose proof (text_step_length now raw rest data). lia.
Qed.

(** The cap holds for a run with a cap of one record or more. *)
Lemma run_improved_scraping_cap (now : string) (max_companies : Z)
    (session : option (py WVGv3.page)) :
  (1 <= max_companies)%Z ->
  (Z.of_nat (List.length (WVGv3.run_improved_scraping now max_companies session))
   <= max_companies)%Z.
Proof.
  intros H. unfold WVGv3.run_improved_scraping, WVGv3.scrape_dmz_improved.
  destruct session as [[p|e]|]; simpl; try lia.
  unfold WVGv3.scrape_page.
  pose proof (dom_pass_cap now max_companies p (WVGv3.main_container p)
                WVGv3.company_selectors
                {| WVGv3.found_companies := []; WVGv3.founders_data := [] |})
    as Hc.
  cbv zeta in Hc. cbn [WVGv3.founders_data List.length] in Hc.
  specialize (Hc ltac:(lia)). destruct Hc as [H1 H2].
  destruct (WVGv3.dom_pass _ _ _ _ _ _) as [st stop]. cbn [fst snd] in *.
  destruct stop; [exact H1|].
  destruct (WVGv3.found_companies st); [|exact H1].
  now apply text_parse_cap.
Qed.

(** [scrape_velocity_companies] tests the counter before it processes a
    company: it adds at most [max_companies] records. *)
Lemma process_links_cap
    (extract_founders : Velocity.company_page -> list string)
    (extract_company_linkedin : Velocity.company_page -> option string)
    (extract_founder_linkedins : string -> list string -> list string)
    (b : Velocity.browser) (max_companies : Z) (company_links : list string)
    (successful : Z) (data : list Velocity.company_data) :
  (successful <= max_companies)%Z ->
  (Z.of_nat (List.length
     (Velocity.process_links extract_founders extract_company_linkedin
        extract_founder_linkedins b max_companies company_links successful data))
   <= Z.of_nat (List.length data) + (max_companies - successful))%Z.
Proof.
  revert successful data.
  induction company_links as [|u rest IH]; intros successful data H; simpl;
    [lia|].
  destruct (_ <=? _)%Z eqn:E; [lia|]. apply Z.leb_gt in E.
  destruct (Velocity.process_company _ _ _ b u) as [d|].
  - specialize (IH (successful + 1)%Z (data ++ [d]) ltac:(lia)).
    rewrite length_app in IH. simpl in IH. lia.
  - now apply IH.
Qed.

Lemma scrape_velocity_companies_cap (list_set : list string -> list string)
    (extract_founders : Velocity.company_page -> list string)
    (extract_company_linkedin : Velocity.company_page -> option string)
    (extract_founder_linkedins : string -> list string -> list string)
    (b : Velocity.browser) (max_companies : Z) :
  (0 <= max_companies)%Z ->
  (Z.of_nat (List.length
     (Velocity.scrape_velocity_companies list_set extract_founders
        extract_company_linkedin extract_founder_linkedins b max_companies []))
   <= max_companies)%Z.
Proof.
  intros H. unfold Velocity.scrape_velocity_companies.
  destruct (Velocity.directory b) as [p|e]; simpl; [|lia].
  destruct (Velocity.collect_links p) as [links|e]; simpl; [|lia].
  pose proof (process_links_cap extract_founders extract_company_linkedin
                extract_founder_linkedins b max_companies (list_set links) 0 [] H).
  simpl in *. lia.
Qed.

(** C7, at the failing input.  With a cap of 0 the DOM pass of
    [scrape_dmz_improved] appends the record of the first card that
    qualifies and only then compares the length with the cap: the run ends
    with one record, more than the cap. *)
Theorem cap_of_zero_is_exceeded :
  map WVGv3.company_name
    (WVGv3.run_improved_scraping "now" 0 (Some (Ok Examples.one_card_page)))
  = ["Acme Robotics"]
  /\ (0 < Z.of_nat (List.length
            (WVGv3.run_improved_scraping "now" 0
               (Some (Ok Examples.one_card_page)))))%Z.
Proof. split; vm_compute; reflexivity. Qed.

(** ** C9: the cells of the sheet and their re-parse *)

Lemma plain_cons (c : ascii) (v : string) :
  Sheet.plain (String c v) = true ->
  Sheet.plain v = true
  /\ (c = ";"%char -> match v with String d _ => d <> " "%char | EmptyString => True end).
Proof.
  unfold Sheet.plain. simpl. rewrite negb_true_iff, orb_false_iff.
  intros [Hs Hc]. split; [now rewrite Hc|].
  intros ->. destruct v as [|d v]; [exact I|].
  intros ->. cbn in Hs. destruct v; discriminate.
Qed.

(** A plain value in front of a separator is the first piece. *)
Lemma reparse_piece (v r : string) :
  Sheet.plain v = true ->
  Velocity.reparse (v +:+ "; " +:+ r) = v :: Velocity.reparse r.
Proof.
  induction v as [|c v IH]; intros H; [reflexivity|].
  apply plain_cons in H as [Hv Hc]. specialize (IH Hv).
  change (String c v +:+ "; " +:+ r) with (String c (v +:+ "; " +:+ r)).
  cbn [Velocity.reparse].
  destruct (Ascii.eqb c ";") eqn:E; [|now rewrite IH].
  apply Ascii.eqb_eq in E. specialize (Hc E).
  destruct v as [|d v].
  - cbn. now destruct r.
  - change (String d v +:+ "; " +:+ r) with (String d (v +:+ "; " +:+ r)) in *.
    cbv iota.
    destruct (Ascii.eqb d " ") eqn:E'; [|now rewrite IH].
    apply Ascii.eqb_eq in E'. congruence.
Qed.

(** A plain value alone is the only piece. *)
Lemma reparse_plain (v : string) :
  Sheet.plain v = true -> Velocity.reparse v = [v].
Proof.
  induction v as [|c v IH]; intros H; [reflexivity|].
  apply plain_cons in H as [Hv Hc]. specialize (IH Hv).
  cbn [Velocity.reparse].
  destruct (Ascii.eqb c ";") eqn:E; [|now rewrite IH].
  apply Ascii.eqb_eq in E. specialize (Hc E).
  destruct v as [|d v]; [reflexivity|]. cbv iota.
  destruct (Ascii.eqb d " ") eqn:E'; [|now rewrite IH].
  apply Ascii.eqb_eq in E'. congruence.
Qed.

Lemma reparse_cell (values : list string) :
  values <> [] ->
  forallb Sheet.plain values = true ->
  Velocity.reparse (Velocity.cell values) = values.
Proof.
  unfold Velocity.cell.
  induction values as [|v values IH]; intros Hne H; [congruence|].
  simpl in H. apply andb_true_iff in H as [Hv H].
  destruct values as [|w values].
  - simpl. now apply reparse_plain.
  - change (Str.join "; " (v :: w :: values))
      with (v +:+ "; " +:+ Str.join "; " (w :: values)).
    rewrite (reparse_piece _ _ Hv). f_equal. now apply IH.
Qed.

(** C9, as it holds.  When the list of founders, or of LinkedIn
    addresses, of a company is not empty and "; " occurs in none of its
    values, splitting the cell of the row on "; " gives the list back,
    with its order, and so the same set of values. *)
Theorem cells_reparse (c : Velocity.company_data) :
  (Velocity.Founders c <> [] ->
   forallb Sheet.plain (Velocity.Founders c) = true ->
   Velocity.reparse (Velocity.row_founders (Velocity.export_row c))
     = Velocity.Founders c
   /\ (list_to_set
         (Velocity.reparse (Velocity.row_founders (Velocity.export_row c)))
       : gset string) = list_to_set (Velocity.Founders c))
  /\
  (Velocity.Linkedins c <> [] ->
   forallb Sheet.plain (Velocity.Linkedins c) = true ->
   Velocity.reparse (Velocity.row_linkedins (Velocity.export_row c))
     = Velocity.Linkedins c
   /\ (list_to_set
         (Velocity.reparse (Velocity.row_linkedins (Velocity.export_row c)))
       : gset string) = list_to_set (Velocity.Linkedins c)).
Proof.
  split; intros Hne H; simpl; rewrite (reparse_cell _ Hne H); auto.
Qed.

(** The two cells of a company with two founders and one address. *)
Lemma cells_reparse_witness :
  (Velocity.Founders Sheet.acme <> []
   /\ forallb Sheet.plain (Velocity.Founders Sheet.acme) = true
   /\ Velocity.reparse (Velocity.row_founders (Velocity.export_row Sheet.acme))
      = ["Jane Doe"; "John Roe"])
  /\ (Velocity.Linkedins Sheet.acme <> []
   /\ forallb Sheet.plain (Velocity.Linkedins Sheet.acme) = true
   /\ Velocity.reparse (Velocity.row_linkedins (Velocity.export_row Sheet.acme))
      = ["https://www.linkedin.com/in/janedoe"]).
Proof.
  split; (split; [simpl; discriminate|split; [vm_compute; reflexivity|]]).
  - apply (proj1 (cells_reparse Sheet.acme)); [simpl; discriminate|].
    vm_compute; reflexivity.
  - apply (proj2 (cells_reparse Sheet.acme)); [simpl; discriminate|].
    vm_compute; reflexivity.
Defined.

(** C9 as it is stated fails.  The cell of an empty list is the empty
    string, and its split has one value, the empty string: the set is not
    the empty set.  And a value with "; " in it comes back as two. *)
Lemma cells_do_not_round_trip :
  Velocity.reparse (Velocity.row_founders (Velocity.export_row Sheet.lonely))
    = [EmptyString]
  /\ (list_to_set
        (Velocity.reparse (Velocity.row_founders (Velocity.export_row Sheet.lonely)))
      : gset string) <> list_to_set (Velocity.Founders Sheet.lonely)
  /\ Velocity.reparse (Velocity.row_linkedins (Velocity.export_row Sheet.lonely))
    = ["https://www.linkedin.com/in/a"; "b"]
  /\ (list_to_set
        (Velocity.reparse (Velocity.row_linkedins (Velocity.export_row Sheet.lonely)))
      : gset string) <> list_to_set (Velocity.Linkedins Sheet.lonely).
Proof.
  split; [reflexivity|]. split; [|split; [reflexivity|]].
  - change (Velocity.reparse
              (Velocity.row_founders (Velocity.export_row Sheet.lonely)))
      with [EmptyString].
    simpl. intros H.
    assert (E : EmptyString ∈ (∅ : gset string)) by (rewrite <- H; set_solver).
    set_solver.
  - change (Velocity.reparse
              (Velocity.row_linkedins (Velocity.export_row Sheet.lonely)))
      with ["https://www.linkedin.com/in/a"; "b"].
    simpl. intros H.
    assert (E : "b" ∈ ({[ "https://www.linkedin.com/in/a; b" ]} ∪ ∅ : gset string))
      by (rewrite <- H; set_solver).
    apply elem_of_union in E as [E|E]; [|set_solver].
    apply elem_of_singleton in E. discriminate.
Qed.

(** ** C10: the join year of a company *)

Lemma year_here_range (s y : string) :
  Re.year_here s = Some y -> (2023 <= Re.int y <= 2025)%Z.
Proof.
  unfold Re.year_here.
  destruct s as [|a [|b [|c [|d r]]]]; try discriminate.
  destruct (_ && _) eqn:E; [|discriminate]. intros [= <-].
  repeat (apply andb_true_iff in E as [E ?]).
  repeat match goal with
  | H : Ascii.eqb _ _ = true |- _ => apply Ascii.eqb_eq in H; subst
  end.
  match goal with
  | H : (_ || _) = true |- _ =>
      apply orb_true_iff in H as [H|H];
      [apply orb_true_iff in H as [H|H]|];
      apply Ascii.eqb_eq in H; subst; vm_compute; split; discriminate
  end.
Qed.

Lemma recent_years_range (after_word : bool) (s : string) :
  Forall (fun y => (2023 <= Re.int y <= 2025)%Z) (Re.recent_years_from after_word s).
Proof.
  revert after_word.
  induction s as [|c r IH]; intros after_word; cbn [Re.recent_years_from];
    [constructor|].
  destruct after_word; [apply IH|].
  destruct (Re.year_here (String c r)) as [y|] eqn:E; [|apply IH].
  constructor; [now apply year_here_range in E|apply IH].
Qed.

Lemma year_of_elements_range (els : list (py (option string))) (y : Z) :
  Velocity.year_of_elements els = Some y -> (2023 <= y <= 2025)%Z.
Proof.
  induction els as [|[[t|]|e] els IH]; simpl; try discriminate; auto.
  destruct (Str.truthy t && _); auto.
  destruct (Re.recent_years t) as [|y0 ys] eqn:E; auto.
  intros [= <-].
  pose proof (recent_years_range false t) as H.
  unfold Re.recent_years in E. rewrite E in H. now inversion H.
Qed.

Lemma year_of_selectors_range (p : Velocity.company_page)
    (selectors : list string) (y : Z) :
  Velocity.year_of_selectors p selectors = Some y -> (2023 <= y <= 2025)%Z.
Proof.
  induction selectors as [|sel rest IH]; simpl; [discriminate|].
  destruct (Velocity.all_texts p sel) as [els|e]; auto.
  destruct (Velocity.year_of_elements els) as [y0|] eqn:E; auto.
  intros [= <-]. now apply year_of_elements_range in E.
Qed.

Lemma year_of_patterns_range (patterns : list (list Re.atom)) (html : string)
    (y : Z) :
  Velocity.year_of_patterns patterns html = Some y -> (2023 <= y <= 2025)%Z.
Proof.
  induction patterns as [|pat rest IH]; simpl; [discriminate|].
  destruct (Velocity.year_in_range _) as [y0|] eqn:E; auto.
  intros [= <-]. unfold Velocity.year_in_range in E.
  apply find_some in E as [_ E]. apply andb_true_iff in E as [E1 E2].
  apply Z.leb_le in E1, E2. lia.
Qed.

Lemma fold_min_range (ys : list Z) (y : Z) :
  (2023 <= y <= 2025)%Z ->
  Forall (fun z => (2023 <= z <= 2025)%Z) ys ->
  (2023 <= fold_left Z.min ys y <= 2025)%Z.
Proof.
  revert y. induction ys as [|z ys IH]; intros y Hy H; simpl; [exact Hy|].
  inversion H; subst. apply IH; [lia|assumption].
Qed.

Lemma min_year_range (html : string) (y : Z) :
  Velocity.min_year (Re.recent_years html) = Some y -> (2023 <= y <= 2025)%Z.
Proof.
  unfold Velocity.min_year, Re.recent_years.
  pose proof (recent_years_range false html) as H.
  destruct (Re.recent_years_from false html) as [|y0 ys]; simpl; [discriminate|].
  intros [= <-]. inversion H; subst.
  apply fold_min_range; [assumption|].
  apply Forall_map. assumption.
Qed.

(** [extract_velocity_join_year] answers no year, or a year from 2023 to
    2025: it never detects a year before 2023. *)
Lemma join_year_is_recent (p : Velocity.company_page) (y : Z) :
  Velocity.extract_velocity_join_year p = Some y -> (2023 <= y <= 2025)%Z.
Proof.
  unfold Velocity.extract_velocity_join_year.
  destruct (Velocity.year_of_selectors p _) as [y0|] eqn:E.
  { intros [= <-]. now apply year_of_selectors_range in E. }
  destruct (Velocity.content p) as [html|e]; [|discriminate].
  destruct (Velocity.year_of_patterns _ html) as [y0|] eqn:E'.
  { intros [= <-]. now apply year_of_patterns_range in E'. }
  apply min_year_range.
Qed.

Section ProcessCompany.

Variable extract_founders : Velocity.company_page -> list string.
Variable extract_company_linkedin : Velocity.company_page -> option string.
Variable extract_founder_linkedins : string -> list string -> list string.


End ProcessCompany.


(** * More properties of the scrapers *)

(** ** The line scan of scrape_dmz_improved *)

Lemma classify_line_company (f : WVGv3.fields) (line : string) :
  WVGv3.f_company (WVGv3.classify_line f line)
  = if Str.truthy (WVGv3.f_company f) then WVGv3.f_company f
    else if Scan.name_line line then line else EmptyString.
Proof.
  unfold WVGv3.classify_line, Scan.name_line, WVGv3.name_rule.
  remember (Str.contains_any WVGv3.categories (Str.lower line)) as cat.
  remember ((2 <? Str.len line)%nat) as lo.
  remember ((Str.len line <? 100)%nat) as hi.
  destruct (Str.truthy (WVGv3.f_company f)) eqn:E.
  - destruct (WVGv3.is_stop line), lo, hi, cat, (WVGv3.is_city line),
      (WVGv3.is_title line); reflexivity.
  - apply truthy_false in E.
    destruct (WVGv3.is_stop line), lo, hi, cat, (WVGv3.is_city line),
      (WVGv3.is_title line); cbn; try exact E; reflexivity.
Qed.

Lemma name_line_truthy (line : string) :
  Scan.name_line line = true -> Str.truthy line = true.
Proof.
  unfold Scan.name_line. intros H.
  repeat (apply andb_true_iff in H as [H ?]).
  destruct line; [discriminate|reflexivity].
Qed.

Lemma classify_from_company (lines : list string) (f : WVGv3.fields) :
  WVGv3.f_company (WVGv3.classify_from f lines)
  = if Str.truthy (WVGv3.f_company f) then WVGv3.f_company f
    else match List.find Scan.name_line lines with
         | Some l => l
         | None => EmptyString
         end.
Proof.
  unfold WVGv3.classify_from. revert f.
  induction lines as [|line lines IH]; intros f; simpl.
  - destruct (WVGv3.f_company f); reflexivity.
  - rewrite IH, classify_line_company.
    destruct (Str.truthy (WVGv3.f_company f)) eqn:E; [now rewrite E|].
    destruct (Scan.name_line line) eqn:En.
    + now rewrite (name_line_truthy _ En).
    + reflexivity.
Qed.

(** X1.  The company name of a candidate is its first line that is not a
    stop word, has 3 to 99 characters and contains none of the category
    words "b2b", "b2c", "saas", "ai", "fintech", "healthtech", "edtech",
    in any case; later lines never replace it, and without such a line
    the name is empty.  So a name is never a line with "ai" inside it. *)
Theorem company_name_is_first_name_line (element_text : string) :
  WVGv3.f_company (WVGv3.classify element_text)
  = match List.find Scan.name_line (WVGv3.lines_of element_text) with
    | Some l => l
    | None => EmptyString
    end
  /\ (WVGv3.f_company (WVGv3.classify element_text) <> EmptyString ->
      In (WVGv3.f_company (WVGv3.classify element_text))
         (WVGv3.lines_of element_text)
      /\ Str.contains_any WVGv3.categories
           (Str.lower (WVGv3.f_company (WVGv3.classify element_text))) = false).
Proof.
  unfold WVGv3.classify. rewrite classify_from_company. simpl.
  split; [reflexivity|].
  destruct (List.find _ _) as [l|] eqn:E; [|congruence].
  intros _. apply find_some in E as [Hin Hn]. split; [exact Hin|].
  unfold Scan.name_line in Hn. apply andb_true_iff in Hn as [_ Hn].
  now apply negb_true_iff in Hn.
Qed.

(** The name of a card: "Rainmaker" has "ai" in it and is passed over. *)
Lemma company_name_is_first_name_line_witness :
  WVGv3.f_company
    (WVGv3.classify (Examples.text_of_lines ["Rainmaker"; "Acme Robotics"; "Guelph"]))
    <> EmptyString
  /\ WVGv3.f_company
       (WVGv3.classify (Examples.text_of_lines ["Rainmaker"; "Acme Robotics"; "Guelph"]))
     = "Acme Robotics"
  /\ In (WVGv3.f_company
           (WVGv3.classify
              (Examples.text_of_lines ["Rainmaker"; "Acme Robotics"; "Guelph"])))
        (WVGv3.lines_of
           (Examples.text_of_lines ["Rainmaker"; "Acme Robotics"; "Guelph"])).
Proof.
  split; [vm_compute; discriminate|]. split; [vm_compute; reflexivity|].
  apply (proj2 (company_name_is_first_name_line
                  (Examples.text_of_lines ["Rainmaker"; "Acme Robotics"; "Guelph"]))).
  vm_compute; discriminate.
Defined.

Lemma last_cons {A : Type} (x d : A) (l : list A) :
  List.last (x :: l) d = List.last l x.
Proof.
  revert x d. induction l as [|y l IH]; intros x d; [reflexivity|].
  change (List.last (x :: y :: l) d) with (List.last (y :: l) d).
  now rewrite !IH.
Qed.

(** X2.  Once the company name is assigned, the location is the last
    line that is not a stop word and contains a place name: every such
    line overwrites the location of the lines before it. *)
Theorem location_is_last_place_line (f : WVGv3.fields) (lines : list string) :
  Str.truthy (WVGv3.f_company f) = true ->
  WVGv3.f_location (WVGv3.classify_from f lines)
  = List.last (List.filter Scan.place_line lines) (WVGv3.f_location f).
Proof.
  unfold WVGv3.classify_from. revert f.
  induction lines as [|line lines IH]; intros f H; [reflexivity|].
  cbn [fold_left List.filter]. unfold Scan.place_line at 1.
  unfold WVGv3.classify_line. rewrite (name_rule_named _ line H).
  destruct (WVGv3.is_stop line); cbn [negb andb]; [now apply IH|].
  destruct (WVGv3.is_city line).
  - rewrite last_cons. now rewrite IH.
  - destruct (WVGv3.is_title line); now rewrite IH.
Qed.

(** A card that names Toronto first and Waterloo last is in Waterloo. *)
Lemma location_is_last_place_line_witness :
  Str.truthy (WVGv3.f_company Examples.named_acme) = true
  /\ WVGv3.f_location (WVGv3.classify_from Examples.named_acme Scan.two_places)
     = "Waterloo, ON".
Proof.
  split; [reflexivity|].
  rewrite (location_is_last_place_line Examples.named_acme Scan.two_places);
    reflexivity.
Defined.

(** ** The records of scrape_dmz_improved *)

Section DmzRecords.

Variable now : string.
Variable max_companies : Z.
Variable P : WVGv3.company -> Prop.

Hypothesis P_card : forall f, WVGv3.qualifies f = true -> P (WVGv3.dmz_record now f).

Lemma process_elements_all (els : WVGv3.elements) (st : WVGv3.dmz) :
  Forall P (WVGv3.founders_data st) ->
  Forall P (WVGv3.founders_data
              (fst (WVGv3.process_elements now max_companies els st))).
Proof.
  revert st. induction els as [|el els IH]; intros st H; simpl; [exact H|].
  assert (H1 : Forall P (WVGv3.founders_data
                           (fst (WVGv3.process_element now max_companies el st)))).
  { unfold WVGv3.process_element. destruct el as [raw|e]; [|exact H].
    destruct (WVGv3.too_short _); [exact H|].
    unfold WVGv3.record_candidate.
    destruct (WVGv3.qualifies _ && _) eqn:E; [|exact H].
    apply andb_true_iff in E as [E _]. cbn [fst WVGv3.founders_data].
    apply Forall_app. split; [exact H|]. constructor; [|constructor].
    now apply P_card. }
  destruct (WVGv3.process_element now max_companies el st) as [st1 stop].
  destruct stop; simpl in *; [exact H1|]. now apply IH.
Qed.

Lemma dom_pass_all (p : WVGv3.page) (main : WVGv3.container)
    (selectors : list string) (st : WVGv3.dmz) :
  Forall P (WVGv3.founders_data st) ->
  Forall P (WVGv3.founders_data
              (fst (WVGv3.dom_pass now max_companies p main selectors st))).
Proof.
  revert st. induction selectors as [|sel rest IH]; intros st H; simpl; [exact H|].
  destruct (WVGv3.elements_for p main sel) as [els|e]; [|now apply IH].
  pose proof (process_elements_all (firstn 50 els) st H) as H1.
  destruct (WVGv3.process_elements now max_companies (firstn 50 els) st)
    as [st1 stop].
  destruct stop; simpl in *; [exact H1|]. now apply IH.
Qed.

Hypothesis P_line : forall line loc,
  WVGv3.name_like line = true ->
  Str.truthy loc = true ->
  Str.contains_any WVGv3.target_regions (Str.lower loc) = true ->
  P {| WVGv3.founder_name := EmptyString; WVGv3.company_name := line;
       WVGv3.location := Some loc; WVGv3.source := "DMZ Startup Directory";
       WVGv3.scraped_date := now |}.

Lemma text_parse_all (text_lines : list string) (data : list WVGv3.company) :
  Forall P data -> Forall P (WVGv3.text_parse now max_companies text_lines data).
Proof.
  revert data. induction text_lines as [|raw rest IH]; intros data H; simpl;
    [exact H|].
  destruct (_ <? _)%Z; [|exact H]. apply IH.
  unfold WVGv3.text_step.
  destruct (WVGv3.name_like (Str.strip raw)) eqn:E; [|exact H].
  destruct (_ && negb _) eqn:E'; [|exact H].
  apply andb_true_iff in E' as [E' _]. apply andb_true_iff in E' as [E1 E2].
  apply Forall_app. split; [exact H|]. constructor; [|constructor].
  now apply P_line.
Qed.

Lemma run_improved_scraping_all (session : option (py WVGv3.page)) :
  Forall P (WVGv3.run_improved_scraping now max_companies session).
Proof.
  unfold WVGv3.run_improved_scraping, WVGv3.scrape_dmz_improved.
  destruct session as [[p|e]|]; try constructor.
  unfold WVGv3.scrape_page.
  pose proof (dom_pass_all p (WVGv3.main_container p) WVGv3.company_selectors
                {| WVGv3.found_companies := []; WVGv3.founders_data := [] |}
                (Forall_nil_2 _)) as H.
  destruct (WVGv3.dom_pass _ _ _ _ _ _) as [st stop]. cbn [fst] in H.
  destruct stop; [exact H|].
  destruct (WVGv3.found_companies st); [|exact H].
  now apply text_parse_all.
Qed.

End DmzRecords.

(** X3.  Every record of a run of [scrape_dmz_improved] has the source
    "DMZ Startup Directory", a company name that is not empty, and a
    location that names one of the target regions waterloo, kitchener,
    cambridge, guelph, hamilton, in any case. *)
Theorem dmz_records_are_regional (now : string) (max_companies : Z)
    (session : option (py WVGv3.page)) :
  Forall Scan.regional (WVGv3.run_improved_scraping now max_companies session).
Proof.
  apply run_improved_scraping_all.
  - intros f Hq. unfold WVGv3.qualifies in Hq.
    apply andb_true_iff in Hq as [Hq H3]. apply andb_true_iff in Hq as [H1 H2].
    split; [reflexivity|]. split; [now apply truthy_true|].
    exists (WVGv3.f_location f). now split.
  - intros line loc Hn Hl Hr.
    split; [reflexivity|]. split.
    + simpl. intros E. rewrite E in Hn. discriminate.
    + exists loc. now split.
Qed.

(** ** The cap of scrape_dmz_improved, for every cap *)

Lemma record_candidate_low_cap (now : string) (max_companies : Z)
    (f : WVGv3.fields) (st : WVGv3.dmz) :
  (max_companies <= 0)%Z ->
  WVGv3.founders_data st = [] ->
  let out := WVGv3.record_candidate now max_companies f st in
  (List.length (WVGv3.founders_data (fst out)) <= 1)%nat
  /\ (snd out = false -> WVGv3.founders_data (fst out) = []).
Proof.
  intros Hm He. unfold WVGv3.record_candidate.
  destruct (_ && _); cbn [fst snd WVGv3.founders_data].
  - rewrite He. simpl. split; [lia|].
    intros E. apply Z.leb_gt in E. lia.
  - rewrite He. simpl. split; [lia|reflexivity].
Qed.

Lemma process_elements_low_cap (now : string) (max_companies : Z)
    (els : WVGv3.elements) (st : WVGv3.dmz) :
  (max_companies <= 0)%Z ->
  WVGv3.founders_data st = [] ->
  let out := WVGv3.process_elements now max_companies els st in
  (List.length (WVGv3.founders_data (fst out)) <= 1)%nat
  /\ (snd out = false -> WVGv3.founders_data (fst out) = []).
Proof.
  intros Hm. revert st. induction els as [|el els IH]; intros st He; simpl.
  - rewrite He. simpl. split; [lia|reflexivity].
  - assert (H1 : (List.length (WVGv3.founders_data
                    (fst (WVGv3.process_element now max_companies el st))) <= 1)%nat
                 /\ (snd (WVGv3.process_element now max_companies el st) = false ->
                     WVGv3.founders_data
                       (fst (WVGv3.process_element now max_companies el st)) = [])).
    { unfold WVGv3.process_element. destruct el as [raw|e].
      - destruct (WVGv3.too_short _).
        + simpl. rewrite He. simpl. split; [lia|reflexivity].
        + now apply record_candidate_low_cap.
      - simpl. rewrite He. simpl. split; [lia|reflexivity]. }
    destruct (WVGv3.process_element now max_companies el st) as [st1 stop].
    cbn [fst snd] in H1. destruct H1 as [H1 H2].
    destruct stop; cbn [fst snd].
    + split; [exact H1|discriminate].
    + apply IH. now apply H2.
Qed.

Lemma dom_pass_low_cap (now : string) (max_companies : Z) (p : WVGv3.page)
    (main : WVGv3.container) (selectors : list string) (st : WVGv3.dmz) :
  (max_companies <= 0)%Z ->
  WVGv3.founders_data st = [] ->
  let out := WVGv3.dom_pass now max_companies p main selectors st in
  (List.length (WVGv3.founders_data (fst out)) <= 1)%nat
  /\ (snd out = false -> WVGv3.founders_data (fst out) = []).
Proof.
  intros Hm. revert st. induction selectors as [|sel rest IH]; intros st He; simpl.
  - rewrite He. simpl. split; [lia|reflexivity].
  - destruct (WVGv3.elements_for p main sel) as [els|e]; [|now apply IH].
    pose proof (process_elements_low_cap now max_companies (firstn 50 els) st Hm He)
      as H1.
    cbv zeta in H1.
    destruct (WVGv3.process_elements now max_companies (firstn 50 els) st)
      as [st1 stop].
    cbn [fst snd] in H1. destruct H1 as [H1 H2].
    destruct stop; cbn [fst snd].
    + split; [exact H1|discriminate].
    + apply IH. now apply H2.
Qed.

Lemma text_parse_low_cap (now : string) (max_companies : Z)
    (text_lines : list string) :
  (max_companies <= 0)%Z ->
  WVGv3.text_parse now max_companies text_lines [] = [].
Proof.
  intros Hm. destruct text_lines as [|raw rest]; [reflexivity|].
  cbn [WVGv3.text_parse List.length].
  destruct (Z.of_nat 0 <? max_companies)%Z eqn:E; [|reflexivity].
  apply Z.ltb_lt in E. lia.
Qed.

(** X4.  A run of [scrape_dmz_improved] with the cap [max_companies]
    ends with at most [max_companies] records when the cap is 1 or more,
    and with at most one record when the cap is 0 or negative: never more
    than the larger of the cap and 1. *)
Theorem dmz_run_is_capped (now : string) (max_companies : Z)
    (session : option (py WVGv3.page)) :
  (Z.of_nat (List.length (WVGv3.run_improved_scraping now max_companies session))
   <= Z.max max_companies 1)%Z.
Proof.
  destruct (Z.le_gt_cases 1 max_companies) as [H|H].
  { pose proof (run_improved_scraping_cap now max_companies session H). lia. }
  assert (Hm : (max_companies <= 0)%Z) by lia.
  unfold WVGv3.run_improved_scraping, WVGv3.scrape_dmz_improved.
  destruct session as [[p|e]|]; simpl; try lia.
  unfold WVGv3.scrape_page.
  pose proof (dom_pass_low_cap now max_companies p (WVGv3.main_container p)
                WVGv3.company_selectors
                {| WVGv3.found_companies := []; WVGv3.founders_data := [] |}
                Hm eq_refl) as Hc.
  cbv zeta in Hc.
  destruct (WVGv3.dom_pass _ _ _ _ _ _) as [st stop]. cbn [fst snd] in Hc.
  destruct Hc as [H1 H2].
  destruct stop; [lia|].
  rewrite (H2 eq_refl).
  destruct (WVGv3.found_companies st); [|simpl; lia].
  rewrite (text_parse_low_cap _ _ _ Hm). simpl. lia.
Qed.

(** ** The region filter *)

Lemma startswith_nil (s : string) : Str.startswith s EmptyString = true.
Proof. destruct s; reflexivity. Qed.

Lemma lower_app (a b : string) :
  Str.lower (a +:+ b) = Str.lower a +:+ Str.lower b.
Proof. induction a as [|c a IH]; simpl; [reflexivity|now rewrite IH]. Qed.

Lemma startswith_app_space (x b k : string) :
  Region.spaceless k = true -> k <> EmptyString ->
  Str.startswith (x +:+ String " " b) k = Str.startswith x k.
Proof.
  revert k. induction x as [|c x IH]; intros k Hs Hk.
  - destruct k as [|d k]; [congruence|]. simpl in *.
    apply andb_true_iff in Hs as [Hd _]. apply negb_true_iff in Hd.
    now rewrite Hd.
  - destruct k as [|d k]; [congruence|].
    change (String c x +:+ String " " b) with (String c (x +:+ String " " b)).
    cbn [Str.startswith]. simpl in Hs. apply andb_true_iff in Hs as [_ Hs].
    destruct k as [|e k].
    + now rewrite !startswith_nil.
    + rewrite IH; [reflexivity|exact Hs|discriminate].
Qed.

(** A keyword without a space is in "a b" when it is in a or in b. *)
Lemma contains_app_space (a b k : string) :
  Region.spaceless k = true -> k <> EmptyString ->
  Str.contains k (a +:+ String " " b) = Str.contains k a || Str.contains k b.
Proof.
  intros Hs Hk. induction a as [|c a IH].
  - change (EmptyString +:+ String " " b) with (String " " b).
    cbn [Str.contains].
    rewrite <- (startswith_app_space EmptyString b k Hs Hk).
    change (EmptyString +:+ String " " b) with (String " " b).
    destruct k as [|d k]; [congruence|].
    cbn [Str.startswith]. simpl in Hs.
    apply andb_true_iff in Hs as [Hd _]. apply negb_true_iff in Hd.
    rewrite Hd. reflexivity.
  - change (String c a +:+ String " " b) with (String c (a +:+ String " " b)).
    cbn [Str.contains]. rewrite IH.
    change (String c (a +:+ String " " b)) with (String c a +:+ String " " b).
    rewrite (startswith_app_space (String c a) b k Hs Hk).
    now rewrite orb_assoc.
Qed.

Lemma startswith_prefix (t k1 k2 : string) :
  Str.startswith t (k1 +:+ k2) = true -> Str.startswith t k1 = true.
Proof.
  revert t. induction k1 as [|c k1 IH]; intros t H; [apply startswith_nil|].
  destruct t as [|d t]; [discriminate|].
  change (String c k1 +:+ k2) with (String c (k1 +:+ k2)) in H.
  cbn [Str.startswith] in *. apply andb_true_iff in H as [H1 H2].
  rewrite H1. now apply IH.
Qed.

Lemma contains_prefix (t k1 k2 : string) :
  Str.contains (k1 +:+ k2) t = true -> Str.contains k1 t = true.
Proof.
  induction t as [|c t IH]; cbn [Str.contains]; intros H.
  - apply orb_true_iff in H as [H|H]; [|discriminate].
    apply startswith_prefix in H. now rewrite H.
  - apply orb_true_iff in H as [H|H].
    + apply startswith_prefix in H. now rewrite H.
    + rewrite (IH H). apply orb_true_r.
Qed.

(** "kw region" adds nothing to "kw". *)
Lemma waterloo_keywords_short (t : string) :
  Str.contains_any WVG.waterloo_keywords t = Str.contains_any Region.short_keywords t.
Proof.
  unfold Str.contains_any, WVG.waterloo_keywords, Region.short_keywords.
  cbn [existsb].
  destruct (Str.contains "kw region" t) eqn:E.
  - apply (contains_prefix t "kw" " region") in E. rewrite E.
    now rewrite !orb_true_r.
  - reflexivity.
Qed.

Lemma existsb_orb {A : Type} (f g : A -> bool) (l : list A) :
  existsb (fun x => f x || g x) l = existsb f l || existsb g l.
Proof.
  induction l as [|x l IH]; simpl; [reflexivity|]. rewrite IH.
  destruct (f x), (g x), (existsb f l), (existsb g l); reflexivity.
Qed.

(** The test of the filter looks at the name and at the source. *)
Lemma region_test (name src : string) :
  Str.contains_any WVG.waterloo_keywords (Str.lower (name +:+ " " +:+ src))
  = Region.names_region name || Region.names_region src.
Proof.
  rewrite waterloo_keywords_short.
  unfold Region.names_region, Str.contains_any.
  rewrite <- existsb_orb, lower_app.
  change (Str.lower (" " +:+ src)) with (String " " (Str.lower src)).
  unfold Region.short_keywords. cbn [existsb].
  rewrite !contains_app_space by (reflexivity || discriminate).
  reflexivity.
Qed.

Lemma filter_all {A : Type} (f : A -> bool) (l : list A) :
  (forall a, In a l -> f a = true) -> List.filter f l = l.
Proof.
  induction l as [|x l IH]; intros H; simpl; [reflexivity|].
  rewrite (H x (or_introl eq_refl)). f_equal. apply IH.
  intros a Ha. apply H. now right.
Qed.

Lemma extract_all_source (now src : string) (candidates : list Dom.node)
    (f : WVG.founder_info) :
  In f (WVG.extract_all now src candidates) -> WVG.source f = src.
Proof.
  unfold WVG.extract_all. rewrite <- list_elem_of_In, list_elem_of_omap.
  intros (c & _ & H). unfold WVG.extract_founder_info in H.
  destruct (_ || _); [|discriminate]. now injection H as <-.
Qed.

Lemma records_of_source (now : string) (w : WVG.web) (s : Spec.source)
    (f : WVG.founder_info) :
  In f (Spec.records_of now w s) -> WVG.source f = Spec.label s.
Proof.
  unfold Spec.records_of. destruct (w (Spec.url s)); [|intros []].
  apply extract_all_source.
Qed.

Lemma filter_records_of (now : string) (w : WVG.web) (s : Spec.source) :
  List.filter Spec.in_region (Spec.records_of now w s)
  = if Region.names_region (Spec.label s) then Spec.records_of now w s
    else List.filter First.named_in_region (Spec.records_of now w s).
Proof.
  destruct (Region.names_region (Spec.label s)) eqn:E.
  - apply filter_all. intros f Hf.
    unfold Spec.in_region. rewrite region_test.
    rewrite (records_of_source _ _ _ _ Hf), E. apply orb_true_r.
  - apply filter_ext_in. intros f Hf.
    unfold Spec.in_region, First.named_in_region. rewrite region_test.
    rewrite (records_of_source _ _ _ _ Hf), E. apply orb_false_r.
Qed.

(** X5.  The region filter of [run_scraping] looks at the company name
    and at the label of the source only.  The labels "Velocity Incubator",
    "Communitech" and "BetaKit" name no region, so a record of these
    sources is kept exactly when its company name contains waterloo,
    kitchener, cambridge, guelph or kw, in any case; the label
    "Innovation Guelph" contains "guelph", so every record of that source
    is kept, whatever its company. *)
Theorem region_filter_by_name_or_label (now : string) (w : WVG.web) :
  WVG.founders_data (WVG.run_scraping now w)
  = List.filter First.named_in_region
      (flat_map (Spec.records_of now w) First.plain_sources)
    ++ Spec.records_of now w First.guelph.
Proof.
  unfold WVG.run_scraping, WVG.filter_waterloo_region, WVG.scrape_all.
  unfold WVG.scrape_innovation_guelph, WVG.scrape_communitech,
    WVG.scrape_velocity_incubator.
  cbn [WVG.founders_data].
  rewrite (proj1 (scrape_directory_split _ _ _ _ _ _)).
  rewrite (proj1 (scrape_betakit_split _ _ _)).
  rewrite (proj1 (scrape_directory_split _ _ _ _ _ _)).
  rewrite (proj1 (scrape_directory_split _ _ _ _ _ _)).
  cbn [WVG.init WVG.founders_data app].
  change (WVG.founders_data ?st) with (WVG.founders_data st).
  unfold First.plain_sources, Spec.sources.
  cbn [firstn flat_map]. rewrite app_nil_r.
  rewrite !List.filter_app.
  fold (Spec.in_region).
  rewrite !filter_records_of. cbn [Spec.label].
  change (Region.names_region "Velocity Incubator") with false.
  change (Region.names_region "Communitech") with false.
  change (Region.names_region "BetaKit") with false.
  change (Region.names_region "Innovation Guelph") with true.
  cbv iota. rewrite <- !app_assoc. reflexivity.
Qed.

(** ** The run of the second version *)

Lemma omap_all {A B : Type} (Q : B -> Prop) (g : A -> option B) (l : list A) :
  (forall a b, g a = Some b -> Q b) -> Forall Q (omap g l).
Proof.
  intros H. apply List.Forall_forall. intros b Hb.
  apply list_elem_of_In, list_elem_of_omap in Hb as (a & _ & Ha). eauto.
Qed.

Lemma angel_labelled (now : string) (el : Dom.node) (r : WVGv2.founder_info) :
  WVGv2.extract_angel_list_info now el = Some r -> Second.labelled r.
Proof.
  unfold WVGv2.extract_angel_list_info.
  destruct (WVGv2.find_element _ _); [|discriminate].
  destruct (WVGv2.find_element _ _); [|discriminate].
  destruct (WVGv2.find_element _ _); [|discriminate].
  intros [= <-]. unfold Second.labelled. simpl. auto.
Qed.

Lemma f6s_labelled (now : string) (el : Dom.node) (r : WVGv2.founder_info) :
  Advanced.extract_f6s_info now el = Some r -> Second.labelled r.
Proof.
  unfold Advanced.extract_f6s_info.
  destruct (WVGv2.find_element _ _); [|discriminate].
  destruct (WVGv2.find_element _ _); [|discriminate].
  destruct (WVGv2.find_element _ _); [|discriminate].
  intros [= <-]. unfold Second.labelled. simpl. auto.
Qed.

Lemma ecosystem_labelled (now : string) (el : Dom.node) (r : WVGv2.founder_info) :
  Advanced.extract_ecosystem_info now el = Some r -> Second.labelled r.
Proof.
  unfold Advanced.extract_ecosystem_info.
  destruct (_ || _); [|discriminate].
  intros [= <-]. unfold Second.labelled. simpl. auto.
Qed.

Lemma velocity_fund_labelled (now : string) (el : Dom.node)
    (r : WVGv2.founder_info) :
  WVGv2.extract_velocity_fund_info now el = Some r -> Second.labelled r.
Proof.
  unfold WVGv2.extract_velocity_fund_info.
  destruct (_ || _); [|discriminate].
  intros [= <-]. unfold Second.labelled. simpl. auto.
Qed.

Lemma dmz_labelled (now : string) (el : Dom.node) (r : WVGv2.founder_info) :
  WVGv2.extract_dmz_info now el = Some r -> Second.labelled r.
Proof.
  unfold WVGv2.extract_dmz_info.
  destruct (_ || _); [|discriminate].
  intros [= <-]. unfold Second.labelled. simpl. auto 6.
Qed.

Lemma add_records_all (Q : WVGv2.founder_info -> Prop) (st : Advanced.scraper)
    (records : list WVGv2.founder_info) :
  Forall Q (Advanced.founders_data st) -> Forall Q records ->
  Forall Q (Advanced.founders_data (Advanced.add_records st records)).
Proof. intros H1 H2. simpl. apply Forall_app. now split. Qed.

Lemma scrape_angel_list_labelled (now : string) (dr : option Advanced.driver)
    (st : Advanced.scraper) :
  Forall Second.labelled (Advanced.founders_data st) ->
  Forall Second.labelled
    (Advanced.founders_data (Advanced.scrape_angel_list now dr st)).
Proof.
  intros H. unfold Advanced.scrape_angel_list.
  destruct dr as [d|]; [|exact H].
  destruct (Advanced.angel_home d); [|exact H].
  revert st H. induction Advanced.search_terms as [|t ts IH]; intros st H;
    simpl; [exact H|].
  apply IH. unfold Advanced.angel_term.
  destruct (Advanced.angel_search d t); [|exact H].
  apply add_records_all; [exact H|].
  apply omap_all. intros ? ?. apply angel_labelled.
Qed.

Lemma scrape_all_labelled (now : string) (dr : option Advanced.driver)
    (w : WVG.web) :
  Forall Second.labelled (Advanced.founders_data (Advanced.scrape_all now dr w)).
Proof.
  unfold Advanced.scrape_all.
  assert (H0 : Forall Second.labelled (Advanced.founders_data Advanced.init))
    by constructor.
  pose proof (scrape_angel_list_labelled now dr _ H0) as H1.
  set (s1 := Advanced.scrape_angel_list now dr Advanced.init) in *.
  assert (H2 : Forall Second.labelled
                 (Advanced.founders_data (Advanced.scrape_f6s now dr s1))).
  { unfold Advanced.scrape_f6s. destruct dr as [d|]; [|exact H1].
    destruct (Advanced.f6s_startups d); [|exact H1].
    apply add_records_all; [exact H1|].
    apply omap_all. intros ? ?. apply f6s_labelled. }
  set (s2 := Advanced.scrape_f6s now dr s1) in *.
  assert (H3 : Forall Second.labelled
                 (Advanced.founders_data
                    (Advanced.scrape_startup_ecosystem now w s2))).
  { unfold Advanced.scrape_startup_ecosystem.
    destruct (w _); [|exact H2].
    apply add_records_all; [exact H2|].
    apply omap_all. intros ? ?. apply ecosystem_labelled. }
  set (s3 := Advanced.scrape_startup_ecosystem now w s2) in *.
  assert (H4 : Forall Second.labelled
                 (Advanced.founders_data (Advanced.scrape_velocity_fund now w s3))).
  { unfold Advanced.scrape_velocity_fund.
    destruct (w _); [|exact H3].
    apply add_records_all; [exact H3|].
    apply omap_all. intros ? ?. apply velocity_fund_labelled. }
  set (s4 := Advanced.scrape_velocity_fund now w s3) in *.
  unfold Advanced.scrape_dmz. destruct dr as [d|]; [|exact H4].
  destruct (Advanced.dmz_elements d); [|exact H4].
  apply add_records_all; [exact H4|].
  apply omap_all. intros ? ?. apply dmz_labelled.
Qed.

Lemma labelled_not_regional (f : WVGv2.founder_info) :
  Second.labelled f -> Region.names_region (WVGv2.source f) = false.
Proof.
  unfold Second.labelled, Advanced.labels. simpl.
  intros [<-|[<-|[<-|[<-|[<-|[]]]]]]; vm_compute; reflexivity.
Qed.

(** X6.  None of the labels of the second version names a region, so
    the region filter of [run_advanced_scraping] keeps a record exactly
    when its company name contains waterloo, kitchener, cambridge, guelph
    or kw, in any case.  The location that [extract_dmz_info] reads is
    not looked at. *)
Theorem advanced_filter_is_by_name (now : string) (dr : option Advanced.driver)
    (w : WVG.web) :
  Advanced.founders_data (Advanced.run_advanced_scraping now dr w)
  = List.filter Second.named_in_region
      (Advanced.founders_data (Advanced.scrape_all now dr w)).
Proof.
  unfold Advanced.run_advanced_scraping, Advanced.filter_waterloo_region.
  cbn [Advanced.founders_data].
  apply filter_ext_in. intros f Hf.
  pose proof (scrape_all_labelled now dr w) as H.
  rewrite List.Forall_forall in H. specialize (H f Hf).
  unfold Advanced.in_region, Second.named_in_region. rewrite region_test.
  rewrite (labelled_not_regional f H). apply orb_false_r.
Qed.

(** A card of Waterloo named "Acme Robotics" is dropped, a card of
    Toronto named "KW Robotics" is kept. *)
Lemma advanced_filter_drops_a_waterloo_card :
  map (fun f => (WVGv2.company_name f, WVGv2.location f))
    (Advanced.founders_data
       (Advanced.scrape_all "now" (Some Advanced.dmz_driver) Advanced.offline))
  = [("Acme Robotics", Some "Waterloo, ON"); ("KW Robotics", Some "Toronto, ON")]
  /\ map (fun f => (WVGv2.company_name f, WVGv2.location f))
       (Advanced.founders_data
          (Advanced.run_advanced_scraping "now" (Some Advanced.dmz_driver)
             Advanced.offline))
     = [("KW Robotics", Some "Toronto, ON")].
Proof. split; vm_compute; reflexivity. Qed.

(** ** The cards of the browser sources *)

Lemma dmz_company_name_split (selectors : list (Dom.node -> bool))
    (element : Dom.node) :
  WVGv2.dmz_company_name selectors element <> EmptyString ->
  exists pre sel post e,
    selectors = pre ++ sel :: post
    /\ Dom.find sel element = Some e
    /\ Dom.text e = WVGv2.dmz_company_name selectors element
    /\ Forall (Cards.matches_blank element) pre.
Proof.
  induction selectors as [|s rest IH]; simpl; [congruence|].
  unfold WVGv2.find_element.
  destruct (Dom.find s element) as [e|] eqn:E; [|congruence].
  destruct (Str.truthy (Dom.text e)) eqn:Et.
  - intros _. exists [], s, rest, e. repeat split; auto.
  - intros H. destruct (IH H) as (pre & sel & post & e' & -> & Hf & Ht & Hall).
    exists (s :: pre), sel, post, e'. repeat split; auto.
    constructor; [|exact Hall]. exists e. split; [exact E|].
    now apply truthy_false.
Qed.

(** X7.  The company name of [extract_dmz_info] is the text of the first
    name selector, in the order h1 to h6, company-name, startup-name,
    whose element has a text, and only if every selector before it has an
    element too: the first selector without an element raises and ends
    the search.  So a card without an [h1] has no company name. *)
Theorem dmz_name_needs_the_selectors_before (element : Dom.node) :
  (WVGv2.dmz_company_name WVGv2.dmz_name_selectors element <> EmptyString ->
   exists pre sel post e,
     WVGv2.dmz_name_selectors = pre ++ sel :: post
     /\ Dom.find sel element = Some e
     /\ Dom.text e = WVGv2.dmz_company_name WVGv2.dmz_name_selectors element
     /\ Forall (Cards.matches_blank element) pre)
  /\ (Dom.find (Dom.has_tag ["h1"]) element = None ->
      WVGv2.dmz_company_name WVGv2.dmz_name_selectors element = EmptyString).
Proof.
  split; [apply dmz_company_name_split|].
  intros H. unfold WVGv2.dmz_name_selectors.
  cbn [WVGv2.dmz_company_name]. unfold WVGv2.find_element. now rewrite H.
Qed.

(** The name behind an [h1] without text is found; the name of a card
    without [h1] is not. *)
Lemma dmz_name_needs_the_selectors_before_witness :
  (WVGv2.dmz_company_name WVGv2.dmz_name_selectors Cards.empty_h1_card
     = "Acme Robotics"
   /\ exists pre sel post e,
        WVGv2.dmz_name_selectors = pre ++ sel :: post
        /\ Dom.find sel Cards.empty_h1_card = Some e
        /\ Dom.text e
           = WVGv2.dmz_company_name WVGv2.dmz_name_selectors Cards.empty_h1_card
        /\ Forall (Cards.matches_blank Cards.empty_h1_card) pre)
  /\ (Dom.find (Dom.has_tag ["h1"]) Cards.h2_card = None
   /\ WVGv2.dmz_company_name WVGv2.dmz_name_selectors Cards.h2_card = EmptyString).
Proof.
  split; split.
  - vm_compute; reflexivity.
  - apply (proj1 (dmz_name_needs_the_selectors_before Cards.empty_h1_card)).
    vm_compute; discriminate.
  - vm_compute; reflexivity.
  - apply (proj2 (dmz_name_needs_the_selectors_before Cards.h2_card)).
    vm_compute; reflexivity.
Defined.

(** X8.  [extract_angel_list_info] and [extract_f6s_info] give a record
    exactly when the card has a name element, a founder element and a
    link with [http]: a card that lacks one of the three raises and gives
    nothing, whatever the others hold.  The record then has its [website]
    channel. *)
Theorem browser_cards_need_three_elements (now : string) (element : Dom.node) :
  (WVGv2.extract_angel_list_info now element = None <->
     Dom.find WVGv2.angel_name_selector element = None
     \/ Dom.find WVGv2.angel_founder_selector element = None
     \/ Dom.find WVGv2.http_link_selector element = None)
  /\ (Advanced.extract_f6s_info now element = None <->
     Dom.find Advanced.f6s_name_selector element = None
     \/ Dom.find Advanced.f6s_founder_selector element = None
     \/ Dom.find WVGv2.http_link_selector element = None)
  /\ (forall r,
        WVGv2.extract_angel_list_info now element = Some r
        \/ Advanced.extract_f6s_info now element = Some r ->
        is_Some (WVGv2.contact_info r !! "website")).
Proof.
  unfold WVGv2.extract_angel_list_info, Advanced.extract_f6s_info,
    WVGv2.find_element.
  destruct (Dom.find WVGv2.http_link_selector element) as [l|] eqn:El.
  - assert (Hl : is_Some (Dom.href_of l)).
    { apply find_some in El as [_ El]. unfold WVGv2.http_link_selector in El.
      apply andb_true_iff in El as [_ El]. unfold Dom.href_search in El.
      destruct (Dom.href_of l); [eauto|discriminate]. }
    destruct Hl as [h Hl]. rewrite Hl.
    split; [|split].
    + destruct (Dom.find WVGv2.angel_name_selector element);
        destruct (Dom.find WVGv2.angel_founder_selector element);
        split; try discriminate; auto; intros [?|[?|?]]; discriminate.
    + destruct (Dom.find Advanced.f6s_name_selector element);
        destruct (Dom.find Advanced.f6s_founder_selector element);
        split; try discriminate; auto; intros [?|[?|?]]; discriminate.
    + intros r [H|H].
      * destruct (Dom.find WVGv2.angel_name_selector element); [|discriminate].
        destruct (Dom.find WVGv2.angel_founder_selector element); [|discriminate].
        injection H as <-. simpl. rewrite lookup_insert_eq. eauto.
      * destruct (Dom.find Advanced.f6s_name_selector element); [|discriminate].
        destruct (Dom.find Advanced.f6s_founder_selector element); [|discriminate].
        injection H as <-. simpl. rewrite lookup_insert_eq. eauto.
  - split; [|split].
    + destruct (Dom.find WVGv2.angel_name_selector element);
        destruct (Dom.find WVGv2.angel_founder_selector element);
        split; auto.
    + destruct (Dom.find Advanced.f6s_name_selector element);
        destruct (Dom.find Advanced.f6s_founder_selector element);
        split; auto.
    + intros r [H|H].
      * destruct (Dom.find WVGv2.angel_name_selector element); [|discriminate].
        destruct (Dom.find WVGv2.angel_founder_selector element); discriminate.
      * destruct (Dom.find Advanced.f6s_name_selector element); [|discriminate].
        destruct (Dom.find Advanced.f6s_founder_selector element); discriminate.
Qed.

(** A card with a name and a link and no founder element gives no
    record; the card with the three elements has its website. *)
Lemma browser_cards_need_three_elements_witness :
  (Dom.find WVGv2.angel_founder_selector Cards.no_founder_card = None
   /\ WVGv2.extract_angel_list_info "now" Cards.no_founder_card = None)
  /\ (exists r,
        WVGv2.extract_angel_list_info "now" Examples.angel_blank_card = Some r
        /\ is_Some (WVGv2.contact_info r !! "website")).
Proof.
  split; [split|].
  - vm_compute; reflexivity.
  - apply (proj1 (browser_cards_need_three_elements "now" Cards.no_founder_card)).
    right. left. vm_compute; reflexivity.
  - eexists. split; [vm_compute; reflexivity|].
    apply (proj2 (proj2 (browser_cards_need_three_elements "now"
                           Examples.angel_blank_card))).
    left. vm_compute; reflexivity.
Defined.

(** ** The links of the Velocity directory *)

Lemma absolute_is_absolute (h : string) :
  Str.truthy h = true -> Cards.absolute_link (Velocity.absolute h).
Proof.
  intros H. unfold Velocity.absolute, Cards.absolute_link.
  destruct (Str.startswith h "/") eqn:E.
  - split; [discriminate|reflexivity].
  - split; [now apply truthy_true|exact E].
Qed.

Lemma scan_links_absolute (links : list Velocity.link) (acc : list string) :
  Forall Cards.absolute_link acc ->
  Forall Cards.absolute_link (fst (Velocity.scan_links links acc)).
Proof.
  revert acc. induction links as [|l links IH]; intros acc H; simpl; [exact H|].
  destruct (Velocity.href l) as [[h|]|e]; simpl; auto.
  destruct (Str.truthy h && _) eqn:E; auto.
  apply andb_true_iff in E as [E _].
  apply IH. apply Forall_app. split; [exact H|].
  constructor; [|constructor]. now apply absolute_is_absolute.
Qed.

Lemma try_selectors_absolute (p : Velocity.directory_page)
    (selectors : list string) (acc : list string) :
  Forall Cards.absolute_link acc ->
  Forall Cards.absolute_link (Velocity.try_selectors p selectors acc).
Proof.
  revert acc. induction selectors as [|sel rest IH]; intros acc H; simpl;
    [exact H|].
  destruct (Velocity.links_of p sel) as [links|e]; [|now apply IH].
  pose proof (scan_links_absolute links acc H) as H1.
  destruct (Velocity.scan_links links acc) as [found raised]. simpl in H1.
  destruct raised; [now apply IH|].
  destruct found; [now apply IH|exact H1].
Qed.

Lemma scan_all_links_absolute (links : list Velocity.link) (acc out : list string) :
  Forall Cards.absolute_link acc ->
  Velocity.scan_all_links links acc = Ok out ->
  Forall Cards.absolute_link out.
Proof.
  revert acc. induction links as [|l links IH]; intros acc H; simpl.
  - now intros [= <-].
  - destruct (Velocity.href l) as [h|e]; [|discriminate].
    destruct (Velocity.link_text l) as [t|e]; [|discriminate].
    destruct h as [h|], t as [t|]; try (now apply IH).
    destruct (Str.truthy h && Str.truthy t && _) eqn:E; [|now apply IH].
    apply andb_true_iff in E as [E _]. apply andb_true_iff in E as [E _].
    apply IH. apply Forall_app. split; [exact H|].
    constructor; [|constructor]. now apply absolute_is_absolute.
Qed.

(** X9.  Every link that [scrape_velocity_companies] collects from the
    directory page, by a strategy or by the fallback over all links, is a
    non-empty address that does not start with "/": a path of the site
    has been prefixed with https://www.velocityincubator.com. *)
Theorem collected_links_are_absolute (p : Velocity.directory_page)
    (company_links : list string) :
  Velocity.collect_links p = Ok company_links ->
  Forall Cards.absolute_link company_links.
Proof.
  unfold Velocity.collect_links.
  pose proof (try_selectors_absolute p Velocity.company_selectors []
                (Forall_nil_2 _)) as H.
  destruct (Velocity.try_selectors p Velocity.company_selectors [])
    as [|l found].
  - destruct (Velocity.links_of p "a") as [links|e]; [|discriminate].
    apply scan_all_links_absolute. constructor.
  - now intros [= <-].
Qed.

(** The links of the example page. *)
Lemma collected_links_are_absolute_witness :
  Velocity.collect_links Locator.directory_example
    = Ok ["https://www.velocityincubator.com/company/acme";
          "https://www.velocityincubator.com/company/beta"]
  /\ Forall Cards.absolute_link
       ["https://www.velocityincubator.com/company/acme";
        "https://www.velocityincubator.com/company/beta"].
Proof.
  split; [vm_compute; reflexivity|].
  apply (collected_links_are_absolute Locator.directory_example).
  vm_compute; reflexivity.
Defined.

(** ** velocity_scraper.py: the names of the founders *)

Lemma chars_app (a b : string) :
  list_ascii_of_string (a +:+ b) = (list_ascii_of_string a ++ list_ascii_of_string b)%list.
Proof. induction a as [|c a IH]; [reflexivity|]. simpl. f_equal. exact IH. Qed.

Lemma upper_is_name_char (c : ascii) : Str.is_upper c = true -> People.name_char c = true.
Proof. unfold People.name_char, Str.isalpha. now intros ->. Qed.

Lemma lower_is_name_char (c : ascii) : Str.is_lower c = true -> People.name_char c = true.
Proof. unfold People.name_char, Str.isalpha. intros ->. now rewrite orb_true_r. Qed.

Lemma lower_is_no_space (c : ascii) : Str.is_lower c = true -> Str.is_space c = false.
Proof.
  unfold Str.is_lower, Str.is_space. cbv zeta.
  rewrite andb_true_iff, !Nat.leb_le. intros [H1 H2].
  rewrite orb_false_iff, !andb_false_iff, !Nat.leb_gt. lia.
Qed.

Lemma upper_is_no_space (c : ascii) : Str.is_upper c = true -> Str.is_space c = false.
Proof.
  unfold Str.is_upper, Str.is_space. cbv zeta.
  rewrite andb_true_iff, !Nat.leb_le. intros [H1 H2].
  rewrite orb_false_iff, !andb_false_iff, !Nat.leb_gt. lia.
Qed.

Lemma span_chars (cls : ascii -> bool) (s a b : string) :
  People.span cls s = (a, b) -> forallb cls (list_ascii_of_string a) = true.
Proof.
  revert a b. induction s as [|c s IH]; intros a b; cbn [People.span].
  - now intros [= <- <-].
  - destruct (cls c) eqn:Hc.
    + destruct (People.span cls s) as [a' b'] eqn:E. intros [= <- <-].
      cbn. rewrite Hc. now apply (IH a' b').
    + now intros [= <- <-].
Qed.

Lemma ends_with_cons (cls : ascii -> bool) (c : ascii) (s : string) :
  People.ends_with cls s = true -> People.ends_with cls (String c s) = true.
Proof. destruct s; [discriminate|]. now cbn. Qed.

Lemma ends_with_app (cls : ascii -> bool) (a b : string) :
  People.ends_with cls b = true -> People.ends_with cls (a +:+ b) = true.
Proof.
  intros H. induction a as [|c a IH]; [exact H|].
  change (String c a +:+ b) with (String c (a +:+ b)).
  now apply ends_with_cons.
Qed.

Lemma ends_with_all (cls : ascii -> bool) (c : ascii) (s : string) :
  cls c = true -> forallb cls (list_ascii_of_string s) = true ->
  People.ends_with cls (String c s) = true.
Proof.
  revert c. induction s as [|d s IH]; intros c Hc H; [exact Hc|].
  cbn in H. apply andb_true_iff in H as [Hd H].
  apply ends_with_cons. now apply IH.
Qed.

(** a word of the pattern: a capital, then small letters to the end *)
Lemma eat_word_shape (s w rest : string) :
  People.eat_word s = Some (w, rest) ->
  People.starts_with Str.is_upper w = true
  /\ People.ends_with Str.is_lower w = true
  /\ forallb People.name_char (list_ascii_of_string w) = true.
Proof.
  unfold People.eat_word. destruct s as [|c r]; [discriminate|].
  destruct (Str.is_upper c) eqn:Hc; [|discriminate].
  destruct (People.span Str.is_lower r) as [a b] eqn:E.
  destruct a as [|d a]; [discriminate|]. intros [= <- <-].
  apply span_chars in E. cbn in E. apply andb_true_iff in E as [Hd E].
  split; [exact Hc|]. split.
  - apply ends_with_cons. now apply ends_with_all.
  - cbn. rewrite (upper_is_name_char _ Hc), (lower_is_name_char _ Hd). cbn.
    apply forallb_forall. intros x Hx.
    apply lower_is_name_char. now apply (proj1 (forallb_forall _ _) E).
Qed.

Lemma eat_last_shape (s w rest : string) :
  People.eat_last s = Some (w, rest) ->
  People.starts_with Str.is_upper w = true
  /\ People.ends_with Str.is_lower w = true
  /\ forallb People.name_char (list_ascii_of_string w) = true.
Proof.
  unfold People.eat_last. destruct (People.eat_word s) as [[w' r']|] eqn:E; [|discriminate].
  destruct (People.boundary r'); [|discriminate]. intros [= <- <-].
  now apply eat_word_shape in E.
Qed.

Lemma eat_initial_shape (s ini rest : string) :
  People.eat_initial s = Some (ini, rest) ->
  forallb People.name_char (list_ascii_of_string ini) = true.
Proof.
  unfold People.eat_initial.
  destruct s as [|c [|d [|e r]]]; try discriminate.
  destruct (Str.is_upper c) eqn:Hc; [|discriminate].
  destruct (Ascii.eqb_spec d "."); [|discriminate].
  destruct (Ascii.eqb_spec e " "); [|discriminate].
  cbn [andb]. intros [= <- <-]. subst. cbn.
  now rewrite (upper_is_name_char _ Hc).
Qed.


Lemma shaped_word (s w rest : string) :
  People.eat_word s = Some (w, rest) -> People.shaped w.
Proof. apply eat_word_shape. Qed.

Lemma starts_with_app (cls : ascii -> bool) (a b : string) :
  People.starts_with cls a = true -> People.starts_with cls (a +:+ b) = true.
Proof. now destruct a. Qed.

Lemma shaped_app (a mid b : string) :
  People.shaped a -> People.shaped b ->
  forallb People.name_char (list_ascii_of_string mid) = true ->
  People.shaped (a +:+ mid +:+ b).
Proof.
  intros (Ha1 & Ha2 & Ha3) (Hb1 & Hb2 & Hb3) Hmid. split; [|split].
  - now apply starts_with_app.
  - now apply ends_with_app, ends_with_app.
  - rewrite !chars_app, !forallb_app, Ha3, Hmid, Hb3. reflexivity.
Qed.

Lemma match_name_shaped (s name rest : string) :
  People.match_name s = Some (name, rest) -> People.shaped name.
Proof.
  unfold People.match_name.
  destruct (People.eat_word s) as [[first [|sp r]]|] eqn:E; try discriminate.
  destruct (Ascii.eqb_spec sp " "); [|discriminate]. cbv zeta.
  apply shaped_word in E.
  assert (Hdirect : match People.eat_last r with
                    | Some (l, rest0) => Some (first +:+ " " +:+ l, rest0)
                    | None => None
                    end = Some (name, rest) -> People.shaped name).
  { destruct (People.eat_last r) as [[l rest0]|] eqn:El; [|discriminate].
    intros [= <- <-]. apply eat_last_shape in El.
    now apply (shaped_app first " " l). }
  destruct (People.eat_initial r) as [[ini r']|] eqn:Ei; [|exact Hdirect].
  destruct (People.eat_last r') as [[l rest0]|] eqn:El; [|exact Hdirect].
  intros [= <- <-]. apply eat_last_shape in El. apply eat_initial_shape in Ei.
  change (first +:+ " " +:+ ini +:+ l) with (first +:+ (" " +:+ ini) +:+ l).
  now apply (shaped_app first (" " +:+ ini) l).
Qed.

Lemma names_from_shaped (s : string) (after_word : bool) (skip : nat) :
  Forall People.shaped (People.names_from after_word skip s).
Proof.
  revert after_word skip. induction s as [|c r IH]; intros aw skip.
  - constructor.
  - cbn [People.names_from]. destruct skip as [|k]; [|apply IH].
    destruct aw; [apply IH|].
    destruct (People.match_name (String c r)) as [[name rest]|] eqn:E; [|apply IH].
    constructor; [|apply IH]. now apply match_name_shaped in E.
Qed.

Lemma extract_names_well_formed (text : string) :
  Forall People.well_formed (People.extract_names_from_text text).
Proof.
  unfold People.extract_names_from_text.
  apply Forall_forall. intros name Hin.
  apply list_elem_of_In, List.filter_In in Hin as [Hin Hf].
  split.
  - exact (proj1 (Forall_forall _ _) (names_from_shaped text false 0) name
             (proj2 (list_elem_of_In _ _) Hin)).
  - now apply negb_true_iff in Hf.
Qed.

(** [name.strip()] is the name, for a name of the pattern *)
Lemma lstrip_shaped (name : string) :
  People.starts_with Str.is_upper name = true -> Str.lstrip name = name.
Proof.
  destruct name as [|c r]; [discriminate|]. cbn. intros H.
  now rewrite (upper_is_no_space _ H).
Qed.

Lemma rstrip_shaped (name : string) :
  People.ends_with Str.is_lower name = true -> Str.rstrip name = name.
Proof.
  induction name as [|c r IH]; [discriminate|].
  destruct r as [|d r].
  - cbn. intros H. now rewrite (lower_is_no_space _ H).
  - intros H. change (People.ends_with Str.is_lower (String d r) = true) in H.
    cbn [Str.rstrip]. cbn [Str.rstrip] in IH. rewrite (IH H). reflexivity.
Qed.

Lemma strip_shaped (name : string) : People.shaped name -> Str.strip name = name.
Proof.
  intros (H1 & H2 & _). unfold Str.strip.
  rewrite (lstrip_shaped _ H1). now apply rstrip_shaped.
Qed.

Lemma names_of_elements_well_formed (els : list (py (option string)))
    (founders : list string) :
  Forall People.well_formed founders ->
  Forall People.well_formed (People.names_of_elements els founders).
Proof.
  revert founders. induction els as [|e els IH]; intros founders H; [exact H|].
  cbn [People.names_of_elements]. destruct e as [[t|]|msg]; [|now apply IH|exact H].
  destruct (Str.truthy t); [|now apply IH].
  apply IH, Forall_app. split; [exact H|apply extract_names_well_formed].
Qed.

Lemma names_of_selectors_well_formed (p : Velocity.company_page)
    (selectors : list string) (founders : list string) :
  Forall People.well_formed founders ->
  Forall People.well_formed (People.names_of_selectors p selectors founders).
Proof.
  revert founders. induction selectors as [|sel rest IH]; intros founders H; [exact H|].
  cbn [People.names_of_selectors].
  destruct (Velocity.all_texts p sel) as [els|msg]; [|now apply IH].
  now apply IH, names_of_elements_well_formed.
Qed.

(** the clean-up of [extract_founders] changes no name: each one is
    stripped already and not empty *)
Lemma clean_up_well_formed (founders : list string) :
  Forall People.well_formed founders ->
  List.filter Str.truthy (map Str.strip founders) = founders.
Proof.
  induction 1 as [|name founders [Hs _] _ IH]; [reflexivity|].
  cbn [map List.filter]. rewrite (strip_shaped _ Hs), IH.
  destruct Hs as (H1 & _). now destruct name.
Qed.

Lemma Forall_set (list_set : list string -> list string) (P : string -> Prop)
    (l : list string) :
  People.is_set_of list_set -> Forall P l -> Forall P (list_set l).
Proof.
  intros Hset H. apply Forall_forall. intros x Hx.
  apply (proj1 (Forall_forall _ _) H).
  apply list_elem_of_In. apply list_elem_of_In in Hx.
  now apply (proj2 (Hset l)).
Qed.

Lemma length_set (list_set : list string -> list string) (l : list string) :
  People.is_set_of list_set -> (List.length (list_set l) <= List.length l)%nat.
Proof.
  intros Hset. destruct (Hset l) as [Hnd Hin].
  apply NoDup_incl_length.
  - now apply NoDup_ListNoDup.
  - intros x Hx. now apply Hin.
Qed.

Lemma set_nil (list_set : list string -> list string) :
  People.is_set_of list_set -> list_set [] = [].
Proof.
  intros Hset. destruct (list_set []) as [|x l] eqn:E; [reflexivity|].
  destruct (proj2 (Hset []) x) as [H _]. rewrite E in H. destruct H. now left.
Qed.

Lemma extract_founders_well_formed (list_set : list string -> list string)
    (p : Velocity.company_page) :
  People.is_set_of list_set ->
  Forall People.well_formed (People.extract_founders list_set p).
Proof.
  intros Hset. unfold People.extract_founders.
  assert (H : Forall People.well_formed
                (People.names_of_selectors p People.founder_selectors []))
    by (apply names_of_selectors_well_formed; constructor).
  rewrite (clean_up_well_formed _ H). now apply Forall_set.
Qed.

(** a name holds no separator of the cells *)
Lemma name_char_no_semicolon (c : ascii) :
  People.name_char c = true -> Ascii.eqb ";" c = false.
Proof.
  intros H. destruct (Ascii.eqb_spec ";" c) as [<-|]; [|reflexivity].
  discriminate H.
Qed.

Lemma name_chars_plain (v : string) :
  forallb People.name_char (list_ascii_of_string v) = true -> Sheet.plain v = true.
Proof.
  unfold Sheet.plain. intros H. apply negb_true_iff.
  induction v as [|c r IH]; [reflexivity|].
  cbn in H. apply andb_true_iff in H as [Hc H].
  cbn [Str.contains Str.startswith]. rewrite (name_char_no_semicolon _ Hc).
  cbn [andb orb]. now apply IH.
Qed.

Lemma well_formed_plain (founders : list string) :
  Forall People.well_formed founders -> forallb Sheet.plain founders = true.
Proof.
  induction 1 as [|name founders [(_ & _ & H) _] _ IH]; [reflexivity|].
  cbn. now rewrite (name_chars_plain _ H).
Qed.

(** ** velocity_scraper.py: the LinkedIn addresses *)

Lemma company_link_of_company (els : list (py (option string))) (h : string) :
  People.company_link_of els = Some h -> Str.contains "linkedin.com/company" h = true.
Proof.
  induction els as [|e els IH]; [discriminate|].
  cbn [People.company_link_of]. destruct e as [[t|]|msg]; [|exact IH|discriminate].
  destruct (Str.truthy t && Str.contains "linkedin.com/company" t) eqn:E; [|exact IH].
  intros [= <-]. now apply andb_true_iff in E as [_ E].
Qed.

Lemma company_link_of_selectors_company (answers : People.hrefs)
    (selectors : list string) (h : string) :
  People.company_link_of_selectors answers selectors = Some h ->
  Str.contains "linkedin.com/company" h = true.
Proof.
  induction selectors as [|sel rest IH]; [discriminate|].
  cbn [People.company_link_of_selectors].
  destruct (answers sel) as [els|msg]; [|exact IH].
  destruct (People.company_link_of els) as [h'|] eqn:E; [|exact IH].
  intros [= <-]. now apply company_link_of_company in E.
Qed.

(** a query adds at most one address, and only the address of a
    profile *)
Lemma profile_of_elements_adds (els : list (py (option string))) (acc : list string) :
  exists new, People.profile_of_elements els acc = (acc ++ new)%list
              /\ Forall People.profile new /\ (List.length new <= 1)%nat.
Proof.
  induction els as [|e els IH].
  - exists []. cbn. rewrite app_nil_r. repeat split; [constructor|lia].
  - cbn [People.profile_of_elements]. destruct e as [[t|]|msg]; [|exact IH|].
    + destruct (Str.truthy t && Str.contains "linkedin.com/in/" t) eqn:E; [|exact IH].
      exists [t]. apply andb_true_iff in E as [_ E].
      repeat split; [|cbn; lia]. constructor; [exact E|constructor].
    + exists []. cbn. rewrite app_nil_r. repeat split; [constructor|lia].
Qed.

Lemma profiles_of_query_adds (view : People.people_view) (acc : list string)
    (q : People.founder_query) :
  exists new, People.profiles_of_query view acc q = (acc ++ new)%list
              /\ Forall People.profile new /\ (List.length new <= 1)%nat.
Proof.
  unfold People.profiles_of_query. destruct (view q) as [els|msg].
  - apply profile_of_elements_adds.
  - exists []. cbn. rewrite app_nil_r. repeat split; [constructor|lia].
Qed.

Lemma profiles_of_founder_adds (view : People.people_view) (acc : list string)
    (founder : string) :
  exists new, People.profiles_of_founder view acc founder = (acc ++ new)%list
              /\ Forall People.profile new /\ (List.length new <= 3)%nat.
Proof.
  unfold People.profiles_of_founder, People.founder_queries. cbn [fold_left].
  destruct (profiles_of_query_adds view acc (People.HasText founder))
    as (n1 & -> & P1 & L1).
  destruct (profiles_of_query_adds view (acc ++ n1)%list (People.TitleHas founder))
    as (n2 & -> & P2 & L2).
  destruct (profiles_of_query_adds view ((acc ++ n1) ++ n2)%list (People.TextMatches founder))
    as (n3 & -> & P3 & L3).
  exists (n1 ++ n2 ++ n3)%list. rewrite <- !app_assoc. split; [reflexivity|]. split.
  - apply Forall_app. split; [exact P1|]. apply Forall_app. now split.
  - rewrite !length_app. lia.
Qed.

Lemma profiles_of_founders_adds (view : People.people_view) (founders : list string)
    (acc : list string) :
  exists new, fold_left (People.profiles_of_founder view) founders acc = (acc ++ new)%list
              /\ Forall People.profile new
              /\ (List.length new <= 3 * List.length founders)%nat.
Proof.
  revert acc. induction founders as [|f founders IH]; intros acc.
  - exists []. cbn. rewrite app_nil_r. repeat split; [constructor|lia].
  - cbn [fold_left].
    destruct (profiles_of_founder_adds view acc f) as (n1 & -> & P1 & L1).
    destruct (IH (acc ++ n1)%list) as (n2 & -> & P2 & L2).
    exists (n1 ++ n2)%list. rewrite <- app_assoc. split; [reflexivity|]. split.
    + apply Forall_app. now split.
    + rewrite length_app. cbn [List.length]. lia.
Qed.

Lemma extract_founder_linkedins_profiles (list_set : list string -> list string)
    (s : People.site) (url : string) (founders : list string) :
  People.is_set_of list_set ->
  Forall People.profile (People.extract_founder_linkedins list_set s url founders)
  /\ (List.length (People.extract_founder_linkedins list_set s url founders)
      <= 3 * List.length founders)%nat.
Proof.
  intros Hset. unfold People.extract_founder_linkedins.
  destruct (negb (Str.truthy url)); [split; [constructor|cbn; lia]|].
  destruct founders as [|f founders]; [split; [constructor|cbn; lia]|].
  destruct (People.linkedin_at s url) as [lp|msg].
  - destruct (People.click_people lp People.people_selectors) as [view|];
      [|split; [constructor|cbn; lia]].
    destruct (profiles_of_founders_adds view (f :: founders) [])
      as (new & -> & P & L).
    cbn [app]. split; [now apply Forall_set|].
    pose proof (length_set list_set new Hset). lia.
  - rewrite (set_nil _ Hset). split; [constructor|cbn; lia].
Qed.

(** [first_occurrences] is one order of [list(set(l))] *)
Lemma first_occurrences_In (l : list string) (x : string) :
  In x (People.first_occurrences l) <-> In x l.
Proof.
  induction l as [|a r IH]; [reflexivity|].
  cbn [People.first_occurrences In]. rewrite List.filter_In, IH, negb_true_iff.
  destruct (String.eqb_spec a x) as [->|Hne].
  - split; intros _; now left.
  - split; [intros [H|[H _]]; [now left|now right]|].
    intros [H|H]; [now left|right; now split].
Qed.

Lemma first_occurrences_NoDup (l : list string) :
  List.NoDup (People.first_occurrences l).
Proof.
  induction l as [|a r IH]; [constructor|].
  cbn [People.first_occurrences]. constructor.
  - rewrite List.filter_In, negb_true_iff, String.eqb_refl. now intros [_ H].
  - now apply List.NoDup_filter.
Qed.

Lemma first_occurrences_is_set : People.is_set_of People.first_occurrences.
Proof.
  intros l. split.
  - apply NoDup_ListNoDup, first_occurrences_NoDup.
  - intros x. apply first_occurrences_In.
Qed.

Section Records.

Variable list_set : list string -> list string.
Variable s : People.site.
Variable b : Velocity.browser.
Hypothesis list_set_is_set : People.is_set_of list_set.

Lemma process_company_sound (url : string) (d : Velocity.company_data) :
  People.process_company list_set s b url = Some d -> People.sound d.
Proof.
  unfold People.process_company, Velocity.process_company.
  destruct (Velocity.company_at b url) as [p|msg]; [|discriminate].
  assert (H : Velocity.extract_company (People.extract_founders list_set)
                (People.extract_company_linkedin s)
                (People.extract_founder_linkedins list_set s) p = Some d ->
              People.sound d).
  { unfold Velocity.extract_company. cbv zeta.
    destruct (Velocity.extract_company_name p) as [|c name] eqn:En; [discriminate|].
    cbn [Str.truthy negb]. intros [= <-]. unfold People.sound.
    cbn [Velocity.Company Velocity.Founders Velocity.Linkedins].
    split; [discriminate|].
    split; [now apply extract_founders_well_formed|].
    destruct (People.extract_company_linkedin s p) as [url'|];
      [|split; [constructor|cbn; lia]].
    destruct (People.extract_founders list_set p) as [|f founders] eqn:Ef;
      [split; [constructor|cbn; lia]|].
    destruct (Str.truthy url'); [|split; [constructor|cbn; lia]].
    now apply extract_founder_linkedins_profiles. }
  unfold Velocity.process_company_from.
  destruct (Velocity.extract_velocity_join_year p) as [y|]; [|exact H].
  destruct (y <? 2023)%Z; [discriminate|exact H].
Qed.

Lemma process_links_adds (max_companies : Z) (company_links : list string)
    (successful : Z) (data : list Velocity.company_data) :
  exists new,
    Velocity.process_links (People.extract_founders list_set)
      (People.extract_company_linkedin s)
      (People.extract_founder_linkedins list_set s) b max_companies
      company_links successful data = (data ++ new)%list
    /\ Forall People.sound new
    /\ (Z.of_nat (List.length new) <= Z.max (max_companies - successful) 0)%Z.
Proof.
  revert successful data.
  induction company_links as [|url rest IH]; intros successful data.
  - exists []. cbn. rewrite app_nil_r. repeat split; [constructor|lia].
  - cbn [Velocity.process_links].
    destruct (max_companies <=? successful)%Z eqn:Hcap.
    { exists []. rewrite app_nil_r. repeat split; [constructor|cbn; lia]. }
    apply Z.leb_gt in Hcap.
    destruct (Velocity.process_company _ _ _ b url) as [d|] eqn:E.
    + destruct (IH (successful + 1)%Z (data ++ [d])%list) as (new & -> & P & L).
      exists (d :: new). rewrite <- app_assoc. split; [reflexivity|]. split.
      * constructor; [|exact P]. now apply (process_company_sound url).
      * cbn [List.length]. lia.
    + destruct (IH successful data) as (new & -> & P & L).
      exists new. repeat split; [exact P|lia].
Qed.

Lemma scrape_velocity_companies_adds (max_companies : Z)
    (data : list Velocity.company_data) :
  exists new,
    People.scrape_velocity_companies list_set s b max_companies data
      = (data ++ new)%list
    /\ Forall People.sound new
    /\ (Z.of_nat (List.length new) <= Z.max max_companies 0)%Z.
Proof.
  unfold People.scrape_velocity_companies, Velocity.scrape_velocity_companies.
  assert (Hnone : exists new : list Velocity.company_data,
             data = (data ++ new)%list /\ Forall People.sound new
             /\ (Z.of_nat (List.length new) <= Z.max max_companies 0)%Z).
  { exists []. rewrite app_nil_r. repeat split; [constructor|cbn; lia]. }
  destruct (Velocity.directory b) as [p|msg]; [|exact Hnone].
  destruct (Velocity.collect_links p) as [links|msg]; [|exact Hnone].
  destruct (process_links_adds max_companies (list_set links) 0 data)
    as (new & -> & P & L).
  exists new. repeat split; [exact P|lia].
Qed.

End Records.

(** X10.  Every name that [extract_names_from_text] returns starts with a
    capital, ends with a small letter, holds only letters, spaces and
    periods, contains none of company, inc, llc, corp and ltd in lower
    case, and is its own [strip()]. *)
Theorem names_of_a_text_are_well_formed (text : string) :
  Forall (fun name => People.well_formed name /\ Str.strip name = name)
    (People.extract_names_from_text text).
Proof.
  pose proof (extract_names_well_formed text) as H.
  induction H as [|name names Hn _ IH]; constructor; [|exact IH].
  split; [exact Hn|]. apply strip_shaped. exact (proj1 Hn).
Qed.

(** a first name that holds a company word costs the person *)
Lemma names_with_a_company_word_are_dropped :
  People.extract_names_from_text "Vincent Smith, Jane Doe, Acme Inc" = ["Jane Doe"].
Proof. vm_compute. reflexivity. Qed.

(** X11.  With [list(set(...))] any list of the elements without
    repetition, every founder of [extract_founders] is a well-formed
    name, whatever the page answers and wherever it raises, and none
    holds the separator of the cells of [export_to_excel]. *)
Theorem founders_are_names (list_set : list string -> list string)
    (p : Velocity.company_page) :
  People.is_set_of list_set ->
  Forall People.well_formed (People.extract_founders list_set p)
  /\ forallb Sheet.plain (People.extract_founders list_set p) = true.
Proof.
  intros Hset.
  pose proof (extract_founders_well_formed list_set p Hset) as H.
  split; [exact H|]. now apply well_formed_plain.
Qed.

Lemma founders_are_names_witness :
  People.is_set_of People.first_occurrences
  /\ People.extract_founders People.first_occurrences People.team_page
     = ["Jane Doe"; "John A. Roe"]
  /\ Forall People.well_formed
       (People.extract_founders People.first_occurrences People.team_page)
  /\ forallb Sheet.plain
       (People.extract_founders People.first_occurrences People.team_page) = true.
Proof.
  split; [exact first_occurrences_is_set|].
  split; [vm_compute; reflexivity|].
  apply (founders_are_names People.first_occurrences People.team_page).
  exact first_occurrences_is_set.
Defined.

(** X12.  The founders cell of a record re-splits on the separator to
    the founders that [extract_founders] returned, when there is one. *)
Theorem founders_cell_reparses (list_set : list string -> list string)
    (p : Velocity.company_page) :
  People.is_set_of list_set ->
  People.extract_founders list_set p <> [] ->
  Velocity.reparse (Velocity.cell (People.extract_founders list_set p))
  = People.extract_founders list_set p.
Proof.
  intros Hset Hne. apply reparse_cell; [exact Hne|].
  apply well_formed_plain. now apply extract_founders_well_formed.
Qed.

Lemma founders_cell_reparses_witness :
  People.is_set_of People.first_occurrences
  /\ People.extract_founders People.first_occurrences People.team_page <> []
  /\ Velocity.cell (People.extract_founders People.first_occurrences People.team_page)
     = "Jane Doe; John A. Roe"
  /\ Velocity.reparse
       (Velocity.cell (People.extract_founders People.first_occurrences People.team_page))
     = People.extract_founders People.first_occurrences People.team_page.
Proof.
  split; [exact first_occurrences_is_set|].
  split; [vm_compute; discriminate|].
  split; [vm_compute; reflexivity|].
  apply (founders_cell_reparses People.first_occurrences People.team_page).
  - exact first_occurrences_is_set.
  - vm_compute; discriminate.
Defined.

(** X13.  The address that [extract_company_linkedin] returns contains
    linkedin.com/company, for each of its three selectors: the address of
    a profile, which the second selector asks for, is never returned. *)
Theorem company_linkedin_is_a_company_address (s : People.site)
    (p : Velocity.company_page) (h : string) :
  People.extract_company_linkedin s p = Some h ->
  Str.contains "linkedin.com/company" h = true.
Proof. apply company_link_of_selectors_company. Qed.

Lemma company_linkedin_is_a_company_address_witness :
  People.extract_company_linkedin People.team_site People.team_page
    = Some "https://www.linkedin.com/company/acme"
  /\ Str.contains "linkedin.com/company" "https://www.linkedin.com/company/acme" = true.
Proof.
  split; [vm_compute; reflexivity|].
  apply (company_linkedin_is_a_company_address People.team_site People.team_page).
  vm_compute; reflexivity.
Defined.

(** X14.  Every address that [extract_founder_linkedins] returns contains
    linkedin.com/in/, and there are at most three for a founder: one for
    each of the three queries, whose [break] ends the elements of the
    query only. *)
Theorem founder_profiles_are_profiles (list_set : list string -> list string)
    (s : People.site) (company_linkedin_url : string) (founders : list string) :
  People.is_set_of list_set ->
  Forall People.profile
    (People.extract_founder_linkedins list_set s company_linkedin_url founders)
  /\ (List.length
        (People.extract_founder_linkedins list_set s company_linkedin_url founders)
      <= 3 * List.length founders)%nat.
Proof. apply extract_founder_linkedins_profiles. Qed.

Lemma founder_profiles_are_profiles_witness :
  People.is_set_of People.first_occurrences
  /\ People.extract_founder_linkedins People.first_occurrences People.team_site
       "https://www.linkedin.com/company/acme" ["Jane Doe"; "John A. Roe"]
     = ["https://www.linkedin.com/in/janedoe"]
  /\ Forall People.profile
       (People.extract_founder_linkedins People.first_occurrences People.team_site
          "https://www.linkedin.com/company/acme" ["Jane Doe"; "John A. Roe"])
  /\ (List.length
        (People.extract_founder_linkedins People.first_occurrences People.team_site
           "https://www.linkedin.com/company/acme" ["Jane Doe"; "John A. Roe"])
      <= 3 * List.length ["Jane Doe"; "John A. Roe"])%nat.
Proof.
  split; [exact first_occurrences_is_set|].
  split; [vm_compute; reflexivity|].
  apply (founder_profiles_are_profiles People.first_occurrences People.team_site).
  exact first_occurrences_is_set.
Defined.

(** without a founder, without an address, without a page or without a
    people tab there is no profile *)
Lemma no_profiles_without_people (list_set : list string -> list string)
    (s : People.site) (url : string) (founders : list string) :
  People.is_set_of list_set ->
  url = EmptyString \/ founders = []
  \/ (exists msg, People.linkedin_at s url = Exc msg)
  \/ (exists lp, People.linkedin_at s url = Ok lp
                 /\ People.click_people lp People.people_selectors = None) ->
  People.extract_founder_linkedins list_set s url founders = [].
Proof.
  intros Hset. unfold People.extract_founder_linkedins.
  intros [->|[->|[[msg E]|(lp & E & Ec)]]].
  - reflexivity.
  - now destruct (negb (Str.truthy url)).
  - rewrite E, (set_nil _ Hset).
    destruct (negb (Str.truthy url)); [reflexivity|]. now destruct founders.
  - rewrite E, Ec.
    destruct (negb (Str.truthy url)); [reflexivity|]. now destruct founders.
Qed.

(** X15.  [scrape_velocity_companies] keeps the records it starts with
    and appends at most [max_companies] records, none for a cap below 1;
    each appended record has a company name that is not empty, founders
    that are well-formed names, profile addresses only, and at most
    three of them for a founder, so none without a founder. *)
Theorem scraped_records_are_sound (list_set : list string -> list string)
    (s : People.site) (b : Velocity.browser) (max_companies : Z)
    (companies_data : list Velocity.company_data) :
  People.is_set_of list_set ->
  exists new,
    People.scrape_velocity_companies list_set s b max_companies companies_data
      = (companies_data ++ new)%list
    /\ Forall People.sound new
    /\ (Z.of_nat (List.length new) <= Z.max max_companies 0)%Z.
Proof. intros Hset. now apply scrape_velocity_companies_adds. Qed.

Lemma scraped_records_are_sound_witness :
  People.is_set_of People.first_occurrences
  /\ People.scrape_velocity_companies People.first_occurrences People.team_site
       People.team_browser 1 [Sheet.lonely]
     = [Sheet.lonely; People.acme_team]
  /\ exists new,
       People.scrape_velocity_companies People.first_occurrences People.team_site
         People.team_browser 1 [Sheet.lonely]
       = ([Sheet.lonely] ++ new)%list
       /\ Forall People.sound new
       /\ (Z.of_nat (List.length new) <= Z.max 1 0)%Z.
Proof.
  split; [exact first_occurrences_is_set|].
  split; [vm_compute; reflexivity|].
  apply (scraped_records_are_sound People.first_occurrences People.team_site
           People.team_browser 1 [Sheet.lonely]).
  exact first_occurrences_is_set.
Defined.

(** X16.  [extract_velocity_join_year] answers no year or a year from
    2023 to 2025, so the test for a year before 2023 in [process_company]
    never holds: a company page that loads is processed, whatever year it
    names, and gives a record unless its company name is empty. *)
Theorem join_year_never_skips
    (extract_founders : Velocity.company_page -> list string)
    (extract_company_linkedin : Velocity.company_page -> option string)
    (extract_founder_linkedins : string -> list string -> list string)
    (b : Velocity.browser) (company_url : string) :
  Velocity.process_company extract_founders extract_company_linkedin
    extract_founder_linkedins b company_url
  = match Velocity.company_at b company_url with
    | Exc _ => None
    | Ok p =>
        Velocity.extract_company extract_founders extract_company_linkedin
          extract_founder_linkedins p
    end
  /\ match Velocity.company_at b company_url with
     | Exc _ => True
     | Ok p =>
         match Velocity.extract_velocity_join_year p with
         | Some y => (2023 <= y <= 2025)%Z
         | None => True
         end
     end.
Proof.
  unfold Velocity.process_company.
  destruct (Velocity.company_at b company_url) as [p|msg]; [|now split].
  unfold Velocity.process_company_from.
  destruct (Velocity.extract_velocity_join_year p) as [y|] eqn:Ey; [|now split].
  apply join_year_is_recent in Ey. split; [|exact Ey].
  destruct (y <? 2023)%Z eqn:Hy; [|reflexivity].
  apply Z.ltb_lt in Hy. lia.
Qed.

(** a page that names 2019 as the year is processed *)
Lemma old_company_is_processed :
  Velocity.extract_velocity_join_year
    {| Velocity.all_texts := fun _ => Ok [Ok (Some "Year joined: 2019")];
       Velocity.first_text := fun _ => Ok (Some "Old Co");
       Velocity.content := Ok "<html><p>Joined Velocity in 2019</p></html>";
       Velocity.title := Ok "Old Co" |} = None.
Proof. vm_compute. reflexivity. Qed.
